(** * anti-api: credential sessions, auth routes and model catalog

    A shallow embedding of

      - [src/services/antigravity/login.ts]  (module [Login])
      - [src/routes/auth/route.ts]           (module [AuthRoute])
      - the model catalog and the routing configuration, whose sources are
        [~/services/routing/models] and [src/routes/routing/route.ts]
        (modules [Models] and [Routing]).

    JavaScript values are modelled as the TypeScript types declare them: an
    optional string is [option string], a number is [Z], a thrown [Error] is
    its message.  Everything that lives in another module of the program
    (network calls, the callback listener, the clock, the file system, the
    other providers' services) is a field of a record of collaborators acting
    on an opaque environment [E]. *)

From Stdlib Require Import String Ascii List ZArith Lia Bool DecimalString.
Import ListNotations.

Local Open Scope string_scope.
Local Open Scope Z_scope.

(* ===================================================================== *)
(** ** JavaScript primitives used by the sources *)
(* ===================================================================== *)

Module JS.

(** The outcome of running a piece of JavaScript: it returns a value or it
    throws an [Error], kept as its [message]. *)
Inductive Completion (A : Type) : Type :=
| Returned (a : A)
| Thrown (message : string).
Arguments Returned {A} a.
Arguments Thrown {A} message.

(** Truthiness of [string | undefined]: [undefined] and the empty string are
    falsy.  [truthy v] is the string itself when [v] is truthy. *)
Definition truthy (v : option string) : option string :=
  match v with
  | Some s => if (s =? "")%string then None else Some s
  | None => None
  end.

(** [v || d] for an optional string on the left. *)
Definition orElse (v : option string) (d : string) : string :=
  match truthy v with Some s => s | None => d end.

(** [v || undefined] and [v || null]. *)
Definition orUndefined (v : option string) : option string := truthy v.

(** [n || undefined] for [number | null]: [0] is falsy. *)
Definition numOrUndefined (n : option Z) : option Z :=
  match n with
  | Some z => if z =? 0 then None else Some z
  | None => None
  end.

(** [n || 0]. *)
Definition numOrZero (n : option Z) : Z :=
  match n with Some z => z | None => 0 end.

(** Template-literal rendering of an integer. *)
Definition showNumber (z : Z) : string := NilZero.string_of_int (Z.to_int z).

(** [s.split("@")[0]]: the text before the first at-sign. *)
Fixpoint beforeAt (s : string) : string :=
  match s with
  | EmptyString => EmptyString
  | String c rest =>
      if Ascii.eqb c "@"%char then EmptyString else String c (beforeAt rest)
  end.

(** White space removed by [String.prototype.trim] (within ASCII). *)
Definition isSpace (c : ascii) : bool :=
  let n := nat_of_ascii c in
  orb (Nat.eqb n 32) (andb (Nat.leb 9 n) (Nat.leb n 13)).

Fixpoint trimStart (s : string) : string :=
  match s with
  | EmptyString => EmptyString
  | String c rest => if isSpace c then trimStart rest else s
  end.

(** [trimEnd] drops the trailing run of white space. *)
Fixpoint trimEnd (s : string) : string :=
  match s with
  | EmptyString => EmptyString
  | String c rest =>
      match trimEnd rest with
      | EmptyString => if isSpace c then EmptyString else String c EmptyString
      | r => String c r
      end
  end.

Definition trim (s : string) : string := trimEnd (trimStart s).

(** [String.prototype.toLowerCase] (within ASCII). *)
Definition lowerChar (c : ascii) : ascii :=
  let n := nat_of_ascii c in
  if andb (Nat.leb 65 n) (Nat.leb n 90) then ascii_of_nat (n + 32) else c.

Fixpoint toLowerCase (s : string) : string :=
  match s with
  | EmptyString => EmptyString
  | String c rest => String (lowerChar c) (toLowerCase rest)
  end.

End JS.
Export JS.

(* ===================================================================== *)
(** ** JSON bodies and HTTP responses *)
(* ===================================================================== *)

Module Http.

#[warnings="-register-all"]
Inductive Json : Type :=
| JNull
| JBool (b : bool)
| JNum (n : Z)
| JStr (s : string)
| JArr (items : list Json)
| JObj (fields : list (string * Json)).

(** A property whose value is [undefined] is left out by [JSON.stringify]. *)
Definition optField (k : string) (v : option Json) : list (string * Json) :=
  match v with Some j => [(k, j)] | None => [] end.

Definition optStr (v : option string) : option Json := option_map JStr v.

Inductive Method : Type := GET | POST | PUT | DELETE | PATCH | OPTIONS.

Definition Method_eqb (a b : Method) : bool :=
  match a, b with
  | GET, GET | POST, POST | PUT, PUT | DELETE, DELETE
  | PATCH, PATCH | OPTIONS, OPTIONS => true
  | _, _ => false
  end.

Inductive Body : Type :=
| JsonBody (j : Json)
| TextBody (t : string).

Record Response : Type := mkResponse {
  status : Z;
  body : Body
}.

(** [c.json(value)] and [c.json(value, status)]. *)
Definition json (j : Json) (code : Z) : Response := mkResponse code (JsonBody j).
Definition json200 (j : Json) : Response := json j 200.

Fixpoint lookupField (k : string) (fs : list (string * Json)) : option Json :=
  match fs with
  | [] => None
  | (k', v) :: rest => if (k =? k')%string then Some v else lookupField k rest
  end.

Definition field (k : string) (r : Response) : option Json :=
  match body r with
  | JsonBody (JObj fs) => lookupField k fs
  | _ => None
  end.

End Http.
Export Http.

(* ===================================================================== *)
(** ** Effects: mutable state plus exceptions *)
(* ===================================================================== *)

Module Effects.

(** A computation over the mutable state [W] that returns or throws.
    An [await] is sequencing: one operation runs without interleaving. *)
Definition Eff (W A : Type) : Type := W -> Completion A * W.

Definition ret {W A} (a : A) : Eff W A := fun w => (Returned a, w).

Definition throw {W A} (message : string) : Eff W A := fun w => (Thrown message, w).

Definition bind {W A B} (m : Eff W A) (k : A -> Eff W B) : Eff W B :=
  fun w =>
    match m w with
    | (Returned a, w') => k a w'
    | (Thrown message, w') => (Thrown message, w')
    end.

(** [try { m } catch (error) { h((error as Error).message) }]. *)
Definition tryCatch {W A} (m : Eff W A) (h : string -> Eff W A) : Eff W A :=
  fun w =>
    match m w with
    | (Returned a, w') => (Returned a, w')
    | (Thrown message, w') => h message w'
    end.

(** [try { m } catch {}]. *)
Definition quietly {W} (m : Eff W unit) : Eff W unit :=
  tryCatch m (fun _ => ret tt).

Declare Scope js_scope.
Delimit Scope js_scope with js.
Notation "x <- m ;; k" := (bind m (fun x => k))
  (at level 61, m at next level, right associativity) : js_scope.
Notation "' pat <- m ;; k" := (bind m (fun x => match x with pat => k end))
  (at level 61, pat pattern, m at next level, right associativity) : js_scope.
Notation "m ;; k" := (bind m (fun _ => k))
  (at level 61, right associativity) : js_scope.

End Effects.
Export Effects.

(* ===================================================================== *)
(** ** src/services/antigravity/login.ts *)
(* ===================================================================== *)

Module Login.

(** Handle of a callback listener ([{ stop: () => void }]). *)
Definition Server : Type := nat.

(** What [exchangeCode] resolves to. *)
Record Tokens : Type := mkTokens {
  tok_accessToken : string;
  tok_refreshToken : string;
  tok_expiresIn : Z
}.

(** What [fetchUserInfo] resolves to. *)
Record UserInfo : Type := mkUserInfo { ui_email : string }.

(** [interface AuthData], the content of [auth.json]. *)
Record AuthData : Type := mkAuthData {
  ad_accessToken : option string;
  ad_refreshToken : string;
  ad_userEmail : option string;
  ad_userName : option string;
  ad_expiresAt : option Z;
  ad_projectId : option string
}.

(** [type OAuthCallbackResult]. *)
Record OAuthCallbackResult : Type := mkCallback {
  cb_code : option string;
  cb_state : option string;
  cb_error : option string
}.

(** [type AntigravityOAuthSession]. *)
Record AntigravityOAuthSession : Type := mkSession {
  state : string;
  authUrl : string;
  redirectUri : string;
  expiresAt : Z;
  server : Server;
  callback : option OAuthCallbackResult
}.

(** The descriptor returned by [startAntigravityOAuthSession]. *)
Record SessionDescriptor : Type := mkDescriptor {
  d_state : string;
  d_authUrl : string;
  d_redirectUri : string;
  d_expiresAt : Z
}.

Definition describe (s : AntigravityOAuthSession) : SessionDescriptor :=
  mkDescriptor (state s) (authUrl s) (redirectUri s) (expiresAt s).

(** The fields of [state] from [~/lib/state] that this module writes. *)
Record AppState : Type := mkAppState {
  accessToken : option string;
  antigravityToken : option string;
  refreshToken : option string;
  tokenExpiresAt : option Z;
  userEmail : option string;
  userName : option string;
  cloudaicompanionProject : option string
}.

(** [{ success; error?; email? }]. *)
Record LoginResult : Type := mkLoginResult {
  success : bool;
  error : option string;
  email : option string
}.

Inductive PollStatus : Type := pending | succeeded | failed.

(** [{ status; message?; email? }]. *)
Record PollResult : Type := mkPollResult {
  poll_status : PollStatus;
  poll_message : option string;
  poll_email : option string
}.

(** Calls that leave the module, in the order they are made. *)
Inductive Event : Type :=
| CallStartOAuthCallbackServer
| CallServerStop (srv : Server)
| CallGenerateState
| CallExchangeCode (code uri : string)
| CallFetchUserInfo (token : string)
| CallGetProjectID (token : string)
| CallWriteAuthFile (data : AuthData)
| CallWaitForCallback (srv : Server)
| CallSpawn (argv : list string)
| CallOther (name : string).

(** The collaborators of [login.ts]: [./oauth], [./project-id], the clock,
    the process environment and the file system.  Each acts on the opaque
    environment [E]; the asynchronous ones may reject. *)
Record Collaborators (E : Type) : Type := mkCollaborators {
  startOAuthCallbackServer : E -> Completion (Server * Z) * E;
  serverStop : Server -> E -> Completion unit * E;
  waitForCallback : Server -> E -> option (Completion OAuthCallbackResult) * E;
  generateState : E -> string * E;
  generateAuthURL : string -> string -> string;
  exchangeCode : string -> string -> E -> Completion Tokens * E;
  fetchUserInfo : string -> E -> Completion UserInfo * E;
  getProjectID : string -> E -> Completion (option string) * E;
  (** Modelled from the spec: [generateMockProjectId] of [./project-id] is
      not among the sources. The source calls it without arguments and the
      spec calls its result a deterministic placeholder identifier, so it is
      a value. *)
  generateMockProjectId : string;
  dateNow : E -> Z;
  envRedirectUrl : E -> option string;
  envNoOpen : E -> option string;
  platform : E -> string;
  spawn : list string -> E -> Completion unit * E;
  writeAuthFile : AuthData -> E -> Completion unit * E
}.
Arguments startOAuthCallbackServer {E}.
Arguments serverStop {E}.
Arguments waitForCallback {E}.
Arguments generateState {E}.
Arguments generateAuthURL {E}.
Arguments exchangeCode {E}.
Arguments fetchUserInfo {E}.
Arguments getProjectID {E}.
Arguments generateMockProjectId {E}.
Arguments dateNow {E}.
Arguments envRedirectUrl {E}.
Arguments envNoOpen {E}.
Arguments platform {E}.
Arguments spawn {E}.
Arguments writeAuthFile {E}.

(** The module-level variable [activeAntigravityOAuthSession], the shared
    [state] object, the calls made so far and the environment. *)
Record World (E : Type) : Type := mkWorld {
  activeAntigravityOAuthSession : option AntigravityOAuthSession;
  appState : AppState;
  calls : list Event;
  env : E
}.
Arguments mkWorld {E}.
Arguments activeAntigravityOAuthSession {E}.
Arguments appState {E}.
Arguments calls {E}.
Arguments env {E}.

(** The computations of this module. *)
Definition M (E A : Type) : Type := Eff (World E) A.

(** The process once the outside world has moved on to [e] (time passes,
    the network answers): between two operations only [env] changes. *)
Definition withEnv {E} (e : E) (w : World E) : World E :=
  mkWorld (activeAntigravityOAuthSession w) (appState w) (calls w) e.

Local Open Scope js_scope.

(** A call to a collaborator: it is recorded and acts on the environment. *)
Definition call {E A} (ev : Event) (f : E -> Completion A * E) : M E A :=
  fun w =>
    let (r, e) := f (env w) in
    (r, mkWorld (activeAntigravityOAuthSession w) (appState w) (calls w ++ [ev]) e).

(** A call that cannot reject. *)
Definition callPure {E A} (ev : Event) (f : E -> A * E) : M E A :=
  call ev (fun e => let (a, e') := f e in (Returned a, e')).

(** A read of the environment ([Date.now()], [process.env], ...). *)
Definition ask {E A} (f : E -> A) : M E A := fun w => (Returned (f (env w)), w).

Definition getSession {E} : M E (option AntigravityOAuthSession) :=
  fun w => (Returned (activeAntigravityOAuthSession w), w).

Definition setSession {E} (s : option AntigravityOAuthSession) : M E unit :=
  fun w => (Returned tt, mkWorld s (appState w) (calls w) (env w)).

Definition getState {E} : M E AppState := fun w => (Returned (appState w), w).

Definition setState {E} (s : AppState) : M E unit :=
  fun w => (Returned tt, mkWorld (activeAntigravityOAuthSession w) s (calls w) (env w)).

Section Operations.

Context {E : Type} (X : Collaborators E).

(** [openBrowser(url)]. *)
Definition openBrowser (url : string) : M E bool :=
  p <- ask (platform X) ;;
  let argv :=
    if (p =? "darwin")%string then ["open"; url]
    else if (p =? "win32")%string then ["cmd"; "/c"; "start"; url]
    else ["xdg-open"; url] in
  tryCatch (call (CallSpawn argv) (spawn X argv) ;; ret true)
           (fun _ => ret false).

(** [stopAntigravityOAuthSession()]. *)
Definition stopAntigravityOAuthSession : M E unit :=
  active <- getSession ;;
  match active with
  | None => ret tt
  | Some s =>
      quietly (call (CallServerStop (server s)) (serverStop X (server s))) ;;
      setSession None
  end.

(** The [AuthData] that [saveAuth] builds from the shared state. *)
Definition authDataOf (st : AppState) : AuthData := {|
  ad_accessToken := accessToken st;
  ad_refreshToken := orElse (refreshToken st) "";
  ad_expiresAt := numOrUndefined (tokenExpiresAt st);
  ad_userEmail := orUndefined (userEmail st);
  ad_userName := orUndefined (userName st);
  ad_projectId := orUndefined (cloudaicompanionProject st) |}.

(** [saveAuth()]: a failure to write is logged, never thrown. *)
Definition saveAuth : M E unit :=
  quietly (
    st <- getState ;;
    call (CallWriteAuthFile (authDataOf st)) (writeAuthFile X (authDataOf st))).

(** [setAuth(accessToken, refreshToken?, email?, name?)]. *)
Definition setAuth (token : string) (refresh mail name : option string) : M E unit :=
  st <- getState ;;
  setState {|
    accessToken := Some token;
    antigravityToken := Some token;
    refreshToken := orUndefined refresh;
    tokenExpiresAt := tokenExpiresAt st;
    userEmail := orUndefined mail;
    userName := orUndefined name;
    cloudaicompanionProject := cloudaicompanionProject st |} ;;
  saveAuth.

(** [clearAuth()], as far as the shared state goes; clearing the files on
    disk is a logged, never thrown, effect of the file system. *)
Definition clearAuth : M E unit :=
  st <- getState ;;
  setState {|
    accessToken := None;
    antigravityToken := None;
    refreshToken := None;
    tokenExpiresAt := tokenExpiresAt st;
    userEmail := None;
    userName := None;
    cloudaicompanionProject := None |}.

(** [isAuthenticated()]: [!!state.accessToken]. *)
Definition isAuthenticated : M E bool :=
  st <- getState ;;
  ret (match truthy (accessToken st) with Some _ => true | None => false end).

(** [getUserInfo()]. *)
Definition getUserInfo : M E (option string * option string) :=
  st <- getState ;;
  ret (userEmail st, userName st).

Definition failure (message : string) : LoginResult :=
  mkLoginResult false (Some message) None.

(** The part of [completeOAuthCallbackLogin] after the three checks
    (lines 103 to 123). *)
Definition exchangeAndStore (code uri : string) : M E LoginResult :=
  tokens <- call (CallExchangeCode code uri) (exchangeCode X code uri) ;;
  userInfo <- call (CallFetchUserInfo (tok_accessToken tokens))
                   (fetchUserInfo X (tok_accessToken tokens)) ;;
  projectId <- call (CallGetProjectID (tok_accessToken tokens))
                    (getProjectID X (tok_accessToken tokens)) ;;
  let resolvedProjectId := orElse projectId (generateMockProjectId X) in
  now <- ask (dateNow X) ;;
  setState {|
    accessToken := Some (tok_accessToken tokens);
    antigravityToken := Some (tok_accessToken tokens);
    refreshToken := Some (tok_refreshToken tokens);
    tokenExpiresAt := Some (now + tok_expiresIn tokens * 1000);
    userEmail := Some (ui_email userInfo);
    userName := Some (beforeAt (ui_email userInfo));
    cloudaicompanionProject := Some resolvedProjectId |} ;;
  saveAuth ;;
  ret (mkLoginResult true None (Some (ui_email userInfo))).

(** [completeOAuthCallbackLogin(callbackResult, oauthState, redirectUri)]. *)
Definition completeOAuthCallbackLogin
    (callbackResult : OAuthCallbackResult) (oauthState uri : string)
  : M E LoginResult :=
  match truthy (cb_error callbackResult) with
  | Some e => ret (failure e)
  | None =>
      match truthy (cb_code callbackResult), truthy (cb_state callbackResult) with
      | Some code, Some st =>
          if (st =? oauthState)%string
          then exchangeAndStore code uri
          else ret (failure "State mismatch - possible CSRF attack")
      | _, _ => ret (failure "Missing code or state in callback")
      end
  end.

(** The redirect URI of a listener bound to [port]. *)
Definition redirectFor (port : Z) : M E string :=
  override <- ask (envRedirectUrl X) ;;
  ret (orElse override ("http://localhost:" ++ showNumber port ++ "/oauth-callback")).

(** Lines 141 to 171 of [startAntigravityOAuthSession]: the stale session
    is torn down and a new one is opened.  The completion handlers that the
    source registers on [waitForCallback()] are [onCallback] and
    [onCallbackError] below, closed over [oauthState]. *)
Definition openSession : M E SessionDescriptor :=
  stopAntigravityOAuthSession ;;
  ' (srv, port) <- call CallStartOAuthCallbackServer (startOAuthCallbackServer X) ;;
  oauthState <- callPure CallGenerateState (generateState X) ;;
  uri <- redirectFor port ;;
  let url := generateAuthURL X uri oauthState in
  created <- ask (dateNow X) ;;
  let s := mkSession oauthState url uri (created + 5 * 60 * 1000) srv None in
  setSession (Some s) ;;
  ret (describe s).

(** [startAntigravityOAuthSession()]. *)
Definition startAntigravityOAuthSession : M E SessionDescriptor :=
  active <- getSession ;;
  now <- ask (dateNow X) ;;
  match active with
  | Some s => if now <? expiresAt s then ret (describe s) else openSession
  | None => openSession
  end.

(** The [.then] handler of [waitForCallback()] in the session that
    generated [oauthState]. *)
Definition onCallback (oauthState : string) (result : OAuthCallbackResult)
  : M E unit :=
  active <- getSession ;;
  match active with
  | None => ret tt
  | Some s =>
      if negb (state s =? oauthState)%string then ret tt
      else setSession (Some (mkSession (state s) (authUrl s) (redirectUri s)
                                       (expiresAt s) (server s) (Some result)))
  end.

(** The [.catch] handler of the same promise. *)
Definition onCallbackError (oauthState : string) (message : string) : M E unit :=
  onCallback oauthState (mkCallback None None (Some message)).

(** The two fixed answers of a poll. *)
Definition noActiveSession : PollResult :=
  mkPollResult failed (Some "No active Antigravity OAuth session") None.

Definition timedOut : PollResult :=
  mkPollResult failed (Some "Authentication timeout (5 minutes)") None.

(** [pollAntigravityOAuthSession(oauthState)]. *)
Definition pollAntigravityOAuthSession (oauthState : string) : M E PollResult :=
  active <- getSession ;;
  match active with
  | None => ret noActiveSession
  | Some session =>
      if negb (state session =? oauthState)%string
      then ret noActiveSession
      else
        now <- ask (dateNow X) ;;
        if expiresAt session <? now
        then
          stopAntigravityOAuthSession ;;
          ret timedOut
        else
          match callback session with
          | None => ret (mkPollResult pending None None)
          | Some cb =>
              tryCatch
                (loginResult <- completeOAuthCallbackLogin cb (state session)
                                                           (redirectUri session) ;;
                 stopAntigravityOAuthSession ;;
                 if negb (success loginResult)
                 then ret (mkPollResult failed
                             (Some (orElse (error loginResult)
                                           "Antigravity authentication failed"))
                             None)
                 else ret (mkPollResult succeeded None (email loginResult)))
                (fun message =>
                   stopAntigravityOAuthSession ;;
                   ret (mkPollResult failed (Some message) None))
          end
  end.

(** [cancelAntigravityOAuthSession(oauthState?)]. *)
Definition cancelAntigravityOAuthSession (oauthState : option string) : M E bool :=
  active <- getSession ;;
  match active with
  | None => ret false
  | Some s =>
      match truthy oauthState with
      | Some given =>
          if negb (state s =? given)%string then ret false
          else stopAntigravityOAuthSession ;; ret true
      | None => stopAntigravityOAuthSession ;; ret true
      end
  end.

(** Lines 323 to 352 of [startOAuthLogin], once the listener [srv] is
    bound: everything that runs while [oauthServer] still holds it. *)
Definition awaitCallback (srv : Server) (port : Z)
  : M E (OAuthCallbackResult * string * string) :=
  oauthState <- callPure CallGenerateState (generateState X) ;;
  uri <- redirectFor port ;;
  let url := generateAuthURL X uri oauthState in
  noOpen <- ask (envNoOpen X) ;;
  (if match noOpen with Some v => (v =? "1")%string | None => false end
   then ret tt
   else (_ <- openBrowser url ;; ret tt)) ;;
  raced <- callPure (CallWaitForCallback srv) (waitForCallback X srv) ;;
  callbackResult <-
    match raced with
    | Some (Returned r) => ret r
    | Some (Thrown message) => throw message
    | None => throw "Authentication timeout (5 minutes)"
    end ;;
  call (CallServerStop srv) (serverStop X srv) ;;
  ret (callbackResult, oauthState, uri).

(** [startOAuthLogin()]: the [catch] turns every failure into a result and
    the [finally] stops the listener when it is still held. *)
Definition startOAuthLogin : M E LoginResult :=
  tryCatch
    (' (srv, port) <- call CallStartOAuthCallbackServer (startOAuthCallbackServer X) ;;
     received <-
       tryCatch
         (r <- awaitCallback srv port ;; ret (inl r))
         (fun message =>
            quietly (call (CallServerStop srv) (serverStop X srv)) ;;
            ret (inr (failure message))) ;;
     match received with
     | inl (callbackResult, oauthState, uri) =>
         completeOAuthCallbackLogin callbackResult oauthState uri
     | inr result => ret result
     end)
    (fun message => ret (failure message)).

End Operations.

End Login.

(* ===================================================================== *)
(** ** src/routes/auth/route.ts *)
(* ===================================================================== *)

Module AuthRoute.

Import Login.
Local Open Scope js_scope.

Record Request : Type := mkRequest {
  method : Method;
  path : string;
  query : list (string * string);
  text : string
}.

(** [c.req.query(name)]. *)
Fixpoint queryParam (name : string) (q : list (string * string)) : option string :=
  match q with
  | [] => None
  | (k, v) :: rest => if (k =? name)%string then Some v else queryParam name rest
  end.

(** The body type declared in the [/login] handler. *)
Record LoginBody : Type := mkLoginBody {
  b_accessToken : option string;
  b_refreshToken : option string;
  b_email : option string;
  b_name : option string;
  b_provider : option string;
  b_force : option bool
}.

Definition emptyBody : LoginBody := mkLoginBody None None None None None None.

(** The same body with no [provider] field. *)
Definition withoutProvider (b : LoginBody) : LoginBody :=
  mkLoginBody (b_accessToken b) (b_refreshToken b) (b_email b) (b_name b)
              None (b_force b).

(** The argument of [accountManager.addAccount]. *)
Record AntigravityAccount : Type := mkAccount {
  acc_id : string;
  acc_email : string;
  acc_accessToken : string;
  acc_refreshToken : string;
  acc_expiresAt : Z;
  acc_projectId : option string
}.

Record CopilotImported : Type := mkCopilotImported { ci_login : option string }.

Record CopilotDeviceFlow : Type := mkDeviceFlow {
  deviceCode : string;
  userCode : string;
  verificationUri : string;
  interval : Z
}.

Record CodexSession : Type := mkCodexSession {
  cx_state : string;
  cx_authUrl : string;
  cx_fallbackUrl : option string;
  cx_redirectUri : string;
  cx_expiresAt : Z
}.

Record CodexAccount : Type := mkCodexAccount {
  ca_id : string;
  ca_email : option string;
  ca_authSource : option string
}.

Record CodexImport : Type := mkCodexImport {
  accounts : list CodexAccount;
  sources : Json
}.

(** The handlers of the router, in the order of the source. *)
Inductive Handler : Type :=
| HStatus | HAccounts | HExport | HImport | HLogin
| HCopilotStatus | HCodexStatus | HCodexOAuthStatus
| HCodexOAuthCancel | HCodexCancel
| HAntigravityOAuthStatus | HAntigravityOAuthCancel
| HCodexDebug | HLogout.

(** The collaborators of the route layer: the JSON parser, the account
    manager, the auth store and the Codex and Copilot services.  The
    handlers that only reshape what those two services answer
    ([/copilot/status], [/codex/...]) are taken whole, as [serviceRoute]. *)
Record Services (E : Type) : Type := mkServices {
  jsonParse : string -> Completion LoginBody;
  accountManagerLoad : E -> Completion unit * E;
  accountManagerAddAccount : AntigravityAccount -> E -> Completion unit * E;
  listSummaries : string -> E -> Completion Json * E;
  importCopilotAuthFiles : E -> Completion (list CopilotImported) * E;
  startCopilotDeviceFlow : E -> Completion CopilotDeviceFlow * E;
  startCodexOAuthSession : E -> Completion CodexSession * E;
  importCodexAuthSources : E -> Completion CodexImport * E;
  serviceRoute : Handler -> Request -> E -> Completion Response * E
}.
Arguments jsonParse {E}.
Arguments accountManagerLoad {E}.
Arguments accountManagerAddAccount {E}.
Arguments listSummaries {E}.
Arguments importCopilotAuthFiles {E}.
Arguments startCopilotDeviceFlow {E}.
Arguments startCodexOAuthSession {E}.
Arguments importCodexAuthSources {E}.
Arguments serviceRoute {E}.

(** The route table of [authRouter]: one entry per [authRouter.get] or
    [authRouter.post], in source order. *)
Definition authRouter : list (Method * string * Handler) :=
  [ (GET, "/status", HStatus);
    (GET, "/accounts", HAccounts);
    (GET, "/export", HExport);
    (POST, "/import", HImport);
    (POST, "/login", HLogin);
    (GET, "/copilot/status", HCopilotStatus);
    (GET, "/codex/status", HCodexStatus);
    (GET, "/codex/oauth/status", HCodexOAuthStatus);
    (POST, "/codex/oauth/cancel", HCodexOAuthCancel);
    (POST, "/codex/cancel", HCodexCancel);
    (GET, "/antigravity/oauth/status", HAntigravityOAuthStatus);
    (POST, "/antigravity/oauth/cancel", HAntigravityOAuthCancel);
    (GET, "/codex/debug", HCodexDebug);
    (POST, "/logout", HLogout) ].

(** The first route registered for this method and exactly this path. *)
Fixpoint matchRoute (routes : list (Method * string * Handler))
    (m : Method) (p : string) : option Handler :=
  match routes with
  | [] => None
  | (m', p', h) :: rest =>
      if andb (Method_eqb m m') (p =? p')%string then Some h
      else matchRoute rest m p
  end.

(** The body of both removed endpoints. *)
Definition removedResponse : Response :=
  json (JObj [("success", JBool false);
              ("error", JStr "Credential bundle export/import has been removed.")])
       410.

Section Handlers.

Context {E : Type} (X : Collaborators E) (S : Services E).

Definition service {A} (name : string) (f : E -> Completion A * E) : M E A :=
  call (CallOther name) f.

(** [syncAntigravityAccountFromState()]. *)
Definition syncAntigravityAccountFromState : M E unit :=
  service "accountManager.load" (accountManagerLoad S) ;;
  st <- getState ;;
  match truthy (accessToken st) with
  | None => ret tt
  | Some token =>
      now <- ask (dateNow X) ;;
      service "accountManager.addAccount"
        (accountManagerAddAccount S {|
           acc_id := orElse (userEmail st) ("account-" ++ showNumber now);
           acc_email := orElse (userEmail st) "unknown";
           acc_accessToken := token;
           acc_refreshToken := orElse (refreshToken st) "";
           acc_expiresAt := numOrZero (tokenExpiresAt st);
           acc_projectId := cloudaicompanionProject st |})
  end.

(** Lines 80 to 88: the body is [{}] unless the text is non-blank JSON. *)
Definition readBody (t : string) : LoginBody :=
  if orb (t =? "")%string (trim t =? "")%string then emptyBody
  else match jsonParse S t with
       | Returned b => b
       | Thrown _ => emptyBody
       end.

Definition errorJson (message : option string) (code : Z) : Response :=
  json (JObj ([("success", JBool false)] ++ optField "error" (optStr message))) code.

(** Lines 93 to 116: the Copilot branch of [/login]. *)
Definition copilotLogin (forceInteractive : bool) : M E Response :=
  imported <-
    (if forceInteractive then ret []
     else service "importCopilotAuthFiles" (importCopilotAuthFiles S)) ;;
  match imported with
  | first :: _ =>
      ret (json200 (JObj ([("success", JBool true);
                           ("status", JStr "success");
                           ("provider", JStr "copilot");
                           ("source", JStr "import")]
                          ++ optField "login" (optStr (ci_login first)))))
  | [] =>
      session <- service "startCopilotDeviceFlow" (startCopilotDeviceFlow S) ;;
      ret (json200 (JObj [("success", JBool true);
                          ("status", JStr "pending");
                          ("provider", JStr "copilot");
                          ("device_code", JStr (deviceCode session));
                          ("user_code", JStr (userCode session));
                          ("verification_uri", JStr (verificationUri session));
                          ("interval", JNum (interval session))]))
  end.

Definition codexAccountJson (a : CodexAccount) : Json :=
  JObj ([("id", JStr (ca_id a))]
        ++ optField "email" (optStr (ca_email a))
        ++ optField "source" (optStr (ca_authSource a))).

(** Lines 118 to 158: the Codex branch of [/login]. *)
Definition codexLogin (forceInteractive : bool) : M E Response :=
  if forceInteractive then
    tryCatch
      (session <- service "startCodexOAuthSession" (startCodexOAuthSession S) ;;
       ret (json200 (JObj ([("success", JBool true);
                            ("provider", JStr "codex");
                            ("status", JStr "pending");
                            ("source", JStr "browser-oauth");
                            ("oauth_state", JStr (cx_state session));
                            ("auth_url", JStr (cx_authUrl session))]
                           ++ optField "fallback_url" (optStr (cx_fallbackUrl session))
                           ++ [("redirect_uri", JStr (cx_redirectUri session));
                               ("expires_at", JNum (cx_expiresAt session))]))))
      (fun message => ret (errorJson (Some message) 400))
  else
    result <- service "importCodexAuthSources" (importCodexAuthSources S) ;;
    match accounts result with
    | [] =>
        ret (errorJson
               (Some "Codex auth files not found. Use force=true to login via browser.")
               400)
    | _ :: _ =>
        ret (json200 (JObj [("success", JBool true);
                            ("provider", JStr "codex");
                            ("status", JStr "success");
                            ("source", JStr "import");
                            ("count", JNum (Z.of_nat (List.length (accounts result))));
                            ("sources", sources result);
                            ("accounts", JArr (map codexAccountJson (accounts result)))]))
    end.

(** Lines 160 to 202: the default, Antigravity, branch of [/login]. *)
Definition antigravityLogin (b : LoginBody) (forceInteractive : bool) : M E Response :=
  if forceInteractive then
    tryCatch
      (session <- startAntigravityOAuthSession X ;;
       ret (json200 (JObj [("success", JBool true);
                           ("provider", JStr "antigravity");
                           ("status", JStr "pending");
                           ("source", JStr "browser-oauth");
                           ("oauth_state", JStr (d_state session));
                           ("auth_url", JStr (d_authUrl session));
                           ("redirect_uri", JStr (d_redirectUri session));
                           ("expires_at", JNum (d_expiresAt session))])))
      (fun message => ret (errorJson (Some message) 400))
  else
    match truthy (b_accessToken b) with
    | None =>
        result <- startOAuthLogin X ;;
        if success result then
          syncAntigravityAccountFromState ;;
          ret (json200 (JObj ([("success", JBool true);
                               ("authenticated", JBool true);
                               ("provider", JStr "antigravity")]
                              ++ optField "email" (optStr (email result)))))
        else ret (errorJson (error result) 400)
    | Some token =>
        setAuth X token (b_refreshToken b) (b_email b) (b_name b) ;;
        syncAntigravityAccountFromState ;;
        ret (json200 (JObj ([("success", JBool true);
                             ("authenticated", JBool true);
                             ("provider", JStr "antigravity")]
                            ++ optField "email" (optStr (b_email b))
                            ++ optField "name" (optStr (b_name b)))))
    end.

(** The provider a [/login] body selects (line 90). *)
Definition providerOf (b : LoginBody) : string :=
  toLowerCase (orElse (b_provider b) "antigravity").

(** [body.force === true] (line 91). *)
Definition forced (b : LoginBody) : bool :=
  match b_force b with Some true => true | _ => false end.

(** The [/login] handler once the body is read (lines 90 to 205). *)
Definition loginWith (b : LoginBody) : M E Response :=
  tryCatch
    (let provider := providerOf b in
     let forceInteractive := forced b in
     if (provider =? "copilot")%string then copilotLogin forceInteractive
     else if (provider =? "codex")%string then codexLogin forceInteractive
     else antigravityLogin b forceInteractive)
    (fun message => ret (json (JObj [("error", JStr message)]) 500)).

(** [authRouter.post("/login", ...)]. *)
Definition login (req : Request) : M E Response :=
  loginWith (readBody (text req)).

Definition statusName (s : PollStatus) : string :=
  match s with
  | pending => "pending"
  | succeeded => "success"
  | failed => "error"
  end.

(** [authRouter.get("/antigravity/oauth/status", ...)]. *)
Definition antigravityOAuthStatus (req : Request) : M E Response :=
  match truthy (queryParam "state" (query req)) with
  | None => ret (errorJson (Some "state required") 400)
  | Some oauthState =>
      result <- pollAntigravityOAuthSession X oauthState ;;
      (match poll_status result with
       | succeeded => syncAntigravityAccountFromState
       | _ => ret tt
       end) ;;
      ret (json200 (JObj ([("success",
                            JBool (match poll_status result with
                                   | failed => false
                                   | _ => true
                                   end));
                           ("status", JStr (statusName (poll_status result)))]
                          ++ optField "message" (optStr (poll_message result))
                          ++ optField "email" (optStr (poll_email result)))))
  end.

(** [authRouter.post("/antigravity/oauth/cancel", ...)]. *)
Definition antigravityOAuthCancel (req : Request) : M E Response :=
  cancelled <- cancelAntigravityOAuthSession X (queryParam "state" (query req)) ;;
  ret (json200 (JObj [("success", JBool cancelled)])).

Definition nullable (v : option string) : Json :=
  match v with Some s => JStr s | None => JNull end.

(** What each handler of the router does with a request. *)
Definition handle (h : Handler) (req : Request) : M E Response :=
  match h with
  | HStatus =>
      ' (mail, name) <- getUserInfo ;;
      authenticated <- isAuthenticated ;;
      ret (json200 (JObj [("authenticated", JBool authenticated);
                          ("email", nullable mail);
                          ("name", nullable name)]))
  | HAccounts =>
      service "accountManager.load" (accountManagerLoad S) ;;
      antigravity <- service "authStore.listSummaries" (listSummaries S "antigravity") ;;
      codex <- service "authStore.listSummaries" (listSummaries S "codex") ;;
      copilot <- service "authStore.listSummaries" (listSummaries S "copilot") ;;
      ret (json200 (JObj [("accounts", JObj [("antigravity", antigravity);
                                             ("codex", codex);
                                             ("copilot", copilot)])]))
  | HExport => ret removedResponse
  | HImport => ret removedResponse
  | HLogin => login req
  | HAntigravityOAuthStatus => antigravityOAuthStatus req
  | HAntigravityOAuthCancel => antigravityOAuthCancel req
  | HLogout =>
      clearAuth ;;
      ret (json200 (JObj [("success", JBool true); ("authenticated", JBool false)]))
  | HCopilotStatus | HCodexStatus | HCodexOAuthStatus | HCodexOAuthCancel
  | HCodexCancel | HCodexDebug =>
      service "service route" (serviceRoute S h req)
  end.

(** A request to the router: [None] when no route matches, in which case
    the framework goes on to whatever is registered after the router. *)
Definition request (req : Request) : option (M E Response) :=
  option_map (fun h => handle h req) (matchRoute authRouter (method req) (path req)).

End Handlers.

End AuthRoute.

(* ===================================================================== *)
(** ** The server in front of the routers *)
(* ===================================================================== *)

Module Server.

Import Login AuthRoute.

(** [stripPrefix pre s] is what follows [pre] in [s]. *)
Fixpoint stripPrefix (pre s : string) : option string :=
  match pre, s with
  | EmptyString, _ => Some s
  | String a pre', String b s' =>
      if Ascii.eqb a b then stripPrefix pre' s' else None
  | String _ _, EmptyString => None
  end.

(** Modelled from the spec: the router of the generic bundle paths is not
    among the sources.  The spec gives both removed endpoints, export and
    import, on a generic bundle path and on an auth-specific path with the
    same answer; the routes are registered as the auth router registers
    them and as the tests request them. *)
Definition bundleRouter : list (Method * string * Handler) :=
  [ (GET, "/export", HExport);
    (POST, "/import", HImport) ].

Section Fetch.

Context {E : Type} (X : Collaborators E) (S : Services E).

(** Modelled from the spec: [src/server.ts] is not among the sources.  The
    auth router is mounted under [/auth] and the bundle router under
    [/bundle]; [None] stands for a request that neither router answers. *)
Definition fetch (req : Request) : option (M E Response) :=
  match stripPrefix "/auth" (path req) with
  | Some rest => request X S (mkRequest (method req) rest (query req) (text req))
  | None =>
      match stripPrefix "/bundle" (path req) with
      | Some rest =>
          option_map (fun h => handle X S h req)
                     (matchRoute bundleRouter (method req) rest)
      | None => None
      end
  end.

End Fetch.

End Server.

(* ===================================================================== *)
(** ** The model catalog *)
(* ===================================================================== *)

Module Models.

Inductive Provider : Type := antigravity | codex | copilot.

Definition Provider_eqb (a b : Provider) : bool :=
  match a, b with
  | antigravity, antigravity | codex, codex | copilot, copilot => true
  | _, _ => false
  end.

(** [{ id: string, label: string }]. *)
Record ModelDescriptor : Type := mkModel {
  id : string;
  label : string
}.

Definition hasId (i : string) (m : ModelDescriptor) : bool := (id m =? i)%string.

Definition known (seen : list string) (i : string) : bool :=
  existsb (String.eqb i) seen.

(** Modelled from the spec: [~/services/routing/models] is not among the
    sources (only its tests are).  An entry of the dynamic list is trimmed
    in both fields and dropped when its trimmed id is empty. *)
Definition sanitize (m : ModelDescriptor) : option ModelDescriptor :=
  let i := trim (id m) in
  if (i =? "")%string then None else Some (mkModel i (trim (label m))).

(** Modelled from the spec: one pass over the dynamic list that keeps an
    entry unless it is dropped by [sanitize] or its id was seen before. *)
Fixpoint collect (seen : list string) (ms : list ModelDescriptor)
  : list ModelDescriptor :=
  match ms with
  | [] => []
  | m :: rest =>
      match sanitize m with
      | None => collect seen rest
      | Some m' =>
          if known seen (id m') then collect seen rest
          else m' :: collect (id m' :: seen) rest
      end
  end.

Definition sanitizeDynamic (ms : list ModelDescriptor) : list ModelDescriptor :=
  collect [] ms.

(** The entries of a list that [sanitize] keeps, trimmed, with their
    duplicates and in their order. *)
Fixpoint sanitized (ms : list ModelDescriptor) : list ModelDescriptor :=
  match ms with
  | [] => []
  | m :: rest =>
      match sanitize m with
      | Some m' => m' :: sanitized rest
      | None => sanitized rest
      end
  end.

(** The dynamic list of the sanitization test, with short names. *)
Definition exampleDynamic : list ModelDescriptor :=
  [ mkModel " x " " A "; mkModel "x" "B"; mkModel "" "C" ].

(** Modelled from the spec: the merge rule of the visible catalog, the
    sanitized dynamic entries followed by the static entries whose id they
    do not already have. *)
Definition mergeCatalog (dynamic static : list ModelDescriptor)
  : list ModelDescriptor :=
  let d := sanitizeDynamic dynamic in
  d ++ filter (fun m => negb (known (map id d) (id m))) static.

(** The process-wide dynamic lists, one per provider. *)
Definition Cache : Type := Provider -> list ModelDescriptor.

Definition emptyCache : Cache := fun _ => [].

Definition setDynamicModels (p : Provider) (ms : list ModelDescriptor) (c : Cache)
  : Cache :=
  fun q => if Provider_eqb q p then ms else c q.

(** [setDynamicCopilotModels] and [clearDynamicCopilotModels] of the tests. *)
Definition setDynamicCopilotModels (ms : list ModelDescriptor) (c : Cache) : Cache :=
  setDynamicModels copilot ms c.

Definition clearDynamicCopilotModels (c : Cache) : Cache :=
  setDynamicModels copilot [] c.

(** Modelled from the spec: [getProviderModels(provider)], over the static
    lists [static], whose content is not among the sources. *)
Definition getProviderModels (static : Provider -> list ModelDescriptor)
    (c : Cache) (p : Provider) : list ModelDescriptor :=
  mergeCatalog (c p) (static p).

End Models.

(* ===================================================================== *)
(** ** The routing configuration *)
(* ===================================================================== *)

Module Routing.

Import Models.
Local Open Scope js_scope.

(** An account of the store, with the attributes selection reads. *)
Record Account : Type := mkAccount {
  acc_id : string;
  acc_provider : Provider;
  acc_accessToken : string;
  acc_createdAt : Z;
  acc_rateLimitedUntil : option Z
}.

(** [{ flows, accountRouting: { smartSwitch, routes } }]. *)
Record RoutingConfig : Type := mkRoutingConfig {
  version : Z;
  updatedAt : string;
  flows : list Json;
  smartSwitch : bool;
  routes : list Json
}.

(** What [getRoutingConfig] answers. *)
Record ConfigView : Type := mkConfigView {
  view_flows : list Json;
  view_smartSwitch : bool;
  view_routes : list Json;
  view_models : Provider -> list ModelDescriptor
}.

Record Collaborators (E : Type) : Type := mkCollaborators {
  listRemoteModels : Provider -> Account -> E -> Completion (list ModelDescriptor) * E;
  staticModels : Provider -> list ModelDescriptor;
  dateNow : E -> Z
}.
Arguments listRemoteModels {E}.
Arguments staticModels {E}.
Arguments dateNow {E}.

(** The account lists in insertion order, the dynamic lists, the stored
    configuration, the refresh attempts made so far, the environment. *)
Record World (E : Type) : Type := mkWorld {
  accountsOf : Provider -> list Account;
  dynamicModels : Cache;
  config : RoutingConfig;
  refreshes : list (Provider * string);
  env : E
}.
Arguments mkWorld {E}.
Arguments accountsOf {E}.
Arguments dynamicModels {E}.
Arguments config {E}.
Arguments refreshes {E}.
Arguments env {E}.

Definition eligible (now : Z) (a : Account) : bool :=
  match acc_rateLimitedUntil a with
  | Some until => negb (now <? until)
  | None => true
  end.

(** The account whose limit ends first, the earlier one on a tie. *)
Fixpoint leastRecentlyLimited (best : Account) (rest : list Account) : Account :=
  match rest with
  | [] => best
  | a :: rest' =>
      if numOrZero (acc_rateLimitedUntil a) <? numOrZero (acc_rateLimitedUntil best)
      then leastRecentlyLimited a rest'
      else leastRecentlyLimited best rest'
  end.

(** Modelled from the spec: [pickAccount(provider)] of the account router,
    which is not among the sources: the first eligible account in insertion
    order, else the least recently limited one, else none. *)
Definition pickAccount (now : Z) (accounts : list Account) : option Account :=
  match find (eligible now) accounts with
  | Some a => Some a
  | None =>
      match accounts with
      | [] => None
      | a :: rest => Some (leastRecentlyLimited a rest)
      end
  end.

Section GetConfig.

Context {E : Type} (X : Collaborators E).

(** One query of the provider with account [a]; the attempt is recorded. *)
Definition fetchRemote (p : Provider) (a : Account)
  : Eff (World E) (list ModelDescriptor) :=
  fun w =>
    let (r, e) := listRemoteModels X p a (env w) in
    (r, mkWorld (accountsOf w) (dynamicModels w) (config w)
                (refreshes w ++ [(p, acc_id a)]) e).

Definition storeDynamic (p : Provider) (ms : list ModelDescriptor)
  : Eff (World E) unit :=
  fun w =>
    (Returned tt,
     mkWorld (accountsOf w) (setDynamicModels p ms (dynamicModels w)) (config w)
             (refreshes w) (env w)).

(** How the refresh of one provider ended. *)
Inductive Refresh : Type := Skipped | Refreshed | Failed.

(** Modelled from the spec: the refresh of one provider, which is not among
    the sources.  It is skipped when the provider has no account; a failure
    of the fetch is caught and leaves the dynamic list as it was. *)
Definition refreshProvider (p : Provider) : Eff (World E) Refresh :=
  fun w =>
    match pickAccount (dateNow X (env w)) (accountsOf w p) with
    | None => (Returned Skipped, w)
    | Some a =>
        tryCatch (ms <- fetchRemote p a ;; storeDynamic p ms ;; ret Refreshed)
                 (fun _ => ret Failed) w
    end.

(** Modelled from the spec: the catalog shown for a provider after its
    refresh.  The merge rule gives exactly the static list when the refresh
    failed, and the merge of the dynamic list with the static list
    otherwise. *)
Definition visibleCatalog (r : Refresh) (c : Cache) (p : Provider)
  : list ModelDescriptor :=
  match r with
  | Failed => staticModels X p
  | Skipped | Refreshed => getProviderModels (staticModels X) c p
  end.

(** Modelled from the spec: [getRoutingConfig()], whose source
    [src/routes/routing/route.ts] is not among the sources. *)
Definition getRoutingConfig : Eff (World E) ConfigView :=
  ofAntigravity <- refreshProvider antigravity ;;
  ofCodex <- refreshProvider codex ;;
  ofCopilot <- refreshProvider copilot ;;
  fun w =>
    (Returned (mkConfigView (flows (config w)) (smartSwitch (config w))
                            (routes (config w))
                            (fun p =>
                               visibleCatalog
                                 (match p with
                                  | antigravity => ofAntigravity
                                  | codex => ofCodex
                                  | copilot => ofCopilot
                                  end)
                                 (dynamicModels w) p)),
     w).

(** The attempt that the refresh of [p] records in world [w]. *)
Definition attempt (p : Provider) (w : World E) : list (Provider * string) :=
  match pickAccount (dateNow X (env w)) (accountsOf w p) with
  | Some a => [(p, acc_id a)]
  | None => []
  end.

(** The world in which the refresh of provider [p] starts during
    [getRoutingConfig]: the providers are refreshed one after the other. *)
Definition before (p : Provider) (w : World E) : World E :=
  match p with
  | antigravity => w
  | codex => snd (refreshProvider antigravity w)
  | copilot => snd (refreshProvider codex (snd (refreshProvider antigravity w)))
  end.

End GetConfig.

(** The refresh attempts of a log that were made for provider [p]. *)
Definition attemptsFor (p : Provider) (log : list (Provider * string))
  : list (Provider * string) :=
  filter (fun x => Provider_eqb (fst x) p) log.

(** A process of the routing tests: two Copilot accounts, a fetch that
    fails, and an environment that is the clock. *)
Module Demo.

Definition older : Account := mkAccount "older-account" copilot "token-older" 1 None.
Definition newer : Account := mkAccount "newer-account" copilot "token-newer" 2 None.

Definition gpt4o : ModelDescriptor := mkModel "gpt-4o" "Copilot - GPT-4o".
Definition gpt52 : ModelDescriptor := mkModel "gpt-5.2" "Copilot - GPT-5.2".

Definition static (p : Provider) : list ModelDescriptor :=
  match p with
  | copilot => [gpt4o; mkModel "claude-opus-4-5-thinking" "Copilot - Claude Opus 4.5"]
  | _ => []
  end.

Definition failing : Collaborators Z := {|
  listRemoteModels := fun _ _ e => (Thrown "sync failed", e);
  staticModels := static;
  dateNow := fun e => e
|}.

Definition answering : Collaborators Z := {|
  listRemoteModels := fun _ _ e => (Returned [gpt52], e);
  staticModels := static;
  dateNow := fun e => e
|}.

Definition accounts (p : Provider) : list Account :=
  match p with
  | copilot => [older; newer]
  | _ => []
  end.

Definition emptyConfig : RoutingConfig := mkRoutingConfig 2 "2026-01-01" [] false [].

(** A process whose dynamic lists are empty. *)
Definition fresh : World Z := mkWorld accounts emptyCache emptyConfig [] 0.

(** The same process after a first call whose fetch was answered. *)
Definition synced : World Z := snd (getRoutingConfig answering fresh).

End Demo.

End Routing.

(* ===================================================================== *)
(** ** A concrete environment, to run the embedding *)
(* ===================================================================== *)

Module Demo.

Import Login.

(** The clock and the number of states generated so far. *)
Record Env : Type := mkEnv {
  clock : Z;
  generated : nat
}.

Definition tick (e : Env) : Env := mkEnv (clock e) (S (generated e)).

Definition demoState (n : nat) : string :=
  "state-" ++ NilZero.string_of_uint (Nat.to_uint n).

(** Collaborators that always answer; the provider returns no project. *)
Definition collaborators : Collaborators Env := {|
  startOAuthCallbackServer := fun e => (Returned (generated e, 51121), e);
  serverStop := fun _ e => (Returned tt, e);
  waitForCallback := fun _ e => (None, e);
  generateState := fun e => (demoState (generated e), tick e);
  generateAuthURL := fun uri st =>
    "https://accounts.example/o/oauth2/auth?redirect_uri=" ++ uri ++ "&state=" ++ st;
  exchangeCode := fun code _ e => (Returned (mkTokens ("access-" ++ code) "refresh" 3600), e);
  fetchUserInfo := fun _ e => (Returned (mkUserInfo "user@example.com"), e);
  getProjectID := fun _ e => (Returned None, e);
  generateMockProjectId := "placeholder-project";
  dateNow := clock;
  envRedirectUrl := fun _ => None;
  envNoOpen := fun _ => Some "1";
  platform := fun _ => "linux";
  spawn := fun _ e => (Returned tt, e);
  writeAuthFile := fun _ e => (Returned tt, e)
|}.

Definition noState : AppState := mkAppState None None None None None None None.

(** A fresh process at time [t]. *)
Definition world (t : Z) : World Env := mkWorld None noState [] (mkEnv t 0).

(** The same process once the clock reads [t]. *)
Definition at_time (t : Z) (w : World Env) : World Env :=
  mkWorld (activeAntigravityOAuthSession w) (appState w) (calls w)
          (mkEnv t (generated (env w))).

(** A first session, opened at time 0 by a fresh process. *)
Definition opened : World Env :=
  snd (startAntigravityOAuthSession collaborators (world 0)).

(** A second session, opened once the first has expired. *)
Definition reopened : World Env :=
  snd (startAntigravityOAuthSession collaborators (at_time 400000 opened)).

Definition uri : string := "http://localhost:51121/oauth-callback".

(** A stand-in for [JSON.parse]: the text is the provider name. *)
Definition services : AuthRoute.Services Env := {|
  AuthRoute.jsonParse := fun t =>
    Returned (AuthRoute.mkLoginBody None None None None (Some t) None);
  AuthRoute.accountManagerLoad := fun e => (Returned tt, e);
  AuthRoute.accountManagerAddAccount := fun _ e => (Returned tt, e);
  AuthRoute.listSummaries := fun _ e => (Returned (JArr []), e);
  AuthRoute.importCopilotAuthFiles := fun e => (Returned [], e);
  AuthRoute.startCopilotDeviceFlow := fun e =>
    (Returned (AuthRoute.mkDeviceFlow "device" "USER-CODE" "https://github.example/device" 5), e);
  AuthRoute.startCodexOAuthSession := fun e => (Thrown "no free port", e);
  AuthRoute.importCodexAuthSources := fun e =>
    (Returned (AuthRoute.mkCodexImport [] (JArr [])), e);
  AuthRoute.serviceRoute := fun _ _ e => (Returned (json200 (JObj [])), e)
|}.

End Demo.

(* ===================================================================== *)
(** ** login.ts: the functions that read and refresh the saved credential *)
(* ===================================================================== *)

Module Storage.

Import Login.
Local Open Scope js_scope.

(** The two files of the module: [AUTH_FILE] and [LEGACY_AUTH_FILE]. *)
Inductive AuthPath : Type := AUTH_FILE | LEGACY_AUTH_FILE.

Definition pathName (p : AuthPath) : string :=
  match p with
  | AUTH_FILE => "auth.json"
  | LEGACY_AUTH_FILE => "legacy auth.json"
  end.

(** The file system as these functions use it, and [refreshAccessToken]
    of [./oauth].  [readAuthData] is
    [JSON.parse(readFileSync(path, "utf-8")) as AuthData]; [writeEmpty] is
    [writeFileSync(path, "{}")]. *)
Record Files (E : Type) : Type := mkFiles {
  existsSync : AuthPath -> E -> bool;
  readAuthData : AuthPath -> E -> Completion AuthData * E;
  writeEmpty : AuthPath -> E -> Completion unit * E;
  refreshAccessToken : string -> E -> Completion Tokens * E
}.
Arguments existsSync {E}.
Arguments readAuthData {E}.
Arguments writeEmpty {E}.
Arguments refreshAccessToken {E}.

(** The state that [initAuth] installs from a file whose access token is
    [token] (lines 222 to 228). *)
Definition loadedState (data : AuthData) (token : string) : AppState := {|
  accessToken := Some token;
  antigravityToken := Some token;
  refreshToken := orUndefined (Some (ad_refreshToken data));
  tokenExpiresAt := numOrUndefined (ad_expiresAt data);
  userEmail := orUndefined (ad_userEmail data);
  userName := orUndefined (ad_userName data);
  cloudaicompanionProject := orUndefined (ad_projectId data) |}.

Section Operations.

Context {E : Type} (X : Collaborators E) (F : Files E).

(** The file [initAuth] loads: the current one, else the legacy one. *)
Definition sourceFile : M E (option AuthPath) :=
  hasCurrent <- ask (existsSync F AUTH_FILE) ;;
  if hasCurrent then ret (Some AUTH_FILE)
  else
    hasLegacy <- ask (existsSync F LEGACY_AUTH_FILE) ;;
    if hasLegacy then ret (Some LEGACY_AUTH_FILE) else ret None.

(** [initAuth()]. *)
Definition initAuth : M E unit :=
  quietly (
    source <- sourceFile ;;
    match source with
    | None => ret tt
    | Some src =>
        data <- call (CallOther ("read " ++ pathName src)) (readAuthData F src) ;;
        match truthy (ad_accessToken data) with
        | None => ret tt
        | Some token =>
            setState (loadedState data token) ;;
            hasCurrent <- ask (existsSync F AUTH_FILE) ;;
            match src with
            | LEGACY_AUTH_FILE => if hasCurrent then ret tt else saveAuth X
            | AUTH_FILE => ret tt
            end
        end
    end).

(** One of the two writes of [clearAuth] (lines 275 to 280). *)
Definition emptyIfPresent (p : AuthPath) : M E unit :=
  present <- ask (existsSync F p) ;;
  if present then call (CallOther ("write " ++ pathName p)) (writeEmpty F p)
  else ret tt.

(** [clearAuth()], with its writes to the two files. *)
Definition clearAuth : M E unit :=
  Login.clearAuth ;;
  quietly (emptyIfPresent AUTH_FILE ;; emptyIfPresent LEGACY_AUTH_FILE).

(** [refreshToken()]. *)
Definition refreshToken : M E bool :=
  st <- getState ;;
  match truthy (Login.refreshToken st) with
  | None => ret false
  | Some current =>
      tryCatch
        (tokens <- call (CallOther "refreshAccessToken")
                        (refreshAccessToken F current) ;;
         st' <- getState ;;
         setState {|
           accessToken := Some (tok_accessToken tokens);
           antigravityToken := Some (tok_accessToken tokens);
           Login.refreshToken := Login.refreshToken st';
           tokenExpiresAt := tokenExpiresAt st';
           userEmail := userEmail st';
           userName := userName st';
           cloudaicompanionProject := cloudaicompanionProject st' |} ;;
         saveAuth X ;;
         ret true)
        (fun _ => ret false)
  end.

End Operations.

(** The answer of a poll that found a callback, from the outcome of the
    completion (lines 194 to 202). *)
Definition answerOf (r : Completion LoginResult) : PollResult :=
  match r with
  | Returned res =>
      if success res then mkPollResult succeeded None (email res)
      else mkPollResult failed
             (Some (orElse (error res) "Antigravity authentication failed")) None
  | Thrown m => mkPollResult failed (Some m) None
  end.

(** The rest of [pollAntigravityOAuthSession] once the awaited completion
    has settled with [outcome] (lines 195 to 202): it stops the session
    that is active at that moment and answers from the outcome. *)
Definition settle {E} (X : Collaborators E) (outcome : Completion LoginResult)
  : M E PollResult :=
  stopAntigravityOAuthSession X ;; ret (answerOf outcome).

(** The answer of the status route for a state that matches no session. *)
Definition noSessionAnswer : Response :=
  json200 (JObj [("success", JBool false);
                 ("status", JStr "error");
                 ("message", JStr "No active Antigravity OAuth session")]).

(** *** What a computation calls *)

(** Every call a computation makes is recorded after the calls made before
    it, and every call it makes satisfies [Q]. *)
Definition emits {E A} (Q : Event -> Prop) (m : M E A) : Prop :=
  forall w : World E,
    exists more, calls (snd (m w)) = (calls w ++ more)%list /\ Forall Q more.

(** A computation that never touches the active session nor the shared
    state. *)
Definition frames {E A} (m : M E A) : Prop :=
  forall w : World E,
    activeAntigravityOAuthSession (snd (m w)) = activeAntigravityOAuthSession w
    /\ appState (snd (m w)) = appState w.

(** A computation that never throws. *)
Definition returns {E A} (m : M E A) : Prop :=
  forall w : World E, exists a w', m w = (Returned a, w').

(** Calls that start, stop or wait on a callback listener. *)
Definition onListener (ev : Event) : Prop :=
  match ev with
  | CallStartOAuthCallbackServer | CallServerStop _ | CallWaitForCallback _ => True
  | _ => False
  end.

(** Calls to the provider: token exchange, user info, project id. *)
Definition onProvider (ev : Event) : Prop :=
  match ev with
  | CallExchangeCode _ _ | CallFetchUserInfo _ | CallGetProjectID _ => True
  | _ => False
  end.

Definition isWrite (ev : Event) : Prop :=
  match ev with CallWriteAuthFile _ => True | _ => False end.

Definition isStop (ev : Event) : Prop :=
  match ev with CallServerStop _ => True | _ => False end.

Definition isOther (ev : Event) : Prop :=
  match ev with CallOther _ => True | _ => False end.

Definition isNamed (name : string) (ev : Event) : Prop := ev = CallOther name.

(** A second environment, to run the failure paths: the listener cannot
    start, the provider is unreachable, the disk is read-only; the current
    credential file holds [saved]. *)
Module Offline.

Definition saved : AuthData :=
  mkAuthData (Some "saved-token") "saved-refresh" (Some "user@example.com")
             (Some "user") (Some 1700000000000) (Some "project-1").

Definition collaborators : Collaborators Demo.Env := {|
  startOAuthCallbackServer := fun e => (Thrown "port in use", e);
  serverStop := fun _ e => (Thrown "already stopped", e);
  waitForCallback := fun _ e => (None, e);
  generateState := fun e => (Demo.demoState (Demo.generated e), Demo.tick e);
  generateAuthURL := fun uri st => uri ++ "?state=" ++ st;
  exchangeCode := fun _ _ e => (Thrown "network down", e);
  fetchUserInfo := fun _ e => (Thrown "network down", e);
  getProjectID := fun _ e => (Thrown "network down", e);
  generateMockProjectId := "placeholder-project";
  dateNow := Demo.clock;
  envRedirectUrl := fun _ => Some "https://gateway.example/oauth-callback";
  envNoOpen := fun _ => None;
  platform := fun _ => "darwin";
  spawn := fun _ e => (Thrown "spawn failed", e);
  writeAuthFile := fun _ e => (Thrown "read-only file system", e)
|}.

Definition files : Files Demo.Env := {|
  existsSync := fun p _ => match p with AUTH_FILE => true | LEGACY_AUTH_FILE => false end;
  readAuthData := fun _ e => (Returned saved, e);
  writeEmpty := fun _ e => (Thrown "read-only file system", e);
  refreshAccessToken := fun _ e => (Thrown "invalid_grant", e)
|}.

(** Files of a first run after an upgrade: only the legacy file exists,
    and the provider answers a refresh. *)
Definition legacyFiles : Files Demo.Env := {|
  existsSync := fun p _ => match p with AUTH_FILE => false | LEGACY_AUTH_FILE => true end;
  readAuthData := fun _ e => (Returned saved, e);
  writeEmpty := fun _ e => (Returned tt, e);
  refreshAccessToken := fun _ e => (Returned (mkTokens "fresh-token" "ignored" 3600), e)
|}.

(** A listener that starts but never receives a callback. *)
Definition silent : Collaborators Demo.Env := {|
  startOAuthCallbackServer := fun e => (Returned (7%nat, 51121), e);
  serverStop := fun _ e => (Thrown "already stopped", e);
  waitForCallback := fun _ e => (None, e);
  generateState := fun e => (Demo.demoState (Demo.generated e), Demo.tick e);
  generateAuthURL := fun uri st => uri ++ "?state=" ++ st;
  exchangeCode := fun _ _ e => (Thrown "network down", e);
  fetchUserInfo := fun _ e => (Thrown "network down", e);
  getProjectID := fun _ e => (Thrown "network down", e);
  generateMockProjectId := "placeholder-project";
  dateNow := Demo.clock;
  envRedirectUrl := fun _ => None;
  envNoOpen := fun _ => None;
  platform := fun _ => "win32";
  spawn := fun _ e => (Thrown "spawn failed", e);
  writeAuthFile := fun _ e => (Returned tt, e)
|}.

(** The first session of the demo once its listener delivered [cb]. *)
Definition delivered (cb : OAuthCallbackResult) : World Demo.Env :=
  snd (onCallback "state-0" cb Demo.opened).

(** Route services whose account manager and device flow fail. *)
Definition services : AuthRoute.Services Demo.Env := {|
  AuthRoute.jsonParse := fun _ => Thrown "Unexpected token";
  AuthRoute.accountManagerLoad := fun e => (Thrown "accounts file is corrupt", e);
  AuthRoute.accountManagerAddAccount := fun _ e => (Returned tt, e);
  AuthRoute.listSummaries := fun _ e => (Returned (JArr []), e);
  AuthRoute.importCopilotAuthFiles := fun e => (Returned [], e);
  AuthRoute.startCopilotDeviceFlow := fun e => (Thrown "device flow unavailable", e);
  AuthRoute.startCodexOAuthSession := fun e => (Thrown "no free port", e);
  AuthRoute.importCodexAuthSources := fun e =>
    (Returned (AuthRoute.mkCodexImport [] (JArr [])), e);
  AuthRoute.serviceRoute := fun _ _ e => (Returned (json200 (JObj [])), e)
|}.

(** Bodies of [/login] requests. *)
Definition copilotBody (force : bool) : AuthRoute.LoginBody :=
  AuthRoute.mkLoginBody None None None None (Some "Copilot") (Some force).


(** A process that holds a credential. *)
Definition signedIn : World Demo.Env :=
  mkWorld None (loadedState saved "saved-token") [] (Demo.mkEnv 0 0).

End Offline.

End Storage.

(* ===================================================================== *)
(** ** Properties of [login.ts] *)
(* ===================================================================== *)

Section LoginFacts.

Import Login.
Local Open Scope js_scope.

Context {E : Type} (X : Collaborators E).

(** Unfolds the monad down to the calls of the collaborators. *)
Ltac unfold_eff :=
  unfold quietly, callPure in *;
  unfold bind, ret, throw, tryCatch, call, ask,
         getSession, setSession, getState, setState in *.

Lemma saveAuth_run (w : World E) :
  exists e,
    saveAuth X w
    = (Returned tt,
       mkWorld (activeAntigravityOAuthSession w) (appState w)
               (calls w ++ [CallWriteAuthFile (authDataOf (appState w))]) e).
Proof.
  unfold saveAuth. unfold_eff. simpl.
  destruct (writeAuthFile X (authDataOf (appState w)) (env w)) as [[[] | m] e];
    exists e; reflexivity.
Qed.

Lemma exchangeAndStore_calls (code uri : string) (w : World E) :
  exists more,
    calls (snd (exchangeAndStore X code uri w))
    = (calls w ++ CallExchangeCode code uri :: more)%list.
Proof.
  unfold exchangeAndStore.
  unfold bind at 1. unfold call at 1.
  destruct (exchangeCode X code uri (env w)) as [[tokens | m1] e1]; simpl;
    [| exists []; reflexivity].
  unfold bind at 1. unfold call at 1. simpl.
  destruct (fetchUserInfo X (tok_accessToken tokens) e1) as [[info | m2] e2]; simpl;
    [| rewrite <- app_assoc; eexists; reflexivity].
  unfold bind at 1. unfold call at 1. simpl.
  destruct (getProjectID X (tok_accessToken tokens) e2) as [[pid | m3] e3]; simpl;
    [| repeat rewrite <- app_assoc; eexists; reflexivity].
  unfold bind at 1. unfold ask at 1. simpl.
  unfold bind at 1. unfold setState at 1. simpl.
  unfold bind at 1.
  match goal with
  | |- context [saveAuth X ?w0] => destruct (saveAuth_run w0) as [e4 ->]
  end.
  simpl. repeat rewrite <- app_assoc. eexists. reflexivity.
Qed.

(** C2 (amended). The completion protocol applies its checks in this order:
    a payload that carries an upstream error fails with that error message;
    otherwise a payload whose code or state is missing fails with
    "Missing code or state in callback" (the message has no final period);
    otherwise a payload whose state differs from the session's state fails
    with "State mismatch - possible CSRF attack"; none of the three makes a
    call or changes anything. Only otherwise does the token exchange
    proceed, and it is then the first call made.  A field counts as carried
    when it is truthy: present and not the empty string. *)
Theorem completion_checks_in_order
    (cb : OAuthCallbackResult) (oauthState uri : string) (w : World E) :
  (forall e, truthy (cb_error cb) = Some e ->
     completeOAuthCallbackLogin X cb oauthState uri w = (Returned (failure e), w))
  /\ (truthy (cb_error cb) = None ->
      truthy (cb_code cb) = None \/ truthy (cb_state cb) = None ->
      completeOAuthCallbackLogin X cb oauthState uri w
      = (Returned (failure "Missing code or state in callback"), w))
  /\ (forall code st,
      truthy (cb_error cb) = None ->
      truthy (cb_code cb) = Some code ->
      truthy (cb_state cb) = Some st ->
      st <> oauthState ->
      completeOAuthCallbackLogin X cb oauthState uri w
      = (Returned (failure "State mismatch - possible CSRF attack"), w))
  /\ (forall code,
      truthy (cb_error cb) = None ->
      truthy (cb_code cb) = Some code ->
      truthy (cb_state cb) = Some oauthState ->
      completeOAuthCallbackLogin X cb oauthState uri w
      = exchangeAndStore X code uri w
      /\ exists more,
           calls (snd (completeOAuthCallbackLogin X cb oauthState uri w))
           = (calls w ++ CallExchangeCode code uri :: more)%list).
Proof.
  unfold completeOAuthCallbackLogin.
  repeat split.
  - intros e He. rewrite He. reflexivity.
  - intros He [Hc | Hs]; rewrite He.
    + rewrite Hc. reflexivity.
    + rewrite Hs. destruct (truthy (cb_code cb)); reflexivity.
  - intros code st He Hc Hs Hne. rewrite He, Hc, Hs.
    destruct (String.eqb_spec st oauthState) as [Heq | _]; [contradiction | reflexivity].
  - rewrite H, H0, H1, String.eqb_refl. reflexivity.
  - rewrite H, H0, H1, String.eqb_refl. apply exchangeAndStore_calls.
Qed.

Lemma stop_run (w : World E) :
  match activeAntigravityOAuthSession w with
  | None => stopAntigravityOAuthSession X w = (Returned tt, w)
  | Some s =>
      exists e,
        stopAntigravityOAuthSession X w
        = (Returned tt,
           mkWorld None (appState w) (calls w ++ [CallServerStop (server s)]) e)
  end.
Proof.
  unfold stopAntigravityOAuthSession. unfold_eff. simpl.
  destruct (activeAntigravityOAuthSession w) as [s |]; [| reflexivity].
  simpl. destruct (serverStop X (server s) (env w)) as [[[] | m] e];
    exists e; reflexivity.
Qed.

Lemma stop_returns (w : World E) :
  exists w',
    stopAntigravityOAuthSession X w = (Returned tt, w')
    /\ activeAntigravityOAuthSession w' = None
    /\ appState w' = appState w.
Proof.
  generalize (stop_run w).
  destruct (activeAntigravityOAuthSession w) as [s |] eqn:Hs.
  - intros [e ->]. eexists. repeat split.
  - intros ->. exists w. repeat split. exact Hs.
Qed.

Lemma openSession_active (w : World E) (d : SessionDescriptor) (w1 : World E) :
  openSession X w = (Returned d, w1) ->
  exists s, activeAntigravityOAuthSession w1 = Some s /\ describe s = d.
Proof.
  unfold openSession. unfold bind at 1.
  destruct (stop_returns w) as (w0 & -> & _ & _).
  unfold redirectFor. unfold_eff. simpl.
  destruct (startOAuthCallbackServer X (env w0)) as [[[srv port] | m] e1]; simpl;
    [| discriminate].
  destruct (generateState X e1) as [st e2]; simpl.
  intros H. inversion H; subst. eexists. split; reflexivity.
Qed.

Lemma start_active (w : World E) (d : SessionDescriptor) (w1 : World E) :
  startAntigravityOAuthSession X w = (Returned d, w1) ->
  exists s, activeAntigravityOAuthSession w1 = Some s /\ describe s = d.
Proof.
  unfold startAntigravityOAuthSession.
  unfold bind at 1. unfold getSession at 1.
  unfold bind at 1. unfold ask at 1.
  destruct (activeAntigravityOAuthSession w) as [s |] eqn:Hs.
  - destruct (dateNow X (env w) <? expiresAt s).
    + unfold ret. intros H. inversion H; subst. exists s. split; [exact Hs | reflexivity].
    + apply openSession_active.
  - apply openSession_active.
Qed.

(** C4. While an active session has not expired, starting again returns
    that session's descriptor and leaves everything as it was: no session
    is created, no listener is started, no call is made. In particular a
    start that follows a successful start before its expiry returns the
    same [{state, authUrl, redirectUri, expiresAt}]. *)
Theorem start_is_idempotent_until_expiry (w : World E) :
  (forall s,
     activeAntigravityOAuthSession w = Some s ->
     dateNow X (env w) < expiresAt s ->
     startAntigravityOAuthSession X w = (Returned (describe s), w))
  /\ (forall d w1,
      startAntigravityOAuthSession X w = (Returned d, w1) ->
      forall e,
        dateNow X e < d_expiresAt d ->
        startAntigravityOAuthSession X (withEnv e w1)
        = (Returned d, withEnv e w1)).
Proof.
  assert (first : forall (v : World E) s,
             activeAntigravityOAuthSession v = Some s ->
             dateNow X (env v) < expiresAt s ->
             startAntigravityOAuthSession X v = (Returned (describe s), v)).
  { intros v s Hs Hnow. unfold startAntigravityOAuthSession. unfold_eff.
    rewrite Hs. apply Z.ltb_lt in Hnow. rewrite Hnow. reflexivity. }
  split.
  - apply first.
  - intros d w1 Hstart e Hnow.
    destruct (start_active _ _ _ Hstart) as (s & Hs & <-).
    apply first; [exact Hs | exact Hnow].
Qed.




Lemma poll_without_session (w : World E) (oauthState : string) :
  activeAntigravityOAuthSession w = None ->
  pollAntigravityOAuthSession X oauthState w = (Returned noActiveSession, w).
Proof.
  intros Hs. unfold pollAntigravityOAuthSession. unfold_eff. rewrite Hs. reflexivity.
Qed.

Lemma poll_returns (w : World E) (oauthState : string) :
  exists r w', pollAntigravityOAuthSession X oauthState w = (Returned r, w').
Proof.
  unfold pollAntigravityOAuthSession.
  unfold bind at 1. unfold getSession at 1.
  destruct (activeAntigravityOAuthSession w) as [s |] eqn:Hs;
    [| unfold ret; eauto].
  destruct (negb (state s =? oauthState)%string); [unfold ret; eauto |].
  unfold bind at 1. unfold ask at 1.
  destruct (expiresAt s <? dateNow X (env w)).
  - unfold bind at 1. destruct (stop_returns w) as (w' & -> & _ & _).
    unfold ret. eauto.
  - destruct (callback s) as [cb |]; [| unfold ret; eauto].
    unfold tryCatch. unfold bind at 1.
    destruct (completeOAuthCallbackLogin X cb (state s) (redirectUri s) w)
      as [[r | m] w1].
    + unfold bind at 1. destruct (stop_returns w1) as (w2 & -> & _ & _).
      destruct (negb (success r)); unfold ret; eauto.
    + unfold bind at 1. destruct (stop_returns w1) as (w2 & -> & _ & _).
      unfold ret. eauto.
Qed.

(** C5. A poll of the active session's state after its [expiresAt] answers
    status [failed], written "error" on the wire, with the message
    "Authentication timeout (5 minutes)" and no email, and tears the
    session down (its listener is stopped, no session is active, the stored
    credentials are untouched), so that every later poll finds no session.
    A poll with a state that matches no active session (none is active, or
    the active one has another state) answers status [failed] with the
    message "No active Antigravity OAuth session" and changes nothing.
    No poll throws. *)
Theorem poll_timeout_and_unknown_state (w : World E) (oauthState : string) :
  (forall s,
     activeAntigravityOAuthSession w = Some s ->
     state s = oauthState ->
     expiresAt s < dateNow X (env w) ->
     exists w',
       pollAntigravityOAuthSession X oauthState w
       = (Returned (mkPollResult failed
                      (Some "Authentication timeout (5 minutes)") None), w')
       /\ activeAntigravityOAuthSession w' = None
       /\ calls w' = (calls w ++ [CallServerStop (server s)])%list
       /\ appState w' = appState w
       /\ forall e again,
            pollAntigravityOAuthSession X again (withEnv e w')
            = (Returned (mkPollResult failed
                           (Some "No active Antigravity OAuth session") None),
               withEnv e w'))
  /\ (activeAntigravityOAuthSession w = None
      \/ (exists s, activeAntigravityOAuthSession w = Some s /\ state s <> oauthState) ->
      pollAntigravityOAuthSession X oauthState w
      = (Returned (mkPollResult failed
                     (Some "No active Antigravity OAuth session") None), w))
  /\ (exists r w', pollAntigravityOAuthSession X oauthState w = (Returned r, w'))
  /\ AuthRoute.statusName failed = "error".
Proof.
  split; [| split; [| split; [| reflexivity]]].
  - intros s Hs Hst Hlate.
    generalize (stop_run w). rewrite Hs. intros [e Hstop].
    eexists. split; [| split; [| split; [| split]]].
    + unfold pollAntigravityOAuthSession.
      unfold bind at 1. unfold getSession at 1. rewrite Hs.
      apply String.eqb_eq in Hst. rewrite Hst. cbn [negb].
      unfold bind at 1. unfold ask at 1. cbv beta.
      apply Z.ltb_lt in Hlate. rewrite Hlate.
      unfold bind at 1. rewrite Hstop. reflexivity.
    + reflexivity.
    + reflexivity.
    + reflexivity.
    + intros e' again. apply (poll_without_session (withEnv e' _) again).
      reflexivity.
  - intros [Hnone | (s & Hs & Hne)].
    + apply (poll_without_session w oauthState Hnone).
    + unfold pollAntigravityOAuthSession. unfold_eff. rewrite Hs.
      destruct (String.eqb_spec (state s) oauthState) as [Heq | _];
        [contradiction | reflexivity].
  - apply poll_returns.
Qed.

Lemma cancel_unfold (w : World E) (oauthState : option string) :
  cancelAntigravityOAuthSession X oauthState w
  = match activeAntigravityOAuthSession w with
    | None => (Returned false, w)
    | Some s =>
        match truthy oauthState with
        | Some given =>
            if (state s =? given)%string
            then (stopAntigravityOAuthSession X ;; ret true) w
            else (Returned false, w)
        | None => (stopAntigravityOAuthSession X ;; ret true) w
        end
    end.
Proof.
  unfold cancelAntigravityOAuthSession. unfold bind at 1. unfold getSession.
  destruct (activeAntigravityOAuthSession w) as [s |]; [| reflexivity].
  destruct (truthy oauthState) as [given |]; [| reflexivity].
  destruct (state s =? given)%string; reflexivity.
Qed.

(** C6 (amended). Cancelling never throws. It returns false and changes
    nothing when no session is active, and when a non-empty state token is
    supplied that is not the active session's state. It stops the
    listener, clears the active session, leaves the stored credentials
    alone and returns true when the supplied state is the active
    session's, when none is supplied, and when the supplied token is the
    empty string: the guard [oauthState && ...] of the source reads an
    empty token as an omitted one. *)
Theorem cancel_session (w : World E) (oauthState : option string) :
  (exists b w', cancelAntigravityOAuthSession X oauthState w = (Returned b, w'))
  /\ (activeAntigravityOAuthSession w = None ->
      cancelAntigravityOAuthSession X oauthState w = (Returned false, w))
  /\ (forall s given,
      activeAntigravityOAuthSession w = Some s ->
      oauthState = Some given ->
      given <> "" ->
      state s <> given ->
      cancelAntigravityOAuthSession X oauthState w = (Returned false, w))
  /\ (forall s,
      activeAntigravityOAuthSession w = Some s ->
      oauthState = None \/ oauthState = Some "" \/ oauthState = Some (state s) ->
      exists w',
        cancelAntigravityOAuthSession X oauthState w = (Returned true, w')
        /\ activeAntigravityOAuthSession w' = None
        /\ appState w' = appState w
        /\ calls w' = (calls w ++ [CallServerStop (server s)])%list).
Proof.
  assert (torn : forall s,
             activeAntigravityOAuthSession w = Some s ->
             exists w',
               (stopAntigravityOAuthSession X ;; ret true) w = (Returned true, w')
               /\ activeAntigravityOAuthSession w' = None
               /\ appState w' = appState w
               /\ calls w' = (calls w ++ [CallServerStop (server s)])%list).
  { intros s Hs. generalize (stop_run w). rewrite Hs. intros [e Hstop].
    eexists. unfold bind. rewrite Hstop. unfold ret. repeat split. }
  rewrite cancel_unfold.
  destruct (activeAntigravityOAuthSession w) as [s |] eqn:Hs.
  - destruct (torn s eq_refl) as (w' & Hrun & Hnone & Hstate & Hcalls).
    split; [| split; [| split]].
    + destruct (truthy oauthState) as [given |].
      * destruct (state s =? given)%string; [rewrite Hrun |]; eauto.
      * rewrite Hrun. eauto.
    + discriminate.
    + intros s' given Hs' Hgiven Hfull Hne. inversion Hs'; subst s'.
      rewrite Hgiven.
      assert (Htruthy : truthy (Some given) = Some given)
        by (destruct given; [contradiction | reflexivity]).
      rewrite Htruthy.
      destruct (String.eqb_spec (state s) given) as [Heq | _];
        [contradiction | reflexivity].
    + intros s' Hs' Hor. inversion Hs'; subst s'. exists w'.
      destruct Hor as [Hnot | [Hempty | Hsame]].
      * rewrite Hnot. cbn [truthy]. auto.
      * rewrite Hempty. cbn [truthy]. auto.
      * rewrite Hsame.
        destruct (truthy (Some (state s))) as [given |] eqn:Hgiven; [| auto].
        assert (Heq : given = state s).
        { destruct (state s); [discriminate | inversion Hgiven; reflexivity]. }
        rewrite Heq, String.eqb_refl. auto.
  - split; [| split; [| split]].
    + eauto.
    + reflexivity.
    + intros s given Hs'. discriminate.
    + intros s Hs'. discriminate.
Qed.

(** C9. When the three checks pass, the token exchange and the user-info
    fetch succeed and the provider returns no project identifier, the
    completion does not fail: it returns success with the user's email and
    stores the placeholder identifier [generateMockProjectId], which
    depends on nothing of the login, as the project of the account. *)
Theorem login_succeeds_without_project_id
    (cb : OAuthCallbackResult) (oauthState uri : string) (w : World E)
    (code : string) (tokens : Tokens) (info : UserInfo)
    (projectId : option string) (e1 e2 e3 : E) :
  truthy (cb_error cb) = None ->
  truthy (cb_code cb) = Some code ->
  truthy (cb_state cb) = Some oauthState ->
  exchangeCode X code uri (env w) = (Returned tokens, e1) ->
  fetchUserInfo X (tok_accessToken tokens) e1 = (Returned info, e2) ->
  getProjectID X (tok_accessToken tokens) e2 = (Returned projectId, e3) ->
  truthy projectId = None ->
  exists w',
    completeOAuthCallbackLogin X cb oauthState uri w
    = (Returned (mkLoginResult true None (Some (ui_email info))), w')
    /\ cloudaicompanionProject (appState w') = Some (generateMockProjectId X)
    /\ userEmail (appState w') = Some (ui_email info)
    /\ accessToken (appState w') = Some (tok_accessToken tokens)
    /\ activeAntigravityOAuthSession w' = activeAntigravityOAuthSession w.
Proof.
  intros He Hc Hs Hx Hu Hp Hnone.
  unfold completeOAuthCallbackLogin. rewrite He, Hc, Hs, String.eqb_refl.
  unfold exchangeAndStore.
  unfold bind at 1. unfold call at 1. rewrite Hx. simpl.
  unfold bind at 1. unfold call at 1. simpl. rewrite Hu. simpl.
  unfold bind at 1. unfold call at 1. simpl. rewrite Hp. simpl.
  unfold bind at 1. unfold ask at 1. simpl.
  unfold bind at 1. unfold setState at 1. simpl.
  unfold bind at 1.
  match goal with
  | |- context [saveAuth X ?w0] => destruct (saveAuth_run w0) as [e4 ->]
  end.
  unfold ret. eexists. split; [reflexivity |]. simpl.
  unfold orElse. rewrite Hnone. repeat split.
Qed.

End LoginFacts.

(* ===================================================================== *)
(** ** The session operations on a concrete run *)
(* ===================================================================== *)

Import Login.

(** C2, on the code: a payload without a code fails with the message
    "Missing code or state in callback", which is not the message
    "Missing code or state in callback." of the claim. *)
Lemma missing_code_message_has_no_period :
  fst (completeOAuthCallbackLogin Demo.collaborators
         (mkCallback None (Some "state-0") None) "state-0" Demo.uri (Demo.world 0))
  = Returned (failure "Missing code or state in callback")
  /\ fst (completeOAuthCallbackLogin Demo.collaborators
            (mkCallback None (Some "state-0") None) "state-0" Demo.uri (Demo.world 0))
     <> Returned (failure "Missing code or state in callback.").
Proof.
  split; [reflexivity | vm_compute; discriminate].
Qed.

Lemma completion_checks_in_order_witness :
  completeOAuthCallbackLogin Demo.collaborators
    (mkCallback (Some "code") (Some "state-0") (Some "access_denied"))
    "state-0" Demo.uri (Demo.world 0)
  = (Returned (failure "access_denied"), Demo.world 0)
  /\ completeOAuthCallbackLogin Demo.collaborators
       (mkCallback (Some "code") None None) "state-0" Demo.uri (Demo.world 0)
     = (Returned (failure "Missing code or state in callback"), Demo.world 0)
  /\ completeOAuthCallbackLogin Demo.collaborators
       (mkCallback (Some "code") (Some "forged") None) "state-0" Demo.uri (Demo.world 0)
     = (Returned (failure "State mismatch - possible CSRF attack"), Demo.world 0)
  /\ exists more,
       calls (snd (completeOAuthCallbackLogin Demo.collaborators
                     (mkCallback (Some "code") (Some "state-0") None)
                     "state-0" Demo.uri (Demo.world 0)))
       = ([] ++ CallExchangeCode "code" Demo.uri :: more)%list.
Proof.
  split; [| split; [| split]].
  - apply (proj1 (completion_checks_in_order Demo.collaborators
                    (mkCallback (Some "code") (Some "state-0") (Some "access_denied"))
                    "state-0" Demo.uri (Demo.world 0))).
    reflexivity.
  - apply (proj1 (proj2 (completion_checks_in_order Demo.collaborators
                           (mkCallback (Some "code") None None)
                           "state-0" Demo.uri (Demo.world 0)))).
    + reflexivity.
    + right. reflexivity.
  - apply (proj1 (proj2 (proj2 (completion_checks_in_order Demo.collaborators
                                  (mkCallback (Some "code") (Some "forged") None)
                                  "state-0" Demo.uri (Demo.world 0))))
             "code" "forged").
    + reflexivity.
    + reflexivity.
    + reflexivity.
    + discriminate.
  - apply (proj2 (proj2 (proj2 (completion_checks_in_order Demo.collaborators
                                  (mkCallback (Some "code") (Some "state-0") None)
                                  "state-0" Demo.uri (Demo.world 0))))
             "code").
    + reflexivity.
    + reflexivity.
    + reflexivity.
Defined.



Lemma start_is_idempotent_until_expiry_witness :
  startAntigravityOAuthSession Demo.collaborators
    (withEnv (Demo.mkEnv 299999 1) Demo.opened)
  = (Returned (mkDescriptor "state-0"
                 (generateAuthURL Demo.collaborators Demo.uri "state-0") Demo.uri 300000),
     withEnv (Demo.mkEnv 299999 1) Demo.opened).
Proof.
  apply (proj2 (start_is_idempotent_until_expiry Demo.collaborators (Demo.world 0))
           _ Demo.opened).
  - reflexivity.
  - vm_compute. reflexivity.
Defined.

Lemma poll_timeout_and_unknown_state_witness :
  (exists w',
     pollAntigravityOAuthSession Demo.collaborators "state-0"
       (Demo.at_time 300001 Demo.opened)
     = (Returned (mkPollResult failed
                    (Some "Authentication timeout (5 minutes)") None), w')
     /\ activeAntigravityOAuthSession w' = None)
  /\ pollAntigravityOAuthSession Demo.collaborators "state-0" Demo.reopened
     = (Returned (mkPollResult failed
                    (Some "No active Antigravity OAuth session") None),
        Demo.reopened).
Proof.
  split.
  - destruct (proj1 (poll_timeout_and_unknown_state Demo.collaborators
                       (Demo.at_time 300001 Demo.opened) "state-0")
                (mkSession "state-0"
                   (generateAuthURL Demo.collaborators Demo.uri "state-0")
                   Demo.uri 300000 0%nat None)
                eq_refl eq_refl ltac:(vm_compute; reflexivity))
      as (w' & Hpoll & Hnone & _).
    exists w'. split; assumption.
  - apply (proj1 (proj2 (poll_timeout_and_unknown_state Demo.collaborators
                           Demo.reopened "state-0"))).
    right. eexists. split; [reflexivity | discriminate].
Defined.

(** C6, on the code: the session of the demo has state "state-0"; a cancel
    that supplies the empty token, which is not that state, returns true
    and leaves no session. *)
Lemma empty_state_token_cancels_the_session :
  option_map state (activeAntigravityOAuthSession Demo.opened) = Some "state-0"
  /\ fst (cancelAntigravityOAuthSession Demo.collaborators (Some "") Demo.opened)
     = Returned true
  /\ activeAntigravityOAuthSession
       (snd (cancelAntigravityOAuthSession Demo.collaborators (Some "")
               Demo.opened))
     = None.
Proof.
  repeat split.
Qed.

Lemma cancel_session_witness :
  cancelAntigravityOAuthSession Demo.collaborators (Some "forged") Demo.opened
  = (Returned false, Demo.opened)
  /\ cancelAntigravityOAuthSession Demo.collaborators None (Demo.world 0)
     = (Returned false, Demo.world 0)
  /\ (exists w',
       cancelAntigravityOAuthSession Demo.collaborators (Some "state-0") Demo.opened
       = (Returned true, w')
       /\ activeAntigravityOAuthSession w' = None)
  /\ (exists w',
       cancelAntigravityOAuthSession Demo.collaborators (Some "") Demo.opened
       = (Returned true, w')
       /\ activeAntigravityOAuthSession w' = None).
Proof.
  split; [| split; [| split]].
  - apply (proj1 (proj2 (proj2 (cancel_session Demo.collaborators Demo.opened
                                  (Some "forged"))))
             (mkSession "state-0"
                (generateAuthURL Demo.collaborators Demo.uri "state-0")
                Demo.uri 300000 0%nat None)
             "forged").
    + reflexivity.
    + reflexivity.
    + discriminate.
    + discriminate.
  - apply (proj1 (proj2 (cancel_session Demo.collaborators (Demo.world 0) None))).
    reflexivity.
  - destruct (proj2 (proj2 (proj2 (cancel_session Demo.collaborators Demo.opened
                                     (Some "state-0"))))
                (mkSession "state-0"
                   (generateAuthURL Demo.collaborators Demo.uri "state-0")
                   Demo.uri 300000 0%nat None)
                eq_refl (or_intror (or_intror eq_refl)))
      as (w' & Hrun & Hnone & _).
    exists w'. split; assumption.
  - destruct (proj2 (proj2 (proj2 (cancel_session Demo.collaborators Demo.opened
                                     (Some ""))))
                (mkSession "state-0"
                   (generateAuthURL Demo.collaborators Demo.uri "state-0")
                   Demo.uri 300000 0%nat None)
                eq_refl (or_intror (or_introl eq_refl)))
      as (w' & Hrun & Hnone & _).
    exists w'. split; assumption.
Defined.

Lemma login_succeeds_without_project_id_witness :
  exists w',
    completeOAuthCallbackLogin Demo.collaborators
      (mkCallback (Some "code") (Some "state-0") None) "state-0" Demo.uri (Demo.world 0)
    = (Returned (mkLoginResult true None (Some "user@example.com")), w')
    /\ cloudaicompanionProject (appState w') = Some "placeholder-project".
Proof.
  destruct (login_succeeds_without_project_id Demo.collaborators
              (mkCallback (Some "code") (Some "state-0") None) "state-0" Demo.uri
              (Demo.world 0) "code" (mkTokens "access-code" "refresh" 3600)
              (mkUserInfo "user@example.com") None
              (Demo.mkEnv 0 0) (Demo.mkEnv 0 0) (Demo.mkEnv 0 0)
              eq_refl eq_refl eq_refl eq_refl eq_refl eq_refl eq_refl)
    as (w' & Hrun & Hproject & _).
  exists w'. split; assumption.
Defined.


(* ===================================================================== *)
(** ** Properties of the auth routes *)
(* ===================================================================== *)

Section RouteFacts.

Import AuthRoute.
Local Open Scope js_scope.

Context {E : Type} (X : Collaborators E) (S : Services E).

(** C1 (amended). A GET of [/auth/export] or [/bundle/export] and a POST of
    [/auth/import] or [/bundle/import] is answered, whatever the query and
    the payload and without any effect, with status 410 and the body
    [{success:false, error:"Credential bundle export/import has been
    removed."}]; on the auth router itself these are the GET of [/export]
    and the POST of [/import]. *)
Theorem removed_endpoints_answer_gone (req : Request) :
  (method req = GET /\ (path req = "/auth/export" \/ path req = "/bundle/export"))
  \/ (method req = POST /\ (path req = "/auth/import" \/ path req = "/bundle/import")) ->
  (exists m,
     Server.fetch X S req = Some m
     /\ forall w : World E, m w = (Returned removedResponse, w))
  /\ (forall q t (w : World E),
      option_map (fun m => m w) (request X S (mkRequest GET "/export" q t))
      = Some (Returned removedResponse, w)
      /\ option_map (fun m => m w) (request X S (mkRequest POST "/import" q t))
         = Some (Returned removedResponse, w))
  /\ status removedResponse = 410
  /\ body removedResponse
     = JsonBody (JObj [("success", JBool false);
                       ("error",
                        JStr "Credential bundle export/import has been removed.")]).
Proof.
  intros Hreq. split; [| split; [| split; reflexivity]].
  2: { intros q t w. split; reflexivity. }
  destruct req as [m p q t]. simpl in Hreq.
  destruct Hreq as [[-> [-> | ->]] | [-> [-> | ->]]];
    (eexists; split; [reflexivity | intros w; reflexivity]).
Qed.

Lemma antigravity_success_names_provider
    (b : LoginBody) (f : bool) (w w' : World E) (r : Response) :
  antigravityLogin X S b f w = (Returned r, w') ->
  field "success" r = Some (JBool true) ->
  field "provider" r = Some (JStr "antigravity").
Proof.
  unfold antigravityLogin. destruct f.
  - unfold tryCatch, bind.
    destruct (startAntigravityOAuthSession X w) as [[d | m] w1];
      unfold ret; intros H; inversion H; subst; clear H.
    + reflexivity.
    + discriminate.
  - destruct (truthy (b_accessToken b)) as [token |].
    + unfold bind.
      destruct (setAuth X token (b_refreshToken b) (b_email b) (b_name b) w)
        as [[u | m] w1]; [| discriminate].
      destruct (syncAntigravityAccountFromState X S w1) as [[u' | m] w2];
        [| discriminate].
      unfold ret; intros H; inversion H; subst; clear H. reflexivity.
    + unfold bind.
      destruct (startOAuthLogin X w) as [[res | m] w1]; [| discriminate].
      destruct (success res).
      * destruct (syncAntigravityAccountFromState X S w1) as [[u' | m] w2];
          [| discriminate].
        unfold ret; intros H; inversion H; subst; clear H. reflexivity.
      * unfold ret; intros H; inversion H; subst; clear H. discriminate.
Qed.

(** C10. A [/login] body whose provider, lower-cased, is neither
    "copilot" nor "codex" (absent, empty or any other string) is handled by
    the Antigravity branch: the handler does what it does for the same body
    without a provider field, no answer depends on the provider name, and
    every successful answer names the provider "antigravity". A POST of
    [/login] with such a body is routed to this handler. *)
Theorem unknown_provider_is_antigravity (b : LoginBody) (w : World E) :
  providerOf b <> "copilot" ->
  providerOf b <> "codex" ->
  loginWith X S b w
  = tryCatch (antigravityLogin X S b (forced b))
             (fun message => ret (json (JObj [("error", JStr message)]) 500)) w
  /\ loginWith X S b w = loginWith X S (withoutProvider b) w
  /\ (forall r w',
      loginWith X S b w = (Returned r, w') ->
      field "success" r = Some (JBool true) ->
      field "provider" r = Some (JStr "antigravity"))
  /\ (forall req,
      method req = POST ->
      path req = "/login" ->
      readBody S (text req) = b ->
      exists m, request X S req = Some m /\ m w = loginWith X S b w).
Proof.
  intros Hcopilot Hcodex.
  assert (Hrun : loginWith X S b w
                 = tryCatch (antigravityLogin X S b (forced b))
                     (fun message => ret (json (JObj [("error", JStr message)]) 500)) w).
  { unfold loginWith. cbv zeta.
    destruct (String.eqb_spec (providerOf b) "copilot") as [Heq | _];
      [contradiction |].
    destruct (String.eqb_spec (providerOf b) "codex") as [Heq | _];
      [contradiction | reflexivity]. }
  split; [exact Hrun | split; [| split]].
  - rewrite Hrun. unfold loginWith, withoutProvider, providerOf. reflexivity.
  - rewrite Hrun. unfold tryCatch. intros r w'.
    destruct (antigravityLogin X S b (forced b) w) as [[r0 | m] w1] eqn:Hbranch.
    + intros H; inversion H; subst. eapply antigravity_success_names_provider; eauto.
    + unfold ret. intros H; inversion H; subst. discriminate.
  - intros req Hm Hp Hb. unfold request. rewrite Hm, Hp. simpl.
    eexists. split; [reflexivity |]. unfold login. rewrite Hb. reflexivity.
Qed.

End RouteFacts.

(** C1, on the code: the router registers [/export] for GET only, so a POST
    of [/auth/export] is not answered by the removed-endpoint handler (no
    route of the router matches it); likewise a GET of [/auth/import]. *)
Lemma post_export_is_not_routed :
  AuthRoute.matchRoute AuthRoute.authRouter POST "/export" = None
  /\ Server.fetch Demo.collaborators Demo.services
       (AuthRoute.mkRequest POST "/auth/export" [] "") = None
  /\ Server.fetch Demo.collaborators Demo.services
       (AuthRoute.mkRequest GET "/auth/import" [] "") = None.
Proof. repeat split. Qed.

Lemma removed_endpoints_answer_gone_witness :
  exists m,
    Server.fetch Demo.collaborators Demo.services
      (AuthRoute.mkRequest POST "/auth/import" [("force", "1")] "accounts") = Some m
    /\ forall w, m w = (Returned AuthRoute.removedResponse, w).
Proof.
  apply (proj1 (removed_endpoints_answer_gone Demo.collaborators Demo.services
                  (AuthRoute.mkRequest POST "/auth/import" [("force", "1")] "accounts")
                  (or_intror (conj eq_refl (or_introl eq_refl))))).
Defined.

Lemma unknown_provider_is_antigravity_witness :
  AuthRoute.loginWith Demo.collaborators Demo.services
    (AuthRoute.readBody Demo.services "Gemini") (Demo.world 0)
  = AuthRoute.loginWith Demo.collaborators Demo.services
      (AuthRoute.withoutProvider (AuthRoute.readBody Demo.services "Gemini"))
      (Demo.world 0).
Proof.
  apply (proj1 (proj2 (unknown_provider_is_antigravity
                         Demo.collaborators Demo.services
                         (AuthRoute.readBody Demo.services "Gemini") (Demo.world 0)
                         ltac:(vm_compute; discriminate)
                         ltac:(vm_compute; discriminate)))).
Defined.

(* ===================================================================== *)
(** ** Properties of the model catalog *)
(* ===================================================================== *)

Section CatalogFacts.

Import Models.

Lemma known_In (seen : list string) (i : string) :
  known seen i = true <-> In i seen.
Proof.
  unfold known. rewrite existsb_exists. split.
  - intros (j & Hj & Heq). apply String.eqb_eq in Heq. subst. exact Hj.
  - intros Hi. exists i. split; [exact Hi | apply String.eqb_refl].
Qed.

Lemma known_false (seen : list string) (i : string) :
  known seen i = false <-> ~ In i seen.
Proof.
  rewrite <- known_In.
  destruct (known seen i); split; intros H;
    congruence || (exfalso; apply H; reflexivity).
Qed.

Lemma sanitize_id (m m' : ModelDescriptor) :
  sanitize m = Some m' ->
  id m' = trim (id m) /\ label m' = trim (label m) /\ id m' <> "".
Proof.
  unfold sanitize. destruct (String.eqb_spec (trim (id m)) "") as [Heq | Hne].
  - discriminate.
  - intros H. inversion H; subst. simpl. repeat split. exact Hne.
Qed.

Lemma collect_In (ms : list ModelDescriptor) :
  forall seen m,
    In m (collect seen ms) ->
    ~ In (id m) seen /\ exists m0, In m0 ms /\ sanitize m0 = Some m.
Proof.
  induction ms as [| m0 rest IH]; intros seen m Hin; simpl in Hin.
  - contradiction.
  - destruct (sanitize m0) as [m' |] eqn:Hs.
    + destruct (known seen (id m')) eqn:Hk.
      * destruct (IH _ _ Hin) as (Hnot & m1 & Hm1 & Hs1).
        split; [exact Hnot | exists m1; split; [right; exact Hm1 | exact Hs1]].
      * destruct Hin as [<- | Hin].
        -- split; [apply known_false; exact Hk |].
           exists m0. split; [left; reflexivity | exact Hs].
        -- destruct (IH _ _ Hin) as (Hnot & m1 & Hm1 & Hs1).
           split; [intros Hseen; apply Hnot; right; exact Hseen |].
           exists m1. split; [right; exact Hm1 | exact Hs1].
    + destruct (IH _ _ Hin) as (Hnot & m1 & Hm1 & Hs1).
      split; [exact Hnot | exists m1; split; [right; exact Hm1 | exact Hs1]].
Qed.

Lemma collect_NoDup (ms : list ModelDescriptor) :
  forall seen, NoDup (map id (collect seen ms)).
Proof.
  induction ms as [| m0 rest IH]; intros seen; simpl.
  - constructor.
  - destruct (sanitize m0) as [m' |]; [| apply IH].
    destruct (known seen (id m')); [apply IH |].
    simpl. constructor; [| apply IH].
    intros Hin. apply in_map_iff in Hin. destruct Hin as (m & Hid & Hm).
    destruct (collect_In _ _ _ Hm) as (Hnot & _).
    apply Hnot. left. symmetry. exact Hid.
Qed.

Lemma collect_find (ms : list ModelDescriptor) (i : string) :
  forall seen,
    ~ In i seen ->
    find (hasId i) (collect seen ms) = find (hasId i) (sanitized ms).
Proof.
  induction ms as [| m0 rest IH]; intros seen Hnot; simpl.
  - reflexivity.
  - destruct (sanitize m0) as [m' |]; [| apply IH; exact Hnot].
    destruct (known seen (id m')) eqn:Hk.
    + simpl. unfold hasId at 2.
      destruct (String.eqb_spec (id m') i) as [Heq | Hne].
      * exfalso. apply Hnot. rewrite <- Heq. apply known_In. exact Hk.
      * apply IH. exact Hnot.
    + simpl. unfold hasId at 1 3.
      destruct (String.eqb_spec (id m') i) as [Heq | Hne]; [reflexivity |].
      apply IH. intros [Heq | Hin]; [apply Hne; exact Heq | apply Hnot; exact Hin].
Qed.

Lemma filter_hasId_absent (i : string) (ms : list ModelDescriptor) :
  ~ In i (map id ms) -> filter (hasId i) ms = [].
Proof.
  induction ms as [| m rest IH]; intros Hnot; simpl.
  - reflexivity.
  - unfold hasId at 1. destruct (String.eqb_spec (id m) i) as [Heq | Hne].
    + exfalso. apply Hnot. left. exact Heq.
    + apply IH. intros Hin. apply Hnot. right. exact Hin.
Qed.

Lemma merge_filter_present (dynamic static : list ModelDescriptor) (i : string) :
  In i (map id (sanitizeDynamic dynamic)) ->
  filter (hasId i) (mergeCatalog dynamic static)
  = filter (hasId i) (sanitizeDynamic dynamic).
Proof.
  intros Hin. unfold mergeCatalog. cbv zeta. rewrite filter_app.
  rewrite (filter_hasId_absent i (filter _ static)).
  - apply app_nil_r.
  - intros Habs. apply in_map_iff in Habs. destruct Habs as (m & Hid & Hm).
    apply filter_In in Hm. destruct Hm as (_ & Hk).
    apply negb_true_iff in Hk. apply known_false in Hk.
    apply Hk. rewrite Hid. exact Hin.
Qed.

Lemma merge_empty_dynamic (static : list ModelDescriptor) :
  mergeCatalog [] static = static.
Proof.
  unfold mergeCatalog. simpl.
  induction static as [| m rest IH]; simpl; [reflexivity | f_equal; exact IH].
Qed.

(** C7. The visible catalog of a dynamic list: every dynamic entry is
    trimmed in id and label and dropped when its trimmed id is empty; the
    ids that remain are pairwise distinct and each carries the label of its
    first occurrence; the static entries whose id is not among them follow,
    in the order of the static list. With an empty dynamic list (never set,
    or cleared) the catalog is exactly the static list, so it contains
    gpt-4o when the static list does. The dynamic list
    [{id:" x ", label:" A "}, {id:"x", label:"B"}, {id:"", label:"C"}]
    gives exactly one entry, [{id:"x", label:"A"}], and the catalog has no
    other entry of id "x". *)
Theorem catalog_merge_rule (dynamic static : list ModelDescriptor) :
  (forall m,
     In m (sanitizeDynamic dynamic) ->
     id m <> ""
     /\ exists m0, In m0 dynamic /\ id m = trim (id m0) /\ label m = trim (label m0))
  /\ NoDup (map id (sanitizeDynamic dynamic))
  /\ (forall i,
      find (hasId i) (sanitizeDynamic dynamic) = find (hasId i) (sanitized dynamic))
  /\ mergeCatalog dynamic static
     = (sanitizeDynamic dynamic
        ++ filter (fun m => negb (known (map id (sanitizeDynamic dynamic)) (id m)))
                  static)%list
  /\ (forall m,
      In m (mergeCatalog dynamic static) <->
      In m (sanitizeDynamic dynamic)
      \/ (In m static /\ ~ In (id m) (map id (sanitizeDynamic dynamic))))
  /\ mergeCatalog [] static = static
  /\ (forall (lists : Provider -> list ModelDescriptor) (c : Cache),
      getProviderModels lists (clearDynamicCopilotModels c) copilot = lists copilot
      /\ (forall m, In m (lists copilot) -> id m = "gpt-4o" ->
           exists m', In m' (getProviderModels lists emptyCache copilot)
                      /\ id m' = "gpt-4o"))
  /\ sanitizeDynamic exampleDynamic = [mkModel "x" "A"]
  /\ filter (hasId "x") (mergeCatalog exampleDynamic static) = [mkModel "x" "A"].
Proof.
  pose proof merge_empty_dynamic as Hempty.
  split; [| split; [| split; [| split; [| split; [| split; [| split; [| split]]]]]]].
  - intros m Hin. destruct (collect_In _ _ _ Hin) as (_ & m0 & Hm0 & Hs).
    destruct (sanitize_id _ _ Hs) as (Hid & Hlabel & Hne).
    split; [exact Hne | exists m0; auto].
  - apply collect_NoDup.
  - intros i. apply collect_find. intros [].
  - reflexivity.
  - intros m. unfold mergeCatalog. cbv zeta. rewrite in_app_iff, filter_In.
    rewrite negb_true_iff, known_false. reflexivity.
  - apply Hempty.
  - intros lists c. split.
    + unfold getProviderModels, clearDynamicCopilotModels, setDynamicModels.
      simpl. apply Hempty.
    + intros m Hm Hid. exists m. split; [| exact Hid].
      unfold getProviderModels, emptyCache. rewrite Hempty. exact Hm.
  - reflexivity.
  - rewrite merge_filter_present; [reflexivity | left; reflexivity].
Qed.

End CatalogFacts.

Lemma catalog_merge_rule_witness :
  exists m',
    In m' (Models.getProviderModels
             (fun _ => [Models.mkModel "gpt-4o" "GPT-4o";
                        Models.mkModel "claude-opus-4-5-thinking" "Claude Opus 4.5"])
             Models.emptyCache Models.copilot)
    /\ Models.id m' = "gpt-4o".
Proof.
  apply (proj2 (proj1 (proj2 (proj2 (proj2 (proj2 (proj2 (proj2
           (catalog_merge_rule [] []))))))) _ Models.emptyCache)
           (Models.mkModel "gpt-4o" "GPT-4o")).
  - left. reflexivity.
  - reflexivity.
Defined.

(* ===================================================================== *)
(** ** Properties of the routing configuration *)
(* ===================================================================== *)

Section RoutingFacts.

Import Models Routing.
Local Open Scope js_scope.

Context {E : Type} (X : Collaborators E).

Lemma refreshProvider_run (p : Provider) (w : World E) :
  exists r w',
    refreshProvider X p w = (Returned r, w')
    /\ accountsOf w' = accountsOf w
    /\ config w' = config w
    /\ refreshes w' = (refreshes w ++ attempt X p w)%list
    /\ (forall q, q <> p -> dynamicModels w' q = dynamicModels w q)
    /\ (pickAccount (dateNow X (env w)) (accountsOf w p) = None ->
        r = Skipped /\ dynamicModels w' = dynamicModels w)
    /\ (forall a m e,
          pickAccount (dateNow X (env w)) (accountsOf w p) = Some a ->
          listRemoteModels X p a (env w) = (Thrown m, e) ->
          r = Failed /\ dynamicModels w' = dynamicModels w)
    /\ (forall a ms e,
          pickAccount (dateNow X (env w)) (accountsOf w p) = Some a ->
          listRemoteModels X p a (env w) = (Returned ms, e) ->
          r = Refreshed /\ dynamicModels w' p = ms).
Proof.
  unfold refreshProvider, attempt.
  destruct (pickAccount (dateNow X (env w)) (accountsOf w p)) as [a |].
  - unfold tryCatch, bind, fetchRemote, storeDynamic, ret.
    destruct (listRemoteModels X p a (env w)) as [[ms | m] e] eqn:Hfetch; simpl.
    + eexists. eexists. split; [reflexivity |]. simpl.
      split; [reflexivity |]. split; [reflexivity |]. split; [reflexivity |].
      split; [| split; [| split]].
      * intros q Hq. unfold setDynamicModels.
        destruct q, p; simpl; congruence.
      * discriminate.
      * intros a' m' e' Ha' Hfail. inversion Ha'; subst a'. congruence.
      * intros a' ms' e' Ha' Hok. inversion Ha'; subst a'.
        split; [reflexivity |]. unfold setDynamicModels.
        destruct p; simpl; congruence.
    + eexists. eexists. split; [reflexivity |]. simpl.
      split; [reflexivity |]. split; [reflexivity |]. split; [reflexivity |].
      split; [| split; [| split]].
      * reflexivity.
      * discriminate.
      * intros. split; reflexivity.
      * intros a' ms' e' Ha' Hok. inversion Ha'; subst a'. congruence.
  - exists Skipped, w. rewrite app_nil_r.
    split; [reflexivity |]. split; [reflexivity |]. split; [reflexivity |].
    split; [reflexivity |]. split; [reflexivity |].
    split; [split; reflexivity | split; intros; discriminate].
Qed.

Lemma pick_first_eligible (now : Z) (pre post : list Account) (a : Account) :
  eligible now a = true ->
  (forall b, In b pre -> eligible now b = false) ->
  pickAccount now (pre ++ a :: post) = Some a.
Proof.
  intros Ha Hpre. unfold pickAccount.
  assert (Hfind : find (eligible now) (pre ++ a :: post) = Some a).
  { induction pre as [| b pre IH]; simpl.
    - rewrite Ha. reflexivity.
    - rewrite (Hpre b (or_introl eq_refl)). apply IH.
      intros c Hc. apply Hpre. right. exact Hc. }
  rewrite Hfind. reflexivity.
Qed.

Lemma attemptsFor_app (p : Provider) (l1 l2 : list (Provider * string)) :
  attemptsFor p (l1 ++ l2) = (attemptsFor p l1 ++ attemptsFor p l2)%list.
Proof. apply filter_app. Qed.

Lemma attemptsFor_attempt (p q : Provider) (w : World E) :
  attemptsFor p (attempt X q w) = if Provider_eqb q p then attempt X q w else [].
Proof.
  unfold attempt, attemptsFor.
  destruct (pickAccount (dateNow X (env w)) (accountsOf w q)); simpl;
    destruct (Provider_eqb q p); reflexivity.
Qed.

(** C8. A call of [getRoutingConfig] never raises. For each provider it
    makes at most one refresh attempt, none when the provider has no
    account, and the attempt uses the earliest-inserted account that is
    eligible when the provider's refresh starts. When the fetch of a
    provider fails, the call still answers, the provider's dynamic list is
    left as it was, and the provider's catalog in the answer is exactly the
    static list. When the fetch is answered, the fetched list becomes the
    provider's dynamic list and the catalog is its merge with the static
    list; when the provider has no account, the catalog is the merge of
    the dynamic list held before the call with the static list. *)
Theorem routing_config_refreshes_once (w : World E) :
  exists view w' log,
    getRoutingConfig X w = (Returned view, w')
    /\ accountsOf w' = accountsOf w
    /\ refreshes w' = (refreshes w ++ log)%list
    /\ (forall p, (List.length (attemptsFor p log) <= 1)%nat)
    /\ (forall p,
          accountsOf w p = [] ->
          attemptsFor p log = []
          /\ dynamicModels w' p = dynamicModels w p
          /\ view_models view p
             = mergeCatalog (dynamicModels w p) (staticModels X p))
    /\ (forall p pre a post,
          accountsOf w p = (pre ++ a :: post)%list ->
          eligible (dateNow X (env (before X p w))) a = true ->
          (forall b, In b pre ->
                     eligible (dateNow X (env (before X p w))) b = false) ->
          attemptsFor p log = [(p, acc_id a)])
    /\ (forall p a m e,
          pickAccount (dateNow X (env (before X p w))) (accountsOf w p) = Some a ->
          listRemoteModels X p a (env (before X p w)) = (Thrown m, e) ->
          dynamicModels w' p = dynamicModels w p
          /\ view_models view p = staticModels X p)
    /\ (forall p a ms e,
          pickAccount (dateNow X (env (before X p w))) (accountsOf w p) = Some a ->
          listRemoteModels X p a (env (before X p w)) = (Returned ms, e) ->
          dynamicModels w' p = ms
          /\ view_models view p = mergeCatalog ms (staticModels X p)).
Proof.
  destruct (refreshProvider_run antigravity w)
    as (r1 & w1 & R1 & A1 & C1 & L1 & D1 & N1 & F1 & S1).
  destruct (refreshProvider_run codex w1)
    as (r2 & w2 & R2 & A2 & C2 & L2 & D2 & N2 & F2 & S2).
  destruct (refreshProvider_run copilot w2)
    as (r3 & w3 & R3 & A3 & C3 & L3 & D3 & N3 & F3 & S3).
  assert (B1 : before X codex w = w1)
    by (unfold before; rewrite R1; reflexivity).
  assert (B2 : before X copilot w = w2)
    by (unfold before; rewrite R1; simpl; rewrite R2; reflexivity).
  assert (Hlog : forall p,
             attemptsFor p (attempt X antigravity w ++ attempt X codex w1
                            ++ attempt X copilot w2)
             = attempt X p (before X p w)).
  { intros p. rewrite !attemptsFor_app, !attemptsFor_attempt.
    destruct p; rewrite ?B1, ?B2; cbn [Provider_eqb before app];
      rewrite ?app_nil_r; reflexivity. }
  assert (Hacc : forall p, accountsOf (before X p w) = accountsOf w).
  { intros p. destruct p; [reflexivity | rewrite B1; exact A1
                          | rewrite B2, A2; exact A1]. }
  (* The refresh of [p] starts in [before X p w] and ends in [w_p]; the
     dynamic list of [p] is the same in [w] and at the start, and the same
     at the end and in [w3]. *)
  assert (Hstart : forall p, dynamicModels (before X p w) p = dynamicModels w p).
  { intros p. destruct p; [reflexivity | rewrite B1; apply D1; discriminate
                          | rewrite B2, D2 by discriminate; apply D1; discriminate]. }
  exists (mkConfigView (flows (config w3)) (smartSwitch (config w3))
            (routes (config w3))
            (fun p =>
               visibleCatalog X
                 (match p with
                  | antigravity => r1
                  | codex => r2
                  | copilot => r3
                  end)
                 (dynamicModels w3) p)).
  exists w3.
  exists (attempt X antigravity w ++ attempt X codex w1 ++ attempt X copilot w2)%list.
  split; [| split; [| split; [| split; [| split; [| split; [| split]]]]]].
  - unfold getRoutingConfig, bind. rewrite R1, R2, R3. reflexivity.
  - rewrite A3, A2. exact A1.
  - rewrite L3, L2, L1, <- !app_assoc. reflexivity.
  - intros p. rewrite Hlog. unfold attempt.
    destruct (pickAccount (dateNow X (env (before X p w)))
                (accountsOf (before X p w) p)); simpl; lia.
  - intros p Hnone.
    assert (Hpick : pickAccount (dateNow X (env (before X p w)))
                      (accountsOf (before X p w) p) = None)
      by (rewrite Hacc, Hnone; reflexivity).
    split; [| split].
    + rewrite Hlog. unfold attempt. rewrite Hpick. reflexivity.
    + destruct p.
      * rewrite D3, D2 by discriminate.
        destruct (N1 Hpick) as [_ ->]. reflexivity.
      * rewrite D3 by discriminate. rewrite B1 in Hpick.
        destruct (N2 Hpick) as [_ ->]. apply D1. discriminate.
      * rewrite B2 in Hpick. destruct (N3 Hpick) as [_ ->].
        rewrite D2 by discriminate. apply D1. discriminate.
    + cbn [view_models]. destruct p.
      * destruct (N1 Hpick) as [-> Hd]. cbn [visibleCatalog].
        unfold getProviderModels. rewrite D3, D2 by discriminate.
        rewrite Hd. reflexivity.
      * rewrite B1 in Hpick. destruct (N2 Hpick) as [-> Hd].
        cbn [visibleCatalog]. unfold getProviderModels.
        rewrite D3 by discriminate. rewrite Hd, D1 by discriminate.
        reflexivity.
      * rewrite B2 in Hpick. destruct (N3 Hpick) as [-> Hd].
        cbn [visibleCatalog]. unfold getProviderModels.
        rewrite Hd, D2, D1 by discriminate. reflexivity.
  - intros p pre a post Hl Ha Hpre. rewrite Hlog. unfold attempt.
    rewrite Hacc, Hl, (pick_first_eligible _ pre post a Ha Hpre). reflexivity.
  - intros p a m e Hpick Hfail. rewrite <- (Hacc p) in Hpick.
    cbn [view_models]. destruct p.
    + destruct (F1 a m e Hpick Hfail) as [-> Hd]. split; [| reflexivity].
      rewrite D3, D2 by discriminate. rewrite Hd. reflexivity.
    + rewrite B1 in Hpick, Hfail.
      destruct (F2 a m e Hpick Hfail) as [-> Hd]. split; [| reflexivity].
      rewrite D3 by discriminate. rewrite Hd. apply D1. discriminate.
    + rewrite B2 in Hpick, Hfail.
      destruct (F3 a m e Hpick Hfail) as [-> Hd]. split; [| reflexivity].
      rewrite Hd, D2 by discriminate. apply D1. discriminate.
  - intros p a ms e Hpick Hok. rewrite <- (Hacc p) in Hpick.
    cbn [view_models]. destruct p.
    + destruct (S1 a ms e Hpick Hok) as [-> Hd].
      assert (Hend : dynamicModels w3 antigravity = ms)
        by (rewrite D3, D2 by discriminate; exact Hd).
      split; [exact Hend |].
      cbn [visibleCatalog]. unfold getProviderModels. rewrite Hend. reflexivity.
    + rewrite B1 in Hpick, Hok.
      destruct (S2 a ms e Hpick Hok) as [-> Hd].
      assert (Hend : dynamicModels w3 codex = ms)
        by (rewrite D3 by discriminate; exact Hd).
      split; [exact Hend |].
      cbn [visibleCatalog]. unfold getProviderModels. rewrite Hend. reflexivity.
    + rewrite B2 in Hpick, Hok.
      destruct (S3 a ms e Hpick Hok) as [-> Hd].
      split; [exact Hd |].
      cbn [visibleCatalog]. unfold getProviderModels. rewrite Hd. reflexivity.
Qed.

End RoutingFacts.

Lemma routing_config_refreshes_once_witness :
  exists view w' log,
    Routing.getRoutingConfig Routing.Demo.failing Routing.Demo.synced
    = (Returned view, w')
    /\ Routing.attemptsFor Models.copilot log = [(Models.copilot, "older-account")]
    /\ Routing.dynamicModels w' Models.copilot = [Routing.Demo.gpt52]
    /\ Routing.view_models view Models.copilot = Routing.Demo.static Models.copilot.
Proof.
  destruct (routing_config_refreshes_once Routing.Demo.failing Routing.Demo.synced)
    as (view & w' & log & Hrun & _ & _ & _ & _ & Hfirst & Hfail & _).
  exists view, w', log. split; [exact Hrun | split; [| split]].
  - apply (Hfirst Models.copilot [] Routing.Demo.older [Routing.Demo.newer]).
    + reflexivity.
    + reflexivity.
    + intros b [].
  - apply (proj1 (Hfail Models.copilot Routing.Demo.older "sync failed" 0
                    eq_refl eq_refl)).
  - apply (proj2 (Hfail Models.copilot Routing.Demo.older "sync failed" 0
                    eq_refl eq_refl)).
Defined.

(* ===================================================================== *)
(** ** What the operations call *)
(* ===================================================================== *)

Section Calls.

Import Login Storage.
Local Open Scope js_scope.

Context {E : Type}.

Lemma emits_ret {A} (Q : Event -> Prop) (a : A) : emits Q (ret a : M E A).
Proof. intros w. exists []. simpl. rewrite app_nil_r. split; constructor. Qed.

Lemma emits_throw {A} (Q : Event -> Prop) (m : string) : emits Q (throw m : M E A).
Proof. intros w. exists []. simpl. rewrite app_nil_r. split; constructor. Qed.

Lemma emits_ask {A} (Q : Event -> Prop) (f : E -> A) : emits Q (ask f).
Proof. intros w. exists []. simpl. rewrite app_nil_r. split; constructor. Qed.

Lemma emits_getSession (Q : Event -> Prop) : emits Q (@getSession E).
Proof. intros w. exists []. simpl. rewrite app_nil_r. split; constructor. Qed.

Lemma emits_setSession (Q : Event -> Prop) s : emits Q (@setSession E s).
Proof. intros w. exists []. simpl. rewrite app_nil_r. split; constructor. Qed.

Lemma emits_getState (Q : Event -> Prop) : emits Q (@getState E).
Proof. intros w. exists []. simpl. rewrite app_nil_r. split; constructor. Qed.

Lemma emits_setState (Q : Event -> Prop) s : emits Q (@setState E s).
Proof. intros w. exists []. simpl. rewrite app_nil_r. split; constructor. Qed.

Lemma emits_call {A} (Q : Event -> Prop) (ev : Event)
    (f : E -> Completion A * E) :
  Q ev -> emits Q (call ev f).
Proof.
  intros Hq w. exists [ev]. unfold call. destruct (f (env w)) as [r e]. simpl.
  split; [reflexivity | constructor; [exact Hq | constructor]].
Qed.

Lemma emits_callPure {A} (Q : Event -> Prop) (ev : Event) (f : E -> A * E) :
  Q ev -> emits Q (callPure ev f).
Proof. intros Hq. unfold callPure. apply emits_call. exact Hq. Qed.

Lemma emits_bind {A B} (Q : Event -> Prop) (m : M E A) (k : A -> M E B) :
  emits Q m -> (forall a, emits Q (k a)) -> emits Q (bind m k).
Proof.
  intros Hm Hk w. unfold bind. destruct (Hm w) as (l1 & H1 & Q1).
  destruct (m w) as [[a | msg] w1]; simpl in H1.
  - destruct (Hk a w1) as (l2 & H2 & Q2). exists (l1 ++ l2)%list.
    rewrite H2, H1, app_assoc. split; [reflexivity | apply Forall_app; auto].
  - exists l1. simpl. auto.
Qed.

Lemma emits_tryCatch {A} (Q : Event -> Prop) (m : M E A) (h : string -> M E A) :
  emits Q m -> (forall msg, emits Q (h msg)) -> emits Q (tryCatch m h).
Proof.
  intros Hm Hh w. unfold tryCatch. destruct (Hm w) as (l1 & H1 & Q1).
  destruct (m w) as [[a | msg] w1]; simpl in H1.
  - exists l1. simpl. auto.
  - destruct (Hh msg w1) as (l2 & H2 & Q2). exists (l1 ++ l2)%list.
    rewrite H2, H1, app_assoc. split; [reflexivity | apply Forall_app; auto].
Qed.

Lemma emits_quietly (Q : Event -> Prop) (m : M E unit) :
  emits Q m -> emits Q (quietly m).
Proof. intros Hm. apply emits_tryCatch; [exact Hm | intros; apply emits_ret]. Qed.

Lemma emits_weaken {A} (Q Q' : Event -> Prop) (m : M E A) :
  (forall ev, Q ev -> Q' ev) -> emits Q m -> emits Q' m.
Proof.
  intros Himp Hm w. destruct (Hm w) as (l & H & HQ). exists l.
  split; [exact H | eapply Forall_impl; eauto].
Qed.

Lemma frames_ret {A} (a : A) : frames (ret a : M E A).
Proof. intros w. split; reflexivity. Qed.

Lemma frames_throw {A} (m : string) : frames (throw m : M E A).
Proof. intros w. split; reflexivity. Qed.

Lemma frames_ask {A} (f : E -> A) : frames (ask f).
Proof. intros w. split; reflexivity. Qed.

Lemma frames_getSession : frames (@getSession E).
Proof. intros w. split; reflexivity. Qed.

Lemma frames_getState : frames (@getState E).
Proof. intros w. split; reflexivity. Qed.

Lemma frames_call {A} (ev : Event) (f : E -> Completion A * E) :
  frames (call ev f).
Proof. intros w. unfold call. destruct (f (env w)). split; reflexivity. Qed.

Lemma frames_callPure {A} (ev : Event) (f : E -> A * E) : frames (callPure ev f).
Proof. unfold callPure. apply frames_call. Qed.

Lemma frames_bind {A B} (m : M E A) (k : A -> M E B) :
  frames m -> (forall a, frames (k a)) -> frames (bind m k).
Proof.
  intros Hm Hk w. unfold bind. destruct (Hm w) as [H1 H2].
  destruct (m w) as [[a | msg] w1]; simpl in *.
  - destruct (Hk a w1) as [H3 H4]. split; congruence.
  - split; assumption.
Qed.

Lemma frames_tryCatch {A} (m : M E A) (h : string -> M E A) :
  frames m -> (forall msg, frames (h msg)) -> frames (tryCatch m h).
Proof.
  intros Hm Hh w. unfold tryCatch. destruct (Hm w) as [H1 H2].
  destruct (m w) as [[a | msg] w1]; simpl in *.
  - split; assumption.
  - destruct (Hh msg w1) as [H3 H4]. split; congruence.
Qed.

Lemma frames_quietly (m : M E unit) : frames m -> frames (quietly m).
Proof. intros Hm. apply frames_tryCatch; [exact Hm | intros; apply frames_ret]. Qed.

Lemma frames_run {A} (m : M E A) (w w' : World E) (r : Completion A) :
  frames m -> m w = (r, w') ->
  activeAntigravityOAuthSession w' = activeAntigravityOAuthSession w
  /\ appState w' = appState w.
Proof. intros Hm Hrun. specialize (Hm w). rewrite Hrun in Hm. exact Hm. Qed.

Lemma returns_ret {A} (a : A) : returns (ret a : M E A).
Proof. intros w. unfold ret. eauto. Qed.

Lemma returns_ask {A} (f : E -> A) : returns (ask f).
Proof. intros w. unfold ask. eauto. Qed.

Lemma returns_getSession : returns (@getSession E).
Proof. intros w. unfold getSession. eauto. Qed.

Lemma returns_setSession s : returns (@setSession E s).
Proof. intros w. unfold setSession. eauto. Qed.

Lemma returns_getState : returns (@getState E).
Proof. intros w. unfold getState. eauto. Qed.

Lemma returns_setState s : returns (@setState E s).
Proof. intros w. unfold setState. eauto. Qed.

Lemma returns_callPure {A} (ev : Event) (f : E -> A * E) : returns (callPure ev f).
Proof.
  intros w. unfold callPure, call. destruct (f (env w)). eauto.
Qed.

Lemma returns_bind {A B} (m : M E A) (k : A -> M E B) :
  returns m -> (forall a, returns (k a)) -> returns (bind m k).
Proof.
  intros Hm Hk w. unfold bind. destruct (Hm w) as (a & w1 & ->). apply Hk.
Qed.

Lemma returns_tryCatch {A} (m : M E A) (h : string -> M E A) :
  (forall msg, returns (h msg)) -> returns (tryCatch m h).
Proof.
  intros Hh w. unfold tryCatch. destruct (m w) as [[a | msg] w1]; [eauto |].
  apply Hh.
Qed.

Lemma returns_quietly (m : M E unit) : returns (quietly m).
Proof. apply returns_tryCatch. intros. apply returns_ret. Qed.

Lemma returns_not_thrown {A} (m : M E A) (w w' : World E) (msg : string) :
  returns m -> m w = (Thrown msg, w') -> False.
Proof. intros Hm H. destruct (Hm w) as (a & w1 & Hr). congruence. Qed.

(** A bind that throws failed in one of its parts. *)
Lemma bind_thrown {A B} (m : M E A) (k : A -> M E B) (w w' : World E)
    (msg : string) :
  bind m k w = (Thrown msg, w') ->
  m w = (Thrown msg, w')
  \/ exists a w1, m w = (Returned a, w1) /\ k a w1 = (Thrown msg, w').
Proof.
  unfold bind. destruct (m w) as [[a | msg'] w1]; [eauto |].
  intros H. left. inversion H. reflexivity.
Qed.

(** A bind that returns went through both of its parts. *)
Lemma bind_returned {A B} (m : M E A) (k : A -> M E B) (w w' : World E) (b : B) :
  bind m k w = (Returned b, w') ->
  exists a w1, m w = (Returned a, w1) /\ k a w1 = (Returned b, w').
Proof.
  unfold bind. destruct (m w) as [[a | msg] w1]; [eauto | discriminate].
Qed.

(** What an [emits] fact says of one run. *)
Lemma emits_run {A} (Q : Event -> Prop) (m : M E A) (w w' : World E)
    (r : Completion A) :
  emits Q m -> m w = (r, w') ->
  exists more, calls w' = (calls w ++ more)%list /\ Forall Q more.
Proof. intros Hm Hrun. specialize (Hm w). rewrite Hrun in Hm. exact Hm. Qed.

End Calls.

(** Breaks a computation down to its calls, which are left as goals. *)
Ltac emits_step :=
  first
    [ apply emits_ret | apply emits_throw | apply emits_ask
    | apply emits_getSession | apply emits_setSession
    | apply emits_getState | apply emits_setState
    | apply emits_quietly
    | apply emits_callPure | apply emits_call
    | apply emits_bind; [| intros ?]
    | apply emits_tryCatch; [| intros ?] ].

Ltac returns_all :=
  repeat (first
            [ apply returns_ret | apply returns_ask
            | apply returns_getSession | apply returns_setSession
            | apply returns_getState | apply returns_setState
            | apply returns_quietly | apply returns_callPure
            | apply returns_tryCatch; intros ?
            | apply returns_bind; [| intros ?] ]
          || match goal with
             | |- Storage.returns (match ?x with _ => _ end) => destruct x
             | |- Storage.returns (if ?x then _ else _) => destruct x
             | |- Storage.returns (let _ := _ in _) => cbv zeta
             end).

Ltac frames_step :=
  first
    [ apply frames_ret | apply frames_throw | apply frames_ask
    | apply frames_getSession | apply frames_getState
    | apply frames_quietly
    | apply frames_callPure | apply frames_call
    | apply frames_bind; [| intros ?]
    | apply frames_tryCatch; [| intros ?] ].

Ltac frames_all :=
  repeat (frames_step
          || match goal with
             | |- Storage.frames (match ?x with _ => _ end) => destruct x
             | |- Storage.frames (if ?x then _ else _) => destruct x
             | |- Storage.frames (let _ := _ in _) => cbv zeta
             end).

Ltac emits_all :=
  repeat (emits_step
          || match goal with
             | |- Storage.emits _ (match ?x with _ => _ end) => destruct x
             | |- Storage.emits _ (if ?x then _ else _) => destruct x
             | |- Storage.emits _ (let _ := _ in _) => cbv zeta
             end);
  try exact I.

(* ===================================================================== *)
(** ** Further properties of [login.ts] *)
(* ===================================================================== *)

(** Unfolds the monad down to the calls of the collaborators. *)
Ltac unfold_monad :=
  unfold quietly, Login.callPure in *;
  unfold bind, ret, throw, tryCatch, Login.call, Login.ask,
         Login.getSession, Login.setSession, Login.getState, Login.setState in *.

Section SessionFacts.

Import Login.
Local Open Scope js_scope.

Context {E : Type} (X : Collaborators E).

(** X1. Tearing a session down never throws, even when the listener's
    [stop] does; afterwards no session is active, the shared state is as it
    was, and tearing down again does nothing at all. *)
Theorem stop_is_safe_and_idempotent (w : World E) :
  exists w',
    stopAntigravityOAuthSession X w = (Returned tt, w')
    /\ activeAntigravityOAuthSession w' = None
    /\ appState w' = appState w
    /\ stopAntigravityOAuthSession X w' = (Returned tt, w').
Proof.
  destruct (stop_returns X w) as (w' & Hrun & Hnone & Hstate).
  exists w'. repeat split; try assumption.
  generalize (stop_run X w'). rewrite Hnone. auto.
Qed.

(** X2. [saveAuth] never throws and never changes the session or the
    shared state, whether or not the write succeeds; the one call it makes
    is the write of the shared state. *)
Theorem saveAuth_swallows_write_failure (w : World E) :
  exists w',
    saveAuth X w = (Returned tt, w')
    /\ activeAntigravityOAuthSession w' = activeAntigravityOAuthSession w
    /\ appState w' = appState w
    /\ calls w' = (calls w ++ [CallWriteAuthFile (authDataOf (appState w))])%list.
Proof.
  destruct (saveAuth_run X w) as [e Hrun]. eexists. split; [exact Hrun |].
  repeat split.
Qed.

(** X3. After [setAuth(token, refresh, email, name)] the user info reads
    back the email and the name (an empty one as null), the process is
    authenticated exactly when the token is not empty, both token fields
    hold the token, and the expiry and the project of the state are as
    they were. *)
Theorem setAuth_then_read_back
    (token : string) (refresh mail name : option string) (w : World E) :
  exists w',
    setAuth X token refresh mail name w = (Returned tt, w')
    /\ getUserInfo w' = (Returned (truthy mail, truthy name), w')
    /\ isAuthenticated w' = (Returned (negb (token =? "")%string), w')
    /\ accessToken (appState w') = Some token
    /\ antigravityToken (appState w') = Some token
    /\ refreshToken (appState w') = truthy refresh
    /\ tokenExpiresAt (appState w') = tokenExpiresAt (appState w)
    /\ cloudaicompanionProject (appState w')
       = cloudaicompanionProject (appState w).
Proof.
  unfold setAuth. unfold bind at 1. unfold getState at 1.
  unfold bind at 1. unfold setState at 1.
  match goal with
  | |- context [saveAuth X ?w0] => destruct (saveAuth_run X w0) as [e ->]
  end.
  eexists. split; [reflexivity |].
  unfold getUserInfo, isAuthenticated, bind, getState, ret. simpl.
  repeat split. destruct (token =? "")%string; reflexivity.
Qed.

Lemma exchangeAndStore_cases
    (code uri : string) (w w' : World E) (r : Completion LoginResult) :
  exchangeAndStore X code uri w = (r, w') ->
  activeAntigravityOAuthSession w' = activeAntigravityOAuthSession w
  /\ match r with
     | Thrown _ => appState w' = appState w
     | Returned res =>
         success res = true
         /\ error res = None
         /\ email res = userEmail (appState w')
         /\ accessToken (appState w') <> None
         /\ antigravityToken (appState w') = accessToken (appState w')
         /\ userName (appState w') = option_map beforeAt (userEmail (appState w'))
         /\ exists before,
              calls w'
              = (before ++ [CallWriteAuthFile (authDataOf (appState w'))])%list
     end.
Proof.
  unfold exchangeAndStore.
  unfold bind at 1. unfold call at 1.
  destruct (exchangeCode X code uri (env w)) as [[tokens | m1] e1]; simpl;
    [| intros H; inversion H; subst; split; reflexivity].
  unfold bind at 1. unfold call at 1. simpl.
  destruct (fetchUserInfo X (tok_accessToken tokens) e1) as [[info | m2] e2]; simpl;
    [| intros H; inversion H; subst; split; reflexivity].
  unfold bind at 1. unfold call at 1. simpl.
  destruct (getProjectID X (tok_accessToken tokens) e2) as [[pid | m3] e3]; simpl;
    [| intros H; inversion H; subst; split; reflexivity].
  unfold bind at 1. unfold ask at 1. simpl.
  unfold bind at 1. unfold setState at 1. simpl.
  unfold bind at 1.
  match goal with
  | |- context [saveAuth X ?w0] => destruct (saveAuth_run X w0) as [e4 ->]
  end.
  unfold ret. intros H; inversion H; subst; clear H. simpl.
  repeat split; try discriminate. eexists. reflexivity.
Qed.

Lemma completion_cases
    (cb : OAuthCallbackResult) (oauthState uri : string) (w : World E) :
  completeOAuthCallbackLogin X cb oauthState uri w
  = (Returned (failure (orElse (cb_error cb)
                          (match truthy (cb_code cb), truthy (cb_state cb) with
                           | Some _, Some _ => "State mismatch - possible CSRF attack"
                           | _, _ => "Missing code or state in callback"
                           end))), w)
  \/ exists code,
       completeOAuthCallbackLogin X cb oauthState uri w
       = exchangeAndStore X code uri w.
Proof.
  unfold completeOAuthCallbackLogin, orElse.
  destruct (truthy (cb_error cb)) as [e |]; [left; reflexivity |].
  destruct (truthy (cb_code cb)) as [code |]; [| left; reflexivity].
  destruct (truthy (cb_state cb)) as [st |]; [| left; reflexivity].
  destruct (st =? oauthState)%string; [right; eauto | left; reflexivity].
Qed.

(** X4. A completion that does not succeed leaves the shared state alone:
    when it returns a failure nothing at all has changed, and when one of
    the provider calls rejects, the rejection is thrown on with the shared
    state and the session as they were. No completion touches the active
    session. *)
Theorem failed_completion_keeps_state
    (cb : OAuthCallbackResult) (oauthState uri : string) (w : World E) :
  (forall res w',
     completeOAuthCallbackLogin X cb oauthState uri w = (Returned res, w') ->
     success res = false ->
     w' = w)
  /\ (forall m w',
      completeOAuthCallbackLogin X cb oauthState uri w = (Thrown m, w') ->
      appState w' = appState w)
  /\ activeAntigravityOAuthSession
       (snd (completeOAuthCallbackLogin X cb oauthState uri w))
     = activeAntigravityOAuthSession w.
Proof.
  destruct (completion_cases cb oauthState uri w) as [Hfail | [code Hrun]].
  - rewrite Hfail. repeat split.
    + intros res w' H _. inversion H. reflexivity.
    + intros m w' H. discriminate.
  - rewrite Hrun.
    destruct (exchangeAndStore X code uri w) as [[res | m] w1] eqn:Hx;
      destruct (exchangeAndStore_cases _ _ _ _ _ Hx) as [Hsession Hcases];
      simpl in *.
    + split; [| split; [| exact Hsession]].
      * intros res' w' H Hfalse. inversion H; subst.
        destruct Hcases as (Htrue & _). congruence.
      * intros m w' H. discriminate.
    + split; [| split; [| exact Hsession]].
      * intros res w' H. discriminate.
      * intros m' w' H. inversion H; subst. exact Hcases.
Qed.

(** X5. A completion that succeeds returns the email it stored, leaves
    both token fields equal and set, derives the user name from the part of
    the email before its at-sign, and ends with the write of exactly the
    state it stored. *)
Theorem successful_completion_saves_what_it_stored
    (cb : OAuthCallbackResult) (oauthState uri : string) (w w' : World E)
    (res : LoginResult) :
  completeOAuthCallbackLogin X cb oauthState uri w = (Returned res, w') ->
  success res = true ->
  email res = userEmail (appState w')
  /\ accessToken (appState w') <> None
  /\ antigravityToken (appState w') = accessToken (appState w')
  /\ userName (appState w') = option_map beforeAt (userEmail (appState w'))
  /\ exists before,
       calls w' = (before ++ [CallWriteAuthFile (authDataOf (appState w'))])%list.
Proof.
  intros Hrun Htrue.
  destruct (completion_cases cb oauthState uri w) as [Hfail | [code Hx]].
  - rewrite Hfail in Hrun. inversion Hrun; subst. discriminate.
  - rewrite Hx in Hrun.
    destruct (exchangeAndStore_cases _ _ _ _ _ Hrun)
      as (_ & _ & _ & Hmail & Htok & Hanti & Hname & Hcalls).
    repeat split; assumption.
Qed.

Lemma openSession_cases (w : World E) :
  exists w0,
    stopAntigravityOAuthSession X w = (Returned tt, w0)
    /\ activeAntigravityOAuthSession w0 = None
    /\ appState w0 = appState w
    /\ match startOAuthCallbackServer X (env w0) with
       | (Thrown m, e1) =>
           openSession X w
           = (Thrown m,
              mkWorld None (appState w)
                      (calls w0 ++ [CallStartOAuthCallbackServer]) e1)
       | (Returned (srv, port), e1) =>
           let uri :=
             orElse (envRedirectUrl X (snd (generateState X e1)))
                    ("http://localhost:" ++ showNumber port ++ "/oauth-callback") in
           let st := fst (generateState X e1) in
           let s := mkSession st (generateAuthURL X uri st) uri
                              (dateNow X (snd (generateState X e1)) + 5 * 60 * 1000)
                              srv None in
           openSession X w
           = (Returned (describe s),
              mkWorld (Some s) (appState w)
                      ((calls w0 ++ [CallStartOAuthCallbackServer])
                       ++ [CallGenerateState])
                      (snd (generateState X e1)))
       end.
Proof.
  destruct (stop_returns X w) as (w0 & Hstop & Hnone & Hstate).
  exists w0. split; [exact Hstop | split; [exact Hnone | split; [exact Hstate |]]].
  destruct (startOAuthCallbackServer X (env w0)) as [[[srv port] | m] e1] eqn:Hsrv;
    cbv zeta; unfold openSession; unfold bind at 1; rewrite Hstop;
    unfold redirectFor; unfold_monad; simpl; rewrite Hsrv; simpl.
  - destruct (generateState X e1) as [st e2]; simpl. rewrite ?Hnone, ?Hstate.
    reflexivity.
  - rewrite ?Hnone, ?Hstate. reflexivity.
Qed.

Lemma start_cases (w : World E) :
  (exists s,
     activeAntigravityOAuthSession w = Some s
     /\ dateNow X (env w) < expiresAt s
     /\ startAntigravityOAuthSession X w = (Returned (describe s), w))
  \/ ((activeAntigravityOAuthSession w = None
       \/ exists s, activeAntigravityOAuthSession w = Some s
                    /\ expiresAt s <= dateNow X (env w))
      /\ startAntigravityOAuthSession X w = openSession X w).
Proof.
  unfold startAntigravityOAuthSession. unfold bind at 1 3. unfold getSession.
  unfold bind at 1 2. unfold ask.
  destruct (activeAntigravityOAuthSession w) as [s |] eqn:Hs.
  - destruct (Z.ltb_spec (dateNow X (env w)) (expiresAt s)) as [Hlt | Hge].
    + left. exists s. repeat split. exact Hlt.
    + right. split; [right; exists s; split; [reflexivity | exact Hge] | reflexivity].
  - right. split; [left; reflexivity | reflexivity].
Qed.

(** X6. A start that succeeds either returns the session that was already
    active, changing nothing, or leaves a new active session that has no
    callback yet, expires exactly five minutes after its creation, carries
    an authorization URL generated from its own redirect URI and state,
    and uses the redirect URI of the environment variable whenever that
    one is set. *)
Theorem started_session_shape (w w' : World E) (d : SessionDescriptor) :
  startAntigravityOAuthSession X w = (Returned d, w') ->
  exists s,
    activeAntigravityOAuthSession w' = Some s
    /\ describe s = d
    /\ (w' = w
        \/ (callback s = None
            /\ expiresAt s = dateNow X (env w') + 300000
            /\ authUrl s = generateAuthURL X (redirectUri s) (state s)
            /\ (forall u, truthy (envRedirectUrl X (env w')) = Some u ->
                          redirectUri s = u)
            /\ appState w' = appState w)).
Proof.
  intros Hrun.
  destruct (start_cases w) as [(s & Hs & Hlt & Hsame) | [_ Hopen]].
  - rewrite Hsame in Hrun. inversion Hrun; subst. exists s. auto.
  - rewrite Hopen in Hrun.
    destruct (openSession_cases w) as (w0 & _ & _ & _ & Hcases).
    destruct (startOAuthCallbackServer X (env w0)) as [[[srv port] | m] e1].
    + cbv zeta in Hcases. rewrite Hcases in Hrun. inversion Hrun; subst.
      eexists. split; [reflexivity | split; [reflexivity | right]].
      simpl. repeat split.
      intros u Hu. unfold orElse. rewrite Hu. reflexivity.
    + rewrite Hcases in Hrun. discriminate.
Qed.

(** X7. A start that throws (the listener could not be started) has torn
    the stale session down and leaves no session active; the shared state
    is as it was. *)
Theorem failed_start_leaves_no_session (w w' : World E) (m : string) :
  startAntigravityOAuthSession X w = (Thrown m, w') ->
  activeAntigravityOAuthSession w' = None
  /\ appState w' = appState w
  /\ exists before, calls w' = (before ++ [CallStartOAuthCallbackServer])%list.
Proof.
  intros Hrun.
  destruct (start_cases w) as [(s & Hs & Hlt & Hsame) | [_ Hopen]].
  - rewrite Hsame in Hrun. discriminate.
  - rewrite Hopen in Hrun.
    destruct (openSession_cases w) as (w0 & _ & _ & _ & Hcases).
    destruct (startOAuthCallbackServer X (env w0)) as [[[srv port] | m'] e1].
    + cbv zeta in Hcases. rewrite Hcases in Hrun. discriminate.
    + rewrite Hcases in Hrun. inversion Hrun; subst. simpl.
      repeat split. eexists. reflexivity.
Qed.

(** X8. At the very instant a session expires the two operations disagree:
    a poll still treats the session as live (a session without callback is
    reported pending and nothing changes), while a start already treats it
    as expired and stops its listener to open a new one. *)
Theorem expiry_instant_is_live_for_poll_only
    (w : World E) (s : AntigravityOAuthSession) :
  activeAntigravityOAuthSession w = Some s ->
  callback s = None ->
  dateNow X (env w) = expiresAt s ->
  pollAntigravityOAuthSession X (state s) w
  = (Returned (mkPollResult pending None None), w)
  /\ exists more,
       calls (snd (startAntigravityOAuthSession X w))
       = (calls w ++ CallServerStop (server s) :: more)%list.
Proof.
  intros Hs Hcb Hnow. split.
  - unfold pollAntigravityOAuthSession. unfold_monad. rewrite Hs.
    rewrite String.eqb_refl. simpl. rewrite Hnow, Z.ltb_irrefl, Hcb. reflexivity.
  - destruct (start_cases w) as [(s' & Hs' & Hlt & _) | [_ Hopen]].
    + rewrite Hs in Hs'. inversion Hs'; subst s'. lia.
    + rewrite Hopen.
      destruct (openSession_cases w) as (w0 & Hstop & _ & _ & Hcases).
      generalize (stop_run X w). rewrite Hs. intros [e Hstop'].
      rewrite Hstop in Hstop'. inversion Hstop'; subst w0. simpl in Hcases.
      destruct (startOAuthCallbackServer X e) as [[[srv port] | m'] e1].
      * cbv zeta in Hcases. rewrite Hcases. simpl.
        rewrite <- !app_assoc. eexists. reflexivity.
      * rewrite Hcases. simpl. rewrite <- app_assoc. eexists. reflexivity.
Qed.

Lemma completion_keeps_session
    (cb : OAuthCallbackResult) (oauthState uri : string) (w w' : World E)
    (r : Completion LoginResult) :
  completeOAuthCallbackLogin X cb oauthState uri w = (r, w') ->
  activeAntigravityOAuthSession w' = activeAntigravityOAuthSession w.
Proof.
  intros Hrun.
  destruct (completion_cases cb oauthState uri w) as [Hfail | [code Hx]].
  - rewrite Hfail in Hrun. inversion Hrun. reflexivity.
  - rewrite Hx in Hrun. apply (exchangeAndStore_cases _ _ _ _ _ Hrun).
Qed.

Lemma poll_callback_run
    (w w1 : World E) (s : AntigravityOAuthSession) (cb : OAuthCallbackResult)
    (r : Completion LoginResult) :
  activeAntigravityOAuthSession w = Some s ->
  callback s = Some cb ->
  dateNow X (env w) <= expiresAt s ->
  completeOAuthCallbackLogin X cb (state s) (redirectUri s) w = (r, w1) ->
  exists e,
    pollAntigravityOAuthSession X (state s) w
    = (Returned (Storage.answerOf r),
       mkWorld None (appState w1) (calls w1 ++ [CallServerStop (server s)]) e).
Proof.
  intros Hs Hcb Hnow Hrun.
  assert (Hs1 : activeAntigravityOAuthSession w1 = Some s)
    by (rewrite (completion_keeps_session _ _ _ _ _ _ Hrun); exact Hs).
  generalize (stop_run X w1). rewrite Hs1. intros [e Hstop]. exists e.
  unfold pollAntigravityOAuthSession.
  unfold bind at 1. unfold getSession at 1. rewrite Hs.
  rewrite String.eqb_refl. cbn [negb].
  unfold bind at 1. unfold ask at 1. cbv beta.
  assert (Hlt : (expiresAt s <? dateNow X (env w)) = false)
    by (apply Z.ltb_ge; exact Hnow).
  rewrite Hlt, Hcb. unfold tryCatch. unfold bind at 1. rewrite Hrun.
  destruct r as [res | m].
  - unfold bind at 1. rewrite Hstop. simpl. destruct (success res); reflexivity.
  - unfold bind at 1. rewrite Hstop. reflexivity.
Qed.

(** X9. A poll that answers pending has changed nothing, and it answers
    pending only for the active session's own state, before or at its
    expiry, while no callback has been stored. *)
Theorem pending_poll_changes_nothing
    (w w' : World E) (oauthState : string) (r : PollResult) :
  pollAntigravityOAuthSession X oauthState w = (Returned r, w') ->
  poll_status r = pending ->
  w' = w
  /\ exists s,
       activeAntigravityOAuthSession w = Some s
       /\ state s = oauthState
       /\ callback s = None
       /\ dateNow X (env w) <= expiresAt s.
Proof.
  intros Hrun Hpending.
  destruct (activeAntigravityOAuthSession w) as [s |] eqn:Hs.
  2: { rewrite (poll_without_session X w oauthState Hs) in Hrun.
       inversion Hrun; subst. discriminate. }
  destruct (String.eqb_spec (state s) oauthState) as [Heq | Hne].
  2: { unfold pollAntigravityOAuthSession in Hrun. unfold_monad.
       rewrite Hs in Hrun. apply String.eqb_neq in Hne. rewrite Hne in Hrun.
       simpl in Hrun. inversion Hrun; subst. discriminate. }
  subst oauthState.
  destruct (Z.ltb_spec (expiresAt s) (dateNow X (env w))) as [Hlate | Hlive].
  - generalize (stop_run X w). rewrite Hs. intros [e Hstop].
    unfold pollAntigravityOAuthSession in Hrun.
    unfold bind at 1 in Hrun. unfold getSession at 1 in Hrun. rewrite Hs in Hrun.
    rewrite String.eqb_refl in Hrun. cbn [negb] in Hrun.
    unfold bind at 1 in Hrun. unfold ask at 1 in Hrun. cbv beta in Hrun.
    apply Z.ltb_lt in Hlate. rewrite Hlate in Hrun.
    unfold bind at 1 in Hrun. rewrite Hstop in Hrun.
    inversion Hrun; subst. discriminate.
  - destruct (callback s) as [cb |] eqn:Hcb.
    + destruct (completeOAuthCallbackLogin X cb (state s) (redirectUri s) w)
        as [c w1] eqn:Hc.
      destruct (poll_callback_run w w1 s cb c Hs Hcb Hlive Hc) as [e Hpoll].
      rewrite Hpoll in Hrun. inversion Hrun; subst.
      destruct c as [res | m]; simpl in Hpending;
        [destruct (success res) |]; discriminate.
    + split; [| exists s; auto].
      unfold pollAntigravityOAuthSession in Hrun. unfold_monad.
      rewrite Hs, String.eqb_refl in Hrun. simpl in Hrun.
      apply Z.ltb_ge in Hlive. rewrite Hlive, Hcb in Hrun.
      inversion Hrun. reflexivity.
Qed.

(** X10. The rest of a poll once its awaited completion has settled, run
    in whatever state the process is in at that moment: it never throws and
    never answers pending, its answer is read off the outcome alone (a
    rejection's message is the answer's message), and it tears down
    whichever session is active then: that session's listener is stopped,
    nothing is stopped when no session is active, no session is active
    afterward and the stored credentials are untouched. When nothing runs
    during the await, the poll of a live session that holds a callback is
    the completion followed by this rest. *)
Theorem poll_settles_and_tears_down
    (w : World E) (outcome : Completion LoginResult) :
  (exists w',
     Storage.settle X outcome w = (Returned (Storage.answerOf outcome), w')
     /\ activeAntigravityOAuthSession w' = None
     /\ appState w' = appState w
     /\ calls w'
        = (calls w ++ match activeAntigravityOAuthSession w with
                      | Some s => [CallServerStop (server s)]
                      | None => []
                      end)%list)
  /\ poll_status (Storage.answerOf outcome) <> pending
  /\ (forall m,
      fst (Storage.settle X (Thrown m) w)
      = Returned (mkPollResult failed (Some m) None))
  /\ (forall s cb,
      activeAntigravityOAuthSession w = Some s ->
      callback s = Some cb ->
      dateNow X (env w) <= expiresAt s ->
      pollAntigravityOAuthSession X (state s) w
      = Storage.settle X
          (fst (completeOAuthCallbackLogin X cb (state s) (redirectUri s) w))
          (snd (completeOAuthCallbackLogin X cb (state s) (redirectUri s) w))).
Proof.
  split; [| split; [| split]].
  - generalize (stop_run X w). unfold Storage.settle.
    destruct (activeAntigravityOAuthSession w) as [s |] eqn:Hs.
    + intros [e Hstop]. unfold bind. rewrite Hstop. unfold ret.
      eexists. repeat split.
    + intros Hstop. unfold bind. rewrite Hstop. unfold ret.
      exists w. rewrite app_nil_r. repeat split. exact Hs.
  - destruct outcome as [res | m]; simpl; [destruct (success res) |];
      discriminate.
  - intros m. unfold Storage.settle, bind.
    destruct (stop_returns X w) as (w' & Hstop & _). rewrite Hstop.
    reflexivity.
  - intros s cb Hs Hcb Hlive.
    destruct (completeOAuthCallbackLogin X cb (state s) (redirectUri s) w)
      as [r w1] eqn:Hrun.
    cbn [fst snd].
    destruct (stop_returns X w1) as (w2 & Hstop & _).
    assert (Hrest : Storage.settle X r w1 = (Returned (Storage.answerOf r), w2))
      by (unfold Storage.settle, bind; rewrite Hstop; reflexivity).
    rewrite Hrest.
    unfold pollAntigravityOAuthSession.
    unfold bind at 1. unfold getSession at 1. rewrite Hs.
    rewrite String.eqb_refl. cbn [negb].
    unfold bind at 1. unfold ask at 1. cbv beta.
    assert (Hlt : (expiresAt s <? dateNow X (env w)) = false)
      by (apply Z.ltb_ge; exact Hlive).
    rewrite Hlt, Hcb. unfold tryCatch. unfold bind at 1. rewrite Hrun.
    destruct r as [res | m].
    + unfold bind at 1. rewrite Hstop. simpl. destruct (success res); reflexivity.
    + unfold bind at 1. rewrite Hstop. reflexivity.
Qed.

Lemma exchangeAndStore_success
    (code uri : string) (w : World E) (tokens : Tokens) (info : UserInfo)
    (pid : option string) (e1 e2 e3 : E) :
  exchangeCode X code uri (env w) = (Returned tokens, e1) ->
  fetchUserInfo X (tok_accessToken tokens) e1 = (Returned info, e2) ->
  getProjectID X (tok_accessToken tokens) e2 = (Returned pid, e3) ->
  exists w',
    exchangeAndStore X code uri w
    = (Returned (mkLoginResult true None (Some (ui_email info))), w')
    /\ activeAntigravityOAuthSession w' = activeAntigravityOAuthSession w
    /\ appState w'
       = {| accessToken := Some (tok_accessToken tokens);
            antigravityToken := Some (tok_accessToken tokens);
            refreshToken := Some (tok_refreshToken tokens);
            tokenExpiresAt := Some (dateNow X e3 + tok_expiresIn tokens * 1000);
            userEmail := Some (ui_email info);
            userName := Some (beforeAt (ui_email info));
            cloudaicompanionProject :=
              Some (orElse pid (generateMockProjectId X)) |}.
Proof.
  intros Hx Hu Hp. unfold exchangeAndStore.
  unfold bind at 1. unfold call at 1. rewrite Hx. simpl.
  unfold bind at 1. unfold call at 1. simpl. rewrite Hu. simpl.
  unfold bind at 1. unfold call at 1. simpl. rewrite Hp. simpl.
  unfold bind at 1. unfold ask at 1. simpl.
  unfold bind at 1. unfold setState at 1. simpl.
  unfold bind at 1.
  match goal with
  | |- context [saveAuth X ?w0] => destruct (saveAuth_run X w0) as [e4 ->]
  end.
  unfold ret. eexists. repeat split.
Qed.

(** X11. The session flow end to end: after a successful start, once the
    session's listener has delivered a callback that carries a code and the
    session's state, a poll of that state before expiry, with the provider
    answering, reports success with the user's email, has exchanged the
    code with the session's redirect URI, stores the credential and leaves
    no session active. *)
Theorem session_flow_end_to_end
    (w w1 : World E) (d : SessionDescriptor) (code : string)
    (tokens : Tokens) (info : UserInfo) (pid : option string) (e e1 e2 e3 : E) :
  startAntigravityOAuthSession X w = (Returned d, w1) ->
  code <> "" ->
  d_state d <> "" ->
  dateNow X e <= d_expiresAt d ->
  exchangeCode X code (d_redirectUri d) e = (Returned tokens, e1) ->
  fetchUserInfo X (tok_accessToken tokens) e1 = (Returned info, e2) ->
  getProjectID X (tok_accessToken tokens) e2 = (Returned pid, e3) ->
  exists w3,
    pollAntigravityOAuthSession X (d_state d)
      (withEnv e
         (snd (onCallback (d_state d)
                 (mkCallback (Some code) (Some (d_state d)) None) w1)))
    = (Returned (mkPollResult succeeded None (Some (ui_email info))), w3)
    /\ activeAntigravityOAuthSession w3 = None
    /\ accessToken (appState w3) = Some (tok_accessToken tokens)
    /\ userEmail (appState w3) = Some (ui_email info)
    /\ cloudaicompanionProject (appState w3)
       = Some (orElse pid (generateMockProjectId X)).
Proof.
  intros Hstart Hcode Hstate Hlive Hx Hu Hp.
  destruct (start_active X _ _ _ Hstart) as (s & Hs & <-).
  simpl in *.
  unfold onCallback. unfold bind at 1. unfold getSession at 1. rewrite Hs.
  rewrite String.eqb_refl. cbn [negb]. unfold setSession. cbn [snd].
  set (cb := mkCallback (Some code) (Some (state s)) None).
  set (s' := mkSession (state s) (authUrl s) (redirectUri s) (expiresAt s)
                       (server s) (Some cb)).
  set (w2 := withEnv e (mkWorld (Some s') (appState w1) (calls w1) (env w1))).
  assert (Hcomplete :
            completeOAuthCallbackLogin X cb (state s') (redirectUri s') w2
            = exchangeAndStore X code (redirectUri s) w2).
  { unfold completeOAuthCallbackLogin, cb. simpl.
    destruct (String.eqb_spec code "") as [Heq | _]; [contradiction |].
    destruct (String.eqb_spec (state s) "") as [Heq | _]; [contradiction |].
    rewrite String.eqb_refl. reflexivity. }
  destruct (exchangeAndStore_success code (redirectUri s) w2 tokens info pid
              e1 e2 e3 Hx Hu Hp) as (w' & Hrun & Hsession & Hstored).
  rewrite <- Hcomplete in Hrun.
  destruct (poll_callback_run w2 w' s' cb _ eq_refl eq_refl Hlive Hrun)
    as [e4 Hpoll].
  simpl in Hpoll. eexists. split; [exact Hpoll |]. simpl.
  rewrite Hstored. repeat split.
Qed.

(** X12. When the listener's promise rejects, the rejection is stored on
    the session as an upstream error, and the next poll before expiry
    answers an error with the rejection's message and tears the session
    down without touching the shared state. A rejection whose message is
    empty is answered as "Missing code or state in callback". *)
Theorem listener_rejection_is_reported
    (w : World E) (s : AntigravityOAuthSession) (message : string) :
  activeAntigravityOAuthSession w = Some s ->
  dateNow X (env w) <= expiresAt s ->
  exists w',
    pollAntigravityOAuthSession X (state s)
      (snd (onCallbackError (state s) message w))
    = (Returned (mkPollResult failed
                   (Some (if (message =? "")%string
                          then "Missing code or state in callback"
                          else message))
                   None), w')
    /\ activeAntigravityOAuthSession w' = None
    /\ appState w' = appState w.
Proof.
  intros Hs Hlive.
  unfold onCallbackError, onCallback. unfold bind at 1. unfold getSession at 1.
  rewrite Hs, String.eqb_refl. cbn [negb]. unfold setSession. cbn [snd].
  set (cb := mkCallback None None (Some message)).
  set (s' := mkSession (state s) (authUrl s) (redirectUri s) (expiresAt s)
                       (server s) (Some cb)).
  set (w1 := mkWorld (Some s') (appState w) (calls w) (env w)).
  assert (Hrun :
            completeOAuthCallbackLogin X cb (state s') (redirectUri s') w1
            = (Returned (failure (if (message =? "")%string
                                  then "Missing code or state in callback"
                                  else message)), w1)).
  { unfold completeOAuthCallbackLogin, cb. simpl.
    destruct (message =? "")%string; reflexivity. }
  destruct (poll_callback_run w1 w1 s' cb _ eq_refl eq_refl Hlive Hrun)
    as [e Hpoll].
  simpl in Hpoll. eexists. split; [| split].
  - rewrite Hpoll. unfold orElse. simpl.
    destruct (message =? "")%string eqn:Hm; simpl; [reflexivity |].
    rewrite Hm. reflexivity.
  - reflexivity.
  - reflexivity.
Qed.

Lemma openBrowser_frames (url : string) : Storage.frames (openBrowser X url).
Proof. unfold openBrowser. frames_all. Qed.

Lemma awaitCallback_frames (srv : Server) (port : Z) :
  Storage.frames (awaitCallback X srv port).
Proof.
  unfold awaitCallback, redirectFor. frames_all.
Qed.

Lemma awaitCallback_emits (srv : Server) (port : Z) :
  Storage.emits (fun _ => True) (awaitCallback X srv port).
Proof. unfold awaitCallback, redirectFor, openBrowser. emits_all. Qed.

Lemma completion_emits (cb : OAuthCallbackResult) (oauthState uri : string) :
  Storage.emits (fun ev => Storage.onProvider ev \/ Storage.isWrite ev)
    (completeOAuthCallbackLogin X cb oauthState uri).
Proof.
  unfold completeOAuthCallbackLogin, exchangeAndStore, saveAuth.
  emits_all; simpl; auto.
Qed.

Lemma awaitCallback_stops (srv : Server) (port : Z) (w w' : World E)
    (r : OAuthCallbackResult * string * string) :
  awaitCallback X srv port w = (Returned r, w') ->
  exists before, calls w' = (before ++ [CallServerStop srv])%list.
Proof.
  unfold awaitCallback. intros H.
  do 6 (apply bind_returned in H; destruct H as (? & ? & _ & H)).
  apply bind_returned in H. destruct H as (u & v & Hstop & H).
  unfold ret in H. inversion H; subst; clear H.
  unfold call in Hstop.
  match type of Hstop with
  | context [serverStop X srv ?e] => destruct (serverStop X srv e)
  end.
  inversion Hstop; subst. simpl. eexists. reflexivity.
Qed.

(** X13. The synchronous login never throws and always releases its
    listener: whenever the listener was started, a stop of that listener is
    among the calls made, on success, on failure and on timeout alike. When
    the listener cannot be started the result is that failure and nothing
    else was attempted. The active session is never touched. *)
Theorem oauth_login_always_releases_listener (w : World E) :
  exists res w',
    startOAuthLogin X w = (Returned res, w')
    /\ activeAntigravityOAuthSession w' = activeAntigravityOAuthSession w
    /\ (forall srv port e1,
          startOAuthCallbackServer X (env w) = (Returned (srv, port), e1) ->
          In (CallServerStop srv) (calls w'))
    /\ (forall m e1,
          startOAuthCallbackServer X (env w) = (Thrown m, e1) ->
          res = failure m
          /\ appState w' = appState w
          /\ calls w' = (calls w ++ [CallStartOAuthCallbackServer])%list).
Proof.
  unfold startOAuthLogin. unfold tryCatch at 1. unfold bind at 1.
  unfold call at 1.
  destruct (startOAuthCallbackServer X (env w)) as [[[srv port] | m] e1].
  2: { eexists. eexists. split; [reflexivity |]. simpl. repeat split.
       - intros; discriminate.
       - inversion H. reflexivity. }
  set (w1 := mkWorld _ _ _ e1).
  unfold bind at 1. unfold tryCatch at 1. unfold bind at 1.
  destruct (awaitCallback X srv port w1) as [[[[cb st] uri] | m] w2] eqn:Ha.
  - destruct (frames_run _ _ _ _ (awaitCallback_frames srv port) Ha)
      as [Hsess _].
    unfold w1 in Hsess. simpl in Hsess.
    destruct (awaitCallback_stops _ _ _ _ _ Ha) as [before Hcalls].
    unfold ret at 1.
    destruct (completeOAuthCallbackLogin X cb st uri w2) as [c w3] eqn:Hc.
    destruct (emits_run _ _ _ _ _ (completion_emits cb st uri) Hc)
      as (more & Hmore & _).
    assert (Hs3 := completion_keeps_session _ _ _ _ _ _ Hc).
    assert (Hin : In (CallServerStop srv) (calls w3)).
    { rewrite Hmore, Hcalls. apply in_or_app. left. apply in_or_app. right.
      left. reflexivity. }
    destruct c as [res | m]; (eexists; eexists; split; [reflexivity |]);
      (split; [simpl; congruence | split; [| intros; discriminate]]);
      intros srv' port' e' H; inversion H; subst; exact Hin.
  - destruct (frames_run _ _ _ _ (awaitCallback_frames srv port) Ha)
      as [Hsess _].
    unfold w1 in Hsess. simpl in Hsess.
    unfold bind at 1. unfold quietly, tryCatch, call.
    destruct (serverStop X srv (env w2)) as [[[] | m'] e2]; simpl;
      (eexists; eexists; split; [reflexivity |]);
      (split; [simpl; congruence | split; [| intros; discriminate]]);
      intros srv' port' e' H; inversion H; subst; simpl;
      apply in_or_app; right; left; reflexivity.
Qed.

(** X14. When the listener starts but no callback arrives within five
    minutes, the synchronous login returns the failure
    "Authentication timeout (5 minutes)", with the shared state and the
    active session as they were. *)
Theorem oauth_login_times_out
    (w : World E) (srv : Server) (port : Z) (e1 : E) :
  startOAuthCallbackServer X (env w) = (Returned (srv, port), e1) ->
  (forall e, fst (waitForCallback X srv e) = None) ->
  exists w',
    startOAuthLogin X w
    = (Returned (failure "Authentication timeout (5 minutes)"), w')
    /\ appState w' = appState w
    /\ activeAntigravityOAuthSession w' = activeAntigravityOAuthSession w.
Proof.
  intros Hsrv Hwait.
  unfold startOAuthLogin. unfold tryCatch at 1. unfold bind at 1.
  unfold call at 1. rewrite Hsrv.
  set (w1 := mkWorld _ _ _ e1).
  assert (Hawait : exists w2,
             awaitCallback X srv port w1
             = (Thrown "Authentication timeout (5 minutes)", w2)).
  { destruct (awaitCallback X srv port w1) as [[r | m] w2] eqn:Ha.
    - exfalso. unfold awaitCallback in Ha.
      do 5 (apply bind_returned in Ha; destruct Ha as (? & ? & ? & Ha)).
      match goal with
      | H : callPure _ _ ?v = (Returned ?raced, _) |- _ =>
          unfold callPure, call in H;
          specialize (Hwait (env v));
          destruct (waitForCallback X srv (env v)) as [o e'];
          simpl in Hwait; subst o; inversion H; subst
      end.
      apply bind_returned in Ha. destruct Ha as (? & ? & Ha & _).
      discriminate.
    - exists w2. f_equal. f_equal.
      unfold awaitCallback in Ha.
      do 4 (apply bind_thrown in Ha;
            destruct Ha as [Ha | (? & ? & _ & Ha)];
            [exfalso; eapply returns_not_thrown; [| exact Ha];
             unfold redirectFor, openBrowser; returns_all |]).
      apply bind_thrown in Ha.
      destruct Ha as [Ha | (raced & v & Hr & Ha)];
        [exfalso; eapply returns_not_thrown; [| exact Ha]; returns_all |].
      unfold callPure, call in Hr. match type of Hr with
      | context [waitForCallback X srv ?e] =>
          specialize (Hwait e); destruct (waitForCallback X srv e) as [o e']
      end.
      simpl in Hwait. subst o. inversion Hr; subst.
      unfold bind, throw in Ha. inversion Ha. reflexivity. }
  destruct Hawait as [w2 Ha].
  destruct (frames_run _ _ _ _ (awaitCallback_frames srv port) Ha)
    as [Hsess Hstate].
  unfold w1 in Hsess, Hstate. simpl in Hsess, Hstate.
  unfold bind at 1. unfold tryCatch at 1. unfold bind at 1. rewrite Ha.
  unfold bind at 1. unfold quietly, tryCatch, call.
  destruct (serverStop X srv (env w2)) as [[[] | m'] e2]; simpl;
    (eexists; split; [reflexivity | simpl; split; assumption]).
Qed.

End SessionFacts.

(* ===================================================================== *)
(** ** Properties of the saved credential *)
(* ===================================================================== *)

Section StorageFacts.

Import Login.
Local Open Scope js_scope.

Context {E : Type} (X : Collaborators E) (F : Storage.Files E).

Lemma truthy_idempotent (v : option string) : truthy (truthy v) = truthy v.
Proof.
  destruct v as [s |]; simpl; [| reflexivity].
  destruct (s =? "")%string eqn:Hs; simpl; [reflexivity | rewrite Hs; reflexivity].
Qed.

Lemma truthy_Some (v : option string) (s : string) :
  truthy v = Some s -> v = Some s /\ s <> "".
Proof.
  destruct v as [t |]; simpl; [| discriminate].
  destruct (String.eqb_spec t "") as [Heq | Hne]; [discriminate |].
  intros H. inversion H; subst. auto.
Qed.

Lemma numOrUndefined_idempotent (n : option Z) :
  numOrUndefined (numOrUndefined n) = numOrUndefined n.
Proof.
  destruct n as [z |]; simpl; [| reflexivity].
  destruct (z =? 0) eqn:Hz; simpl; [reflexivity | rewrite Hz; reflexivity].
Qed.

(** X15. [refreshToken()] never throws. Without a refresh token it returns
    false and does nothing. When the provider answers, it returns true and
    replaces the two access-token fields only: the stored refresh token,
    the stored expiry and the user are left as they were. When the
    provider rejects, it returns false and the shared state is as it was. *)
Theorem refresh_replaces_access_token_only (w : World E) :
  exists b w',
    Storage.refreshToken X F w = (Returned b, w')
    /\ activeAntigravityOAuthSession w' = activeAntigravityOAuthSession w
    /\ (truthy (refreshToken (appState w)) = None -> b = false /\ w' = w)
    /\ (forall current tokens e1,
          truthy (refreshToken (appState w)) = Some current ->
          Storage.refreshAccessToken F current (env w) = (Returned tokens, e1) ->
          b = true
          /\ accessToken (appState w') = Some (tok_accessToken tokens)
          /\ antigravityToken (appState w') = Some (tok_accessToken tokens)
          /\ refreshToken (appState w') = refreshToken (appState w)
          /\ tokenExpiresAt (appState w') = tokenExpiresAt (appState w)
          /\ userEmail (appState w') = userEmail (appState w))
    /\ (forall current m e1,
          truthy (refreshToken (appState w)) = Some current ->
          Storage.refreshAccessToken F current (env w) = (Thrown m, e1) ->
          b = false /\ appState w' = appState w).
Proof.
  unfold Storage.refreshToken. unfold bind at 1. unfold getState at 1.
  destruct (truthy (refreshToken (appState w))) as [current |].
  2: { exists false, w. unfold ret. repeat split; intros; discriminate. }
  unfold tryCatch. unfold bind at 1. unfold call at 1.
  destruct (Storage.refreshAccessToken F current (env w)) as [[tokens | m] e1]
    eqn:Hrefresh.
  - unfold bind at 1. unfold getState at 1.
    unfold bind at 1. unfold setState at 1. unfold bind at 1.
    match goal with
    | |- context [saveAuth X ?w0] => destruct (saveAuth_run X w0) as [e4 ->]
    end.
    unfold ret. eexists. eexists. split; [reflexivity |]. simpl.
    split; [reflexivity | split; [discriminate | split]].
    + intros c t e H Hr. inversion H; subst c. rewrite Hrefresh in Hr.
      inversion Hr; subst. repeat split.
    + intros c m e H Hr. inversion H; subst c. rewrite Hrefresh in Hr.
      discriminate.
  - unfold ret. eexists. eexists. split; [reflexivity |]. simpl.
    split; [reflexivity | split; [discriminate | split]].
    + intros c t e H Hr. inversion H; subst c. rewrite Hrefresh in Hr.
      discriminate.
    + intros. split; reflexivity.
Qed.

Lemma sourceFile_run (w : World E) :
  Storage.sourceFile F w
  = (Returned (if Storage.existsSync F Storage.AUTH_FILE (env w)
               then Some Storage.AUTH_FILE
               else if Storage.existsSync F Storage.LEGACY_AUTH_FILE (env w)
                    then Some Storage.LEGACY_AUTH_FILE
                    else None), w).
Proof.
  unfold Storage.sourceFile. unfold_monad.
  destruct (Storage.existsSync F Storage.AUTH_FILE (env w)); [reflexivity |].
  destruct (Storage.existsSync F Storage.LEGACY_AUTH_FILE (env w)); reflexivity.
Qed.

(** What [initAuth] does once it has chosen the file [src]. *)
Lemma initAuth_from (w : World E) (src : Storage.AuthPath) :
  fst (Storage.sourceFile F w) = Returned (Some src) ->
  Storage.initAuth X F w
  = match Storage.readAuthData F src (env w) with
    | (Thrown _, e1) =>
        (Returned tt,
         mkWorld (activeAntigravityOAuthSession w) (appState w)
                 (calls w ++ [CallOther ("read " ++ Storage.pathName src)]) e1)
    | (Returned data, e1) =>
        let w1 := mkWorld (activeAntigravityOAuthSession w) (appState w)
                    (calls w ++ [CallOther ("read " ++ Storage.pathName src)]) e1 in
        match truthy (ad_accessToken data) with
        | None => (Returned tt, w1)
        | Some token =>
            let w2 := mkWorld (activeAntigravityOAuthSession w)
                        (Storage.loadedState data token)
                        (calls w ++ [CallOther ("read " ++ Storage.pathName src)])
                        e1 in
            match src with
            | Storage.AUTH_FILE => (Returned tt, w2)
            | Storage.LEGACY_AUTH_FILE =>
                if Storage.existsSync F Storage.AUTH_FILE e1
                then (Returned tt, w2)
                else saveAuth X w2
            end
        end
    end.
Proof.
  intros Hsrc. rewrite sourceFile_run in Hsrc. simpl in Hsrc.
  unfold Storage.initAuth, quietly, tryCatch. unfold bind at 1.
  rewrite sourceFile_run.
  inversion Hsrc as [Hsel]. rewrite Hsel.
  unfold bind at 1. unfold call at 1.
  destruct (Storage.readAuthData F src (env w)) as [[data | m] e1];
    [| reflexivity].
  cbv zeta. destruct (truthy (ad_accessToken data)) as [token |]; [| reflexivity].
  unfold bind at 1. unfold setState at 1. unfold bind at 1. unfold ask at 1.
  simpl. destruct src.
  - reflexivity.
  - destruct (Storage.existsSync F Storage.AUTH_FILE e1); [reflexivity |].
    match goal with
    | |- context [saveAuth X ?w0] => destruct (saveAuth_run X w0) as [e4 ->]
    end.
    reflexivity.
Qed.

(** X16. [initAuth()] never throws and loads all or nothing: afterwards
    the shared state is either untouched or entirely the content of a file
    that holds a non-empty access token. It is untouched, and nothing at
    all happens, when neither file exists; it is untouched when the chosen
    file cannot be read or parsed, and when it holds no access token. The
    active session is never touched. *)
Theorem initAuth_loads_all_or_nothing (w : World E) :
  exists w',
    Storage.initAuth X F w = (Returned tt, w')
    /\ activeAntigravityOAuthSession w' = activeAntigravityOAuthSession w
    /\ (appState w' = appState w
        \/ exists data token,
             truthy (ad_accessToken data) = Some token
             /\ appState w' = Storage.loadedState data token)
    /\ (Storage.existsSync F Storage.AUTH_FILE (env w) = false ->
        Storage.existsSync F Storage.LEGACY_AUTH_FILE (env w) = false ->
        w' = w)
    /\ (forall src data e1,
          fst (Storage.sourceFile F w) = Returned (Some src) ->
          Storage.readAuthData F src (env w) = (Returned data, e1) ->
          truthy (ad_accessToken data) = None ->
          appState w' = appState w)
    /\ (forall src m e1,
          fst (Storage.sourceFile F w) = Returned (Some src) ->
          Storage.readAuthData F src (env w) = (Thrown m, e1) ->
          appState w' = appState w).
Proof.
  destruct (fst (Storage.sourceFile F w)) as [[src |] | m] eqn:Hsrc.
  - rewrite (initAuth_from w src Hsrc).
    assert (Hexists : Storage.existsSync F Storage.AUTH_FILE (env w) = false ->
                      Storage.existsSync F Storage.LEGACY_AUTH_FILE (env w) = false ->
                      False).
    { intros H1 H2. rewrite sourceFile_run in Hsrc. simpl in Hsrc.
      rewrite H1, H2 in Hsrc. discriminate. }
    destruct (Storage.readAuthData F src (env w)) as [[data | m] e1] eqn:Hread.
    + cbv zeta. destruct (truthy (ad_accessToken data)) as [token |] eqn:Htok.
      * assert (Hdone :
                  exists e2 more,
                    (match src with
                     | Storage.AUTH_FILE =>
                         (Returned tt,
                          mkWorld (activeAntigravityOAuthSession w)
                            (Storage.loadedState data token)
                            (calls w ++ [CallOther ("read " ++ Storage.pathName src)])
                            e1)
                     | Storage.LEGACY_AUTH_FILE =>
                         if Storage.existsSync F Storage.AUTH_FILE e1
                         then (Returned tt,
                               mkWorld (activeAntigravityOAuthSession w)
                                 (Storage.loadedState data token)
                                 (calls w
                                  ++ [CallOther ("read " ++ Storage.pathName src)])
                                 e1)
                         else saveAuth X
                                (mkWorld (activeAntigravityOAuthSession w)
                                   (Storage.loadedState data token)
                                   (calls w
                                    ++ [CallOther ("read " ++ Storage.pathName src)])
                                   e1)
                     end)
                    = (Returned tt,
                       mkWorld (activeAntigravityOAuthSession w)
                         (Storage.loadedState data token) more e2)).
        { destruct src; [eauto |].
          destruct (Storage.existsSync F Storage.AUTH_FILE e1); [eauto |].
          match goal with
          | |- context [saveAuth X ?w0] => destruct (saveAuth_run X w0) as [e4 ->]
          end.
          eauto. }
        destruct Hdone as (e2 & more & ->).
        eexists. split; [reflexivity |]. simpl.
        split; [reflexivity | split; [right; eauto | split; [| split]]].
        -- intros H1 H2. destruct (Hexists H1 H2).
        -- intros src' data' e' Hs' Hr' Hnone. inversion Hs'; subst src'.
           rewrite Hread in Hr'. inversion Hr'; subst. congruence.
        -- intros src' m' e' Hs' Hr'. inversion Hs'; subst src'.
           rewrite Hread in Hr'. discriminate.
      * eexists. split; [reflexivity |]. simpl.
        split; [reflexivity | split; [left; reflexivity | split; [| split]]];
          auto.
        intros H1 H2. destruct (Hexists H1 H2).
    + eexists. split; [reflexivity |]. simpl.
      split; [reflexivity | split; [left; reflexivity | split; [| split]]];
        auto.
      intros H1 H2. destruct (Hexists H1 H2).
  - exists w. rewrite sourceFile_run in Hsrc. simpl in Hsrc.
    unfold Storage.initAuth, quietly, tryCatch. unfold bind at 1.
    rewrite sourceFile_run.
    destruct (Storage.existsSync F Storage.AUTH_FILE (env w)); [discriminate |].
    destruct (Storage.existsSync F Storage.LEGACY_AUTH_FILE (env w));
      [discriminate |].
    unfold ret. repeat split; auto; intros; discriminate.
  - rewrite sourceFile_run in Hsrc. discriminate.
Qed.

Lemma sourceFile_current (w : World E) :
  Storage.existsSync F Storage.AUTH_FILE (env w) = true ->
  fst (Storage.sourceFile F w) = Returned (Some Storage.AUTH_FILE).
Proof. intros H. rewrite sourceFile_run. simpl. rewrite H. reflexivity. Qed.

Lemma sourceFile_legacy (w : World E) :
  Storage.existsSync F Storage.AUTH_FILE (env w) = false ->
  Storage.existsSync F Storage.LEGACY_AUTH_FILE (env w) = true ->
  fst (Storage.sourceFile F w) = Returned (Some Storage.LEGACY_AUTH_FILE).
Proof.
  intros H1 H2. rewrite sourceFile_run. simpl. rewrite H1, H2. reflexivity.
Qed.

(** X17. [initAuth()] prefers the current file: when it exists, the legacy
    file is not read and nothing is written. A credential found in the
    legacy file only is migrated: it is loaded and then written once to
    the current file, with exactly the loaded content. *)
Theorem initAuth_prefers_current_and_migrates_legacy (w : World E) :
  (forall data e1,
     Storage.existsSync F Storage.AUTH_FILE (env w) = true ->
     Storage.readAuthData F Storage.AUTH_FILE (env w) = (Returned data, e1) ->
     calls (snd (Storage.initAuth X F w))
     = (calls w ++ [CallOther "read auth.json"])%list)
  /\ (forall data token e1,
      Storage.existsSync F Storage.AUTH_FILE (env w) = false ->
      Storage.existsSync F Storage.LEGACY_AUTH_FILE (env w) = true ->
      Storage.readAuthData F Storage.LEGACY_AUTH_FILE (env w)
      = (Returned data, e1) ->
      truthy (ad_accessToken data) = Some token ->
      Storage.existsSync F Storage.AUTH_FILE e1 = false ->
      appState (snd (Storage.initAuth X F w)) = Storage.loadedState data token
      /\ calls (snd (Storage.initAuth X F w))
         = (calls w
            ++ [CallOther "read legacy auth.json";
                CallWriteAuthFile
                  (authDataOf (Storage.loadedState data token))])%list).
Proof.
  split.
  - intros data e1 Hcur Hread.
    rewrite (initAuth_from w _ (sourceFile_current w Hcur)), Hread. cbv zeta.
    destruct (truthy (ad_accessToken data)); reflexivity.
  - intros data token e1 Hcur Hleg Hread Htok Hstill.
    rewrite (initAuth_from w _ (sourceFile_legacy w Hcur Hleg)), Hread.
    cbv zeta. rewrite Htok, Hstill.
    match goal with
    | |- context [saveAuth X ?w0] => destruct (saveAuth_run X w0) as [e4 ->]
    end.
    simpl. rewrite <- app_assoc. split; reflexivity.
Qed.

(** X18. What [saveAuth] writes, [initAuth] reads back: loading the file
    written for a state whose access token is not empty restores that
    token in both token fields and every other field up to falsy values
    (an empty string and a zero expiry come back as null), and saving the
    loaded state again would write the very same file. *)
Theorem saved_credential_round_trip
    (w : World E) (st : AppState) (token : string) (e1 : E) :
  Storage.existsSync F Storage.AUTH_FILE (env w) = true ->
  truthy (accessToken st) = Some token ->
  Storage.readAuthData F Storage.AUTH_FILE (env w)
  = (Returned (authDataOf st), e1) ->
  appState (snd (Storage.initAuth X F w))
  = {| accessToken := accessToken st;
       antigravityToken := accessToken st;
       refreshToken := truthy (refreshToken st);
       tokenExpiresAt := numOrUndefined (tokenExpiresAt st);
       userEmail := truthy (userEmail st);
       userName := truthy (userName st);
       cloudaicompanionProject := truthy (cloudaicompanionProject st) |}
  /\ authDataOf (appState (snd (Storage.initAuth X F w))) = authDataOf st.
Proof.
  intros Hcur Htok Hread.
  rewrite (initAuth_from w _ (sourceFile_current w Hcur)), Hread. cbv zeta.
  cbn [authDataOf ad_accessToken]. rewrite Htok. cbn [snd appState].
  destruct (truthy_Some _ _ Htok) as [Hacc Hne].
  assert (Hrefresh :
            orUndefined (Some (orElse (refreshToken st) ""))
            = truthy (refreshToken st)).
  { unfold orUndefined, orElse.
    destruct (truthy (refreshToken st)) as [r |] eqn:Hr; [| reflexivity].
    destruct (truthy_Some _ _ Hr) as [_ Hrne]. simpl.
    destruct (String.eqb_spec r "") as [Heq | _]; [contradiction | reflexivity]. }
  unfold Storage.loadedState. cbn [ad_refreshToken ad_expiresAt ad_userEmail
                                   ad_userName ad_projectId authDataOf].
  rewrite Hrefresh, numOrUndefined_idempotent.
  unfold orUndefined. rewrite !truthy_idempotent, Hacc. split; [reflexivity |].
  unfold authDataOf. cbn. unfold orUndefined, orElse.
  rewrite !truthy_idempotent, numOrUndefined_idempotent, Hacc. reflexivity.
Qed.



End StorageFacts.

(* ===================================================================== *)
(** ** Further properties of the auth routes *)
(* ===================================================================== *)

Section HandlerFacts.

Import Login AuthRoute.
Local Open Scope js_scope.

Context {E : Type} (X : Collaborators E) (S : Services E).

Lemma sync_frames : Storage.frames (syncAntigravityAccountFromState X S).
Proof. unfold syncAntigravityAccountFromState, service. frames_all. Qed.

Lemma sync_emits :
  Storage.emits Storage.isOther (syncAntigravityAccountFromState X S).
Proof. unfold syncAntigravityAccountFromState, service. emits_all. Qed.

Lemma startOAuthLogin_emits : Storage.emits (fun _ => True) (startOAuthLogin X).
Proof.
  unfold startOAuthLogin. emits_all.
  eapply emits_weaken; [| apply completion_emits]. auto.
Qed.

(** The status of a response built by [c.json]. *)
Ltac status_known :=
  match goal with
  | H : _ = (Returned ?r, _) |- status ?r = _ \/ _ =>
      unfold ret in H; inversion H; subst; simpl; auto
  end.

Lemma copilot_status (f : bool) (w w' : World E) (r : Response) :
  copilotLogin S f w = (Returned r, w') -> status r = 200 \/ status r = 400.
Proof.
  unfold copilotLogin, service. unfold bind at 1.
  destruct f.
  - unfold ret at 1. unfold bind.
    destruct (call _ (startCopilotDeviceFlow S) w) as [[d | m] w1];
      intros H; [status_known | discriminate].
  - destruct (call _ (importCopilotAuthFiles S) w) as [[[| first rest] | m] w1];
      [| intros H; status_known | discriminate].
    unfold bind.
    destruct (call _ (startCopilotDeviceFlow S) w1) as [[d | m] w2];
      intros H; [status_known | discriminate].
Qed.

Lemma codex_status (f : bool) (w w' : World E) (r : Response) :
  codexLogin S f w = (Returned r, w') -> status r = 200 \/ status r = 400.
Proof.
  unfold codexLogin, service. destruct f.
  - unfold tryCatch, bind.
    destruct (call _ (startCodexOAuthSession S) w) as [[d | m] w1];
      intros H; status_known.
  - unfold bind.
    destruct (call _ (importCodexAuthSources S) w) as [[res | m] w1];
      [| discriminate].
    destruct (accounts res); intros H; status_known.
Qed.

Lemma antigravity_status (b : LoginBody) (f : bool) (w w' : World E)
    (r : Response) :
  antigravityLogin X S b f w = (Returned r, w') ->
  status r = 200 \/ status r = 400.
Proof.
  unfold antigravityLogin. destruct f.
  - unfold tryCatch, bind.
    destruct (startAntigravityOAuthSession X w) as [[d | m] w1];
      intros H; status_known.
  - destruct (truthy (b_accessToken b)) as [token |].
    + unfold bind.
      destruct (setAuth X token (b_refreshToken b) (b_email b) (b_name b) w)
        as [[u | m] w1]; [| discriminate].
      destruct (syncAntigravityAccountFromState X S w1) as [[u' | m] w2];
        [| discriminate].
      intros H; status_known.
    + unfold bind.
      destruct (startOAuthLogin X w) as [[res | m] w1]; [| discriminate].
      destruct (success res).
      * destruct (syncAntigravityAccountFromState X S w1) as [[u' | m] w2];
          [| discriminate].
        intros H; status_known.
      * intros H; status_known.
Qed.

(** X20. The [/login] handler never throws: whatever the body and whatever
    its collaborators do, it answers, with status 200, 400 or 500, and a
    500 answer is [{error: message}]. An exception that escapes the
    provider's branch becomes the 500 answer with the exception's message:
    so for the Copilot import, the Copilot device flow and the Codex
    import. The failures a branch handles itself are answered with status
    400 and [{success: false, error}]: a forced Codex or Antigravity
    session that cannot be started, with the exception's message, and an
    interactive Antigravity login that fails, with the error of its
    result. *)
Theorem login_never_throws (b : LoginBody) (w : World E) :
  (exists r w',
     loginWith X S b w = (Returned r, w')
     /\ (status r = 200 \/ status r = 400 \/ status r = 500)
     /\ (status r = 500 ->
         exists message, body r = JsonBody (JObj [("error", JStr message)])))
  /\ (forall m e,
      providerOf b = "copilot" ->
      forced b = false ->
      importCopilotAuthFiles S (env w) = (Thrown m, e) ->
      fst (loginWith X S b w) = Returned (json (JObj [("error", JStr m)]) 500))
  /\ (forall m e,
      providerOf b = "copilot" ->
      forced b = true ->
      startCopilotDeviceFlow S (env w) = (Thrown m, e) ->
      fst (loginWith X S b w) = Returned (json (JObj [("error", JStr m)]) 500))
  /\ (forall m e,
      providerOf b = "codex" ->
      forced b = false ->
      importCodexAuthSources S (env w) = (Thrown m, e) ->
      fst (loginWith X S b w) = Returned (json (JObj [("error", JStr m)]) 500))
  /\ (forall m e,
      providerOf b = "codex" ->
      forced b = true ->
      startCodexOAuthSession S (env w) = (Thrown m, e) ->
      fst (loginWith X S b w) = Returned (errorJson (Some m) 400))
  /\ (forall m w1,
      providerOf b <> "copilot" ->
      providerOf b <> "codex" ->
      forced b = true ->
      startAntigravityOAuthSession X w = (Thrown m, w1) ->
      loginWith X S b w = (Returned (errorJson (Some m) 400), w1))
  /\ (forall res w1,
      providerOf b <> "copilot" ->
      providerOf b <> "codex" ->
      forced b = false ->
      truthy (b_accessToken b) = None ->
      startOAuthLogin X w = (Returned res, w1) ->
      success res = false ->
      loginWith X S b w = (Returned (errorJson (error res) 400), w1)).
Proof.
  split; [| split; [| split; [| split; [| split; [| split]]]]].
  - unfold loginWith. cbv zeta. unfold tryCatch.
    match goal with
    | |- context [match ?branch w with _ => _ end] =>
        destruct (branch w) as [[r | m] w1] eqn:Hbranch
    end.
    + exists r, w1. split; [reflexivity |].
      assert (Hst : status r = 200 \/ status r = 400).
      { destruct (providerOf b =? "copilot")%string;
          [eapply copilot_status; eauto |].
        destruct (providerOf b =? "codex")%string;
          [eapply codex_status; eauto | eapply antigravity_status; eauto]. }
      split; [tauto |]. intros H500. destruct Hst as [H | H]; rewrite H in H500;
        discriminate.
    + eexists. eexists. unfold ret. split; [reflexivity |]. simpl.
      split; [auto | intros _; eauto].
  - intros m e Hp Hf Hthrow. unfold loginWith. cbv zeta. rewrite Hp, Hf.
    cbn [String.eqb Ascii.eqb Bool.eqb].
    unfold tryCatch, copilotLogin, service, bind, call. cbv beta iota.
    rewrite Hthrow. reflexivity.
  - intros m e Hp Hf Hthrow. unfold loginWith. cbv zeta. rewrite Hp, Hf.
    cbn [String.eqb Ascii.eqb Bool.eqb].
    unfold tryCatch, copilotLogin, service, bind, call, ret. cbv beta iota.
    cbn [env]. rewrite Hthrow. reflexivity.
  - intros m e Hp Hf Hthrow. unfold loginWith. cbv zeta. rewrite Hp, Hf.
    cbn [String.eqb Ascii.eqb Bool.eqb].
    unfold codexLogin, tryCatch, service, bind, call. cbv beta iota.
    rewrite Hthrow. reflexivity.
  - intros m e Hp Hf Hthrow. unfold loginWith. cbv zeta. rewrite Hp, Hf.
    cbn [String.eqb Ascii.eqb Bool.eqb].
    unfold codexLogin, tryCatch, service, bind, call. cbv beta iota.
    rewrite Hthrow. reflexivity.
  - intros m w1 Hp1 Hp2 Hf Hthrow. unfold loginWith. cbv zeta.
    apply String.eqb_neq in Hp1, Hp2. rewrite Hp1, Hp2, Hf.
    unfold antigravityLogin, tryCatch, bind. cbv beta iota.
    rewrite Hthrow. reflexivity.
  - intros res w1 Hp1 Hp2 Hf Htoken Hrun Hfail. unfold loginWith. cbv zeta.
    apply String.eqb_neq in Hp1, Hp2. rewrite Hp1, Hp2, Hf.
    unfold antigravityLogin, tryCatch. rewrite Htoken. unfold bind.
    cbv beta iota. rewrite Hrun, Hfail. reflexivity.
Qed.

Lemma readBody_blank (t : string) :
  trim t = "" \/ (exists m, jsonParse S t = Thrown m) ->
  readBody S t = emptyBody.
Proof.
  unfold readBody. intros [Hblank | [m Hbad]].
  - rewrite Hblank. rewrite orb_true_r. reflexivity.
  - destruct (orb _ _); [reflexivity | rewrite Hbad; reflexivity].
Qed.

Lemma startOAuthLogin_first_call (w : World E) :
  exists more,
    calls (snd (startOAuthLogin X w))
    = (calls w ++ CallStartOAuthCallbackServer :: more)%list.
Proof.
  unfold startOAuthLogin. unfold tryCatch at 1. unfold bind at 1.
  unfold call at 1.
  destruct (startOAuthCallbackServer X (env w)) as [[[srv port] | m] e1].
  - set (w1 := mkWorld _ _ _ e1).
    match goal with
    | |- context [match ?k w1 with _ => _ end] =>
        assert (Hk : Storage.emits (fun _ => True) k)
    end.
    { emits_all. eapply emits_weaken; [| apply completion_emits]. auto. }
    destruct (Hk w1) as (more & Hmore & _).
    match goal with
    | |- context [match ?k w1 with _ => _ end] =>
        destruct (k w1) as [[res | m] w2]
    end; simpl in *; rewrite Hmore; unfold w1; simpl;
      rewrite <- app_assoc; eexists; reflexivity.
  - simpl. exists []. reflexivity.
Qed.

(** X21. A [/login] request whose body is blank or is not valid JSON is
    handled like the empty body [{}]: it runs the interactive Antigravity
    login, whose first call starts the callback listener. *)
Theorem blank_body_starts_oauth_login (req : Request) (w : World E) :
  trim (text req) = "" \/ (exists m, jsonParse S (text req) = Thrown m) ->
  login X S req w = loginWith X S emptyBody w
  /\ exists more,
       calls (snd (login X S req w))
       = (calls w ++ CallStartOAuthCallbackServer :: more)%list.
Proof.
  intros Hblank. unfold login. rewrite (readBody_blank _ Hblank).
  split; [reflexivity |].
  unfold loginWith. cbv zeta.
  change (providerOf emptyBody =? "copilot")%string with false.
  change (providerOf emptyBody =? "codex")%string with false.
  cbv iota. unfold antigravityLogin.
  change (forced emptyBody) with false. cbv iota.
  change (truthy (b_accessToken emptyBody)) with (@None string). cbv iota.
  destruct (startOAuthLogin_first_call w) as [more Hfirst].
  unfold tryCatch. unfold bind at 1.
  destruct (startOAuthLogin X w) as [[res | m] w1]; simpl in Hfirst.
  - destruct (success res).
    + unfold bind.
      destruct (sync_emits w1) as (more2 & Hmore2 & _).
      destruct (syncAntigravityAccountFromState X S w1) as [[u | m] w2];
        simpl in *; rewrite Hmore2, Hfirst, <- app_assoc; eexists; reflexivity.
    + simpl. eauto.
  - simpl. eauto.
Qed.



Lemma service_calls {A} (name : string) (f : E -> Completion A * E) (w : World E) :
  calls (snd (service name f w)) = (calls w ++ [CallOther name])%list.
Proof. unfold service, call. destruct (f (env w)). reflexivity. Qed.

(** X23. [force: true] skips the import of credential files: a forced
    Copilot login calls nothing but the device flow, and a forced Codex
    login calls nothing but the browser session and answers 200 or, when
    that session cannot be started, 400. An unforced Codex login only
    imports: it never opens a browser session. *)
Theorem forced_login_skips_import (b : LoginBody) (w : World E) :
  (providerOf b = "copilot" -> forced b = true ->
   calls (snd (loginWith X S b w))
   = (calls w ++ [CallOther "startCopilotDeviceFlow"])%list)
  /\ (providerOf b = "codex" -> forced b = true ->
      calls (snd (loginWith X S b w))
      = (calls w ++ [CallOther "startCodexOAuthSession"])%list
      /\ exists r, fst (loginWith X S b w) = Returned r
                   /\ (status r = 200 \/ status r = 400))
  /\ (providerOf b = "codex" -> forced b = false ->
      calls (snd (loginWith X S b w))
      = (calls w ++ [CallOther "importCodexAuthSources"])%list).
Proof.
  unfold loginWith. cbv zeta. split; [| split].
  - intros Hp Hf. rewrite Hp, Hf. simpl.
    unfold copilotLogin. unfold tryCatch, bind. unfold ret at 1.
    generalize (service_calls "startCopilotDeviceFlow" (startCopilotDeviceFlow S) w).
    destruct (service "startCopilotDeviceFlow" (startCopilotDeviceFlow S) w)
      as [[d | m] w1]; simpl; auto.
  - intros Hp Hf. rewrite Hp, Hf. simpl.
    unfold codexLogin. unfold tryCatch, bind.
    generalize (service_calls "startCodexOAuthSession" (startCodexOAuthSession S) w).
    destruct (service "startCodexOAuthSession" (startCodexOAuthSession S) w)
      as [[d | m] w1]; simpl; intros Hc; (split; [exact Hc |]);
      eexists; (split; [reflexivity |]); simpl; auto.
  - intros Hp Hf. rewrite Hp, Hf. simpl.
    unfold codexLogin. unfold tryCatch, bind.
    generalize (service_calls "importCodexAuthSources" (importCodexAuthSources S) w).
    destruct (service "importCodexAuthSources" (importCodexAuthSources S) w)
      as [[res | m] w1]; simpl; [| auto].
    destruct (accounts res); simpl; auto.
Qed.

Lemma toLowerCase_idempotent (s : string) :
  toLowerCase (toLowerCase s) = toLowerCase s.
Proof.
  induction s as [| c rest IH]; simpl; [reflexivity |].
  rewrite IH. f_equal. unfold lowerChar.
  destruct (andb (Nat.leb 65 (nat_of_ascii c)) (Nat.leb (nat_of_ascii c) 90))
    eqn:Hupper.
  - apply andb_true_iff in Hupper. destruct Hupper as [H1 H2].
    apply Nat.leb_le in H1. apply Nat.leb_le in H2.
    rewrite nat_ascii_embedding by lia.
    assert (Hno : Nat.leb (nat_of_ascii c + 32) 90 = false)
      by (apply Nat.leb_gt; lia).
    rewrite Hno, andb_false_r. reflexivity.
  - rewrite Hupper. reflexivity.
Qed.

(** X24. The provider of a [/login] body is matched without regard to
    case: two bodies that differ only in the spelling of a non-empty
    provider name, equal once lower-cased, are handled identically. *)
Theorem provider_is_case_insensitive
    (token refresh mail name : option string) (force : option bool)
    (p1 p2 : string) (w : World E) :
  p1 <> "" ->
  p2 <> "" ->
  toLowerCase p1 = toLowerCase p2 ->
  loginWith X S (mkLoginBody token refresh mail name (Some p1) force) w
  = loginWith X S (mkLoginBody token refresh mail name (Some p2) force) w.
Proof.
  intros H1 H2 Hlow. unfold loginWith, providerOf, orElse. simpl.
  destruct (String.eqb_spec p1 "") as [Heq | _]; [contradiction |].
  destruct (String.eqb_spec p2 "") as [Heq | _]; [contradiction |].
  rewrite Hlow. reflexivity.
Qed.

(** X25. The status route asks for a state: without a non-empty [state]
    parameter it answers 400 "state required" and polls nothing. With one
    that matches no active session it answers 200 with [success: false],
    status "error" and the message "No active Antigravity OAuth session";
    while the matching session waits for its callback it answers 200 with
    [success: true] and status "pending". None of the three changes
    anything. *)
Theorem status_route_answers (req : Request) (w : World E) :
  (truthy (queryParam "state" (query req)) = None ->
   antigravityOAuthStatus X S req w
   = (Returned (errorJson (Some "state required") 400), w))
  /\ (forall st,
      truthy (queryParam "state" (query req)) = Some st ->
      (activeAntigravityOAuthSession w = None
       \/ exists s, activeAntigravityOAuthSession w = Some s /\ state s <> st) ->
      antigravityOAuthStatus X S req w = (Returned Storage.noSessionAnswer, w))
  /\ (forall s,
      truthy (queryParam "state" (query req)) = Some (state s) ->
      activeAntigravityOAuthSession w = Some s ->
      callback s = None ->
      dateNow X (env w) <= expiresAt s ->
      antigravityOAuthStatus X S req w
      = (Returned (json200 (JObj [("success", JBool true);
                                  ("status", JStr "pending")])), w)).
Proof.
  unfold antigravityOAuthStatus. split; [| split].
  - intros Hnone. rewrite Hnone. reflexivity.
  - intros st Hst Hno. rewrite Hst. unfold bind at 1.
    assert (Hpoll : pollAntigravityOAuthSession X st w
                    = (Returned noActiveSession, w)).
    { destruct Hno as [Hnone | (s & Hs & Hne)].
      - apply poll_without_session. exact Hnone.
      - unfold pollAntigravityOAuthSession. unfold_monad. rewrite Hs.
        destruct (String.eqb_spec (state s) st) as [Heq | _];
          [contradiction | reflexivity]. }
    rewrite Hpoll. reflexivity.
  - intros s Hst Hs Hcb Hlive. rewrite Hst. unfold bind at 1.
    assert (Hpoll : pollAntigravityOAuthSession X (state s) w
                    = (Returned (mkPollResult pending None None), w)).
    { unfold pollAntigravityOAuthSession. unfold_monad. rewrite Hs.
      rewrite String.eqb_refl. simpl. apply Z.ltb_ge in Hlive.
      rewrite Hlive, Hcb. reflexivity. }
    rewrite Hpoll. reflexivity.
Qed.

(** X26. The cancel route never throws and always answers 200 with
    [{success: cancelled}]: when it reports true a session was active and
    none is afterwards, and when it reports false nothing has changed. *)
Theorem cancel_route_reports (req : Request) (w : World E) :
  exists cancelled w',
    antigravityOAuthCancel X req w
    = (Returned (json200 (JObj [("success", JBool cancelled)])), w')
    /\ (cancelled = true ->
        activeAntigravityOAuthSession w <> None
        /\ activeAntigravityOAuthSession w' = None
        /\ appState w' = appState w)
    /\ (cancelled = false -> w' = w).
Proof.
  unfold antigravityOAuthCancel. unfold bind at 1.
  rewrite (cancel_unfold X).
  destruct (activeAntigravityOAuthSession w) as [s |] eqn:Hs.
  - assert (Htorn : exists w', (stopAntigravityOAuthSession X ;; ret true) w
                               = (Returned true, w')
                               /\ activeAntigravityOAuthSession w' = None
                               /\ appState w' = appState w).
    { destruct (stop_returns X w) as (w' & Hrun & Hnone & Hstate).
      exists w'. unfold bind. rewrite Hrun. auto. }
    destruct Htorn as (w' & Hrun & Hnone & Hstate).
    destruct (truthy (queryParam "state" (query req))) as [given |].
    + destruct (state s =? given)%string.
      * rewrite Hrun. exists true, w'. unfold ret.
        repeat split; try assumption; discriminate.
      * exists false, w. unfold ret. repeat split; discriminate.
    + rewrite Hrun. exists true, w'. unfold ret.
      repeat split; try assumption; discriminate.
  - exists false, w. unfold ret. repeat split; discriminate.
Qed.

(** X27. Logging out and then asking for the status: the logout answers
    [{success: true, authenticated: false}] and the status that follows
    answers [{authenticated: false, email: null, name: null}], whatever
    the state was before. *)
Theorem logout_then_status (req req' : Request) (w : World E) :
  exists w',
    handle X S HLogout req w
    = (Returned (json200 (JObj [("success", JBool true);
                                ("authenticated", JBool false)])), w')
    /\ handle X S HStatus req' w'
       = (Returned (json200 (JObj [("authenticated", JBool false);
                                   ("email", JNull);
                                   ("name", JNull)])), w')
    /\ activeAntigravityOAuthSession w' = activeAntigravityOAuthSession w.
Proof.
  eexists. unfold handle, clearAuth, getUserInfo, isAuthenticated. unfold_monad.
  simpl. repeat split.
Qed.

(** X28. Synchronizing the account from the shared state never touches
    the state or the session, and without an access token it adds no
    account: the account manager is loaded and nothing else is called. *)
Theorem sync_needs_access_token (w : World E) :
  activeAntigravityOAuthSession (snd (syncAntigravityAccountFromState X S w))
  = activeAntigravityOAuthSession w
  /\ appState (snd (syncAntigravityAccountFromState X S w)) = appState w
  /\ (truthy (accessToken (appState w)) = None ->
      calls (snd (syncAntigravityAccountFromState X S w))
      = (calls w ++ [CallOther "accountManager.load"])%list).
Proof.
  destruct (sync_frames w) as [Hsess Hstate].
  split; [exact Hsess | split; [exact Hstate |]].
  intros Hnone. unfold syncAntigravityAccountFromState.
  unfold bind at 1.
  generalize (service_calls "accountManager.load" (accountManagerLoad S) w).
  assert (Hframe := frames_call (CallOther "accountManager.load")
                      (accountManagerLoad S) w).
  change (call (CallOther "accountManager.load") (accountManagerLoad S))
    with (service "accountManager.load" (accountManagerLoad S)) in Hframe.
  destruct (service "accountManager.load" (accountManagerLoad S) w)
    as [[u | m] w1]; simpl in *; [| auto].
  intros Hcalls. unfold bind, getState. destruct Hframe as [_ Hst].
  rewrite Hst, Hnone. simpl. exact Hcalls.
Qed.

End HandlerFacts.

(* ===================================================================== *)
(** ** A further property of the model catalog *)
(* ===================================================================== *)

Section MergeFacts.

Import Models.

Lemma find_over_app {A} (f : A -> bool) (l1 l2 : list A) :
  find f (l1 ++ l2)
  = match find f l1 with Some a => Some a | None => find f l2 end.
Proof.
  induction l1 as [| a l1 IH]; simpl; [reflexivity |].
  destruct (f a); [reflexivity | exact IH].
Qed.

Lemma find_absent (i : string) (ms : list ModelDescriptor) :
  ~ In i (map id ms) -> find (hasId i) ms = None.
Proof.
  induction ms as [| m rest IH]; intros Hnot; simpl; [reflexivity |].
  unfold hasId at 1. destruct (String.eqb_spec (id m) i) as [Heq | Hne].
  - exfalso. apply Hnot. left. exact Heq.
  - apply IH. intros Hin. apply Hnot. right. exact Hin.
Qed.

Lemma find_present (i : string) (ms : list ModelDescriptor) :
  In i (map id ms) -> exists m, find (hasId i) ms = Some m.
Proof.
  induction ms as [| m rest IH]; intros Hin; simpl in *; [contradiction |].
  unfold hasId at 1. destruct (String.eqb_spec (id m) i) as [Heq | Hne].
  - eauto.
  - destruct Hin as [Heq | Hin]; [contradiction | apply IH; exact Hin].
Qed.

Lemma find_filter_other (i : string) (seen : list string)
    (ms : list ModelDescriptor) :
  ~ In i seen ->
  find (hasId i) (filter (fun m => negb (known seen (id m))) ms)
  = find (hasId i) ms.
Proof.
  intros Hnot. induction ms as [| m rest IH]; simpl; [reflexivity |].
  destruct (known seen (id m)) eqn:Hk; simpl.
  - unfold hasId at 2. destruct (String.eqb_spec (id m) i) as [Heq | Hne].
    + exfalso. apply Hnot. rewrite <- Heq. apply known_In. exact Hk.
    + exact IH.
  - unfold hasId at 1 3. destruct (id m =? i)%string; [reflexivity | exact IH].
Qed.

(** X29. Looking a model up by id in the visible catalog: an id that the
    dynamic list provides is answered by the dynamic entry, with the
    dynamic label, also when the static list has the same id; any other id
    is answered exactly as the static list answers it. *)
Theorem dynamic_entry_shadows_static
    (dynamic static : list ModelDescriptor) (i : string) :
  (In i (map id (sanitizeDynamic dynamic)) ->
   find (hasId i) (mergeCatalog dynamic static)
   = find (hasId i) (sanitizeDynamic dynamic)
   /\ find (hasId i) (mergeCatalog dynamic static) <> None)
  /\ (~ In i (map id (sanitizeDynamic dynamic)) ->
      find (hasId i) (mergeCatalog dynamic static) = find (hasId i) static).
Proof.
  unfold mergeCatalog. cbv zeta. rewrite find_over_app. split.
  - intros Hin. destruct (find_present _ _ Hin) as [m ->].
    split; [reflexivity | discriminate].
  - intros Hnot. rewrite (find_absent _ _ Hnot).
    apply find_filter_other. exact Hnot.
Qed.

End MergeFacts.

(* ===================================================================== *)
(** ** The further properties on concrete runs *)
(* ===================================================================== *)

Import AuthRoute.

Lemma failed_completion_keeps_state_witness :
  appState
    (snd (completeOAuthCallbackLogin Storage.Offline.collaborators
            (mkCallback (Some "code") (Some "state-0") None)
            "state-0" Demo.uri (Demo.world 0)))
  = appState (Demo.world 0).
Proof.
  apply (proj1 (proj2 (failed_completion_keeps_state
                         Storage.Offline.collaborators
                         (mkCallback (Some "code") (Some "state-0") None)
                         "state-0" Demo.uri (Demo.world 0)))
           "network down").
  reflexivity.
Defined.

Lemma successful_completion_saves_what_it_stored_witness :
  userName
    (appState
       (snd (completeOAuthCallbackLogin Demo.collaborators
               (mkCallback (Some "code") (Some "state-0") None)
               "state-0" Demo.uri (Demo.world 0))))
  = Some "user".
Proof.
  destruct (successful_completion_saves_what_it_stored Demo.collaborators
              (mkCallback (Some "code") (Some "state-0") None)
              "state-0" Demo.uri (Demo.world 0)
              (snd (completeOAuthCallbackLogin Demo.collaborators
                      (mkCallback (Some "code") (Some "state-0") None)
                      "state-0" Demo.uri (Demo.world 0)))
              (mkLoginResult true None (Some "user@example.com"))
              eq_refl eq_refl)
    as (_ & _ & _ & Hname & _).
  rewrite Hname. reflexivity.
Defined.

Lemma started_session_shape_witness :
  exists s,
    activeAntigravityOAuthSession Demo.opened = Some s
    /\ expiresAt s = 300000.
Proof.
  destruct (started_session_shape Demo.collaborators (Demo.world 0) Demo.opened
              (mkDescriptor "state-0"
                 (generateAuthURL Demo.collaborators Demo.uri "state-0")
                 Demo.uri 300000)
              eq_refl)
    as (s & Hs & Hd & _).
  exists s. split; [exact Hs |].
  change (expiresAt s) with (d_expiresAt (describe s)). rewrite Hd. reflexivity.
Defined.

Lemma failed_start_leaves_no_session_witness :
  activeAntigravityOAuthSession
    (snd (startAntigravityOAuthSession Storage.Offline.collaborators
            (Demo.at_time 400000 Demo.opened)))
  = None.
Proof.
  apply (failed_start_leaves_no_session Storage.Offline.collaborators
           (Demo.at_time 400000 Demo.opened) _ "port in use").
  reflexivity.
Defined.

Lemma expiry_instant_is_live_for_poll_only_witness :
  pollAntigravityOAuthSession Demo.collaborators "state-0"
    (Demo.at_time 300000 Demo.opened)
  = (Returned (mkPollResult pending None None), Demo.at_time 300000 Demo.opened).
Proof.
  apply (proj1 (expiry_instant_is_live_for_poll_only Demo.collaborators
                  (Demo.at_time 300000 Demo.opened)
                  (mkSession "state-0"
                     (generateAuthURL Demo.collaborators Demo.uri "state-0")
                     Demo.uri 300000 0%nat None)
                  eq_refl eq_refl eq_refl)).
Defined.

Lemma pending_poll_changes_nothing_witness :
  exists s,
    activeAntigravityOAuthSession (Demo.at_time 1000 Demo.opened) = Some s
    /\ callback s = None.
Proof.
  destruct (pending_poll_changes_nothing Demo.collaborators
              (Demo.at_time 1000 Demo.opened) (Demo.at_time 1000 Demo.opened)
              "state-0" (mkPollResult pending None None) eq_refl eq_refl)
    as (_ & s & Hs & _ & Hcb & _).
  exists s. split; assumption.
Defined.

Lemma poll_settles_and_tears_down_witness :
  pollAntigravityOAuthSession Storage.Offline.collaborators "state-0"
    (Storage.Offline.delivered (mkCallback (Some "code") (Some "state-0") None))
  = Storage.settle Storage.Offline.collaborators
      (fst (completeOAuthCallbackLogin Storage.Offline.collaborators
              (mkCallback (Some "code") (Some "state-0") None) "state-0" Demo.uri
              (Storage.Offline.delivered
                 (mkCallback (Some "code") (Some "state-0") None))))
      (snd (completeOAuthCallbackLogin Storage.Offline.collaborators
              (mkCallback (Some "code") (Some "state-0") None) "state-0" Demo.uri
              (Storage.Offline.delivered
                 (mkCallback (Some "code") (Some "state-0") None)))).
Proof.
  apply (proj2 (proj2 (proj2
           (poll_settles_and_tears_down Storage.Offline.collaborators
              (Storage.Offline.delivered
                 (mkCallback (Some "code") (Some "state-0") None))
              (Thrown "rejected"))))
           (mkSession "state-0"
              (generateAuthURL Demo.collaborators Demo.uri "state-0")
              Demo.uri 300000 0%nat
              (Some (mkCallback (Some "code") (Some "state-0") None)))
           (mkCallback (Some "code") (Some "state-0") None)
           eq_refl eq_refl ltac:(vm_compute; discriminate)).
Defined.

Lemma session_flow_end_to_end_witness :
  exists w3,
    pollAntigravityOAuthSession Demo.collaborators "state-0"
      (withEnv (Demo.mkEnv 1000 1)
         (Storage.Offline.delivered (mkCallback (Some "code") (Some "state-0") None)))
    = (Returned (mkPollResult succeeded None (Some "user@example.com")), w3)
    /\ activeAntigravityOAuthSession w3 = None.
Proof.
  destruct (session_flow_end_to_end Demo.collaborators (Demo.world 0) Demo.opened
              (mkDescriptor "state-0"
                 (generateAuthURL Demo.collaborators Demo.uri "state-0")
                 Demo.uri 300000)
              "code" (mkTokens "access-code" "refresh" 3600)
              (mkUserInfo "user@example.com") None
              (Demo.mkEnv 1000 1) (Demo.mkEnv 1000 1) (Demo.mkEnv 1000 1)
              (Demo.mkEnv 1000 1)
              eq_refl ltac:(discriminate) ltac:(discriminate)
              ltac:(vm_compute; discriminate) eq_refl eq_refl eq_refl)
    as (w3 & Hrun & Hnone & _).
  exists w3. split; assumption.
Defined.

Lemma listener_rejection_is_reported_witness :
  exists w',
    pollAntigravityOAuthSession Demo.collaborators "state-0"
      (snd (onCallbackError "state-0" "listener closed" Demo.opened))
    = (Returned (mkPollResult failed (Some "listener closed") None), w')
    /\ activeAntigravityOAuthSession w' = None.
Proof.
  destruct (listener_rejection_is_reported Demo.collaborators Demo.opened
              (mkSession "state-0"
                 (generateAuthURL Demo.collaborators Demo.uri "state-0")
                 Demo.uri 300000 0%nat None)
              "listener closed" eq_refl ltac:(vm_compute; discriminate))
    as (w' & Hrun & Hnone & _).
  exists w'. split; assumption.
Defined.

Lemma oauth_login_always_releases_listener_witness :
  exists res w',
    startOAuthLogin Storage.Offline.silent (Demo.world 0) = (Returned res, w')
    /\ In (CallServerStop 7%nat) (calls w').
Proof.
  destruct (oauth_login_always_releases_listener Storage.Offline.silent
              (Demo.world 0))
    as (res & w' & Hrun & _ & Hstop & _).
  exists res, w'. split; [exact Hrun |].
  apply (Hstop 7%nat 51121 (Demo.mkEnv 0 0)). reflexivity.
Defined.

Lemma oauth_login_times_out_witness :
  exists w',
    startOAuthLogin Storage.Offline.silent (Demo.world 0)
    = (Returned (failure "Authentication timeout (5 minutes)"), w').
Proof.
  destruct (oauth_login_times_out Storage.Offline.silent (Demo.world 0)
              7%nat 51121 (Demo.mkEnv 0 0) eq_refl (fun _ => eq_refl))
    as (w' & Hrun & _).
  exists w'. exact Hrun.
Defined.

Lemma refresh_replaces_access_token_only_witness :
  exists b w',
    Storage.refreshToken Demo.collaborators Storage.Offline.legacyFiles
      Storage.Offline.signedIn
    = (Returned b, w')
    /\ b = true
    /\ refreshToken (appState w') = Some "saved-refresh".
Proof.
  destruct (refresh_replaces_access_token_only Demo.collaborators
              Storage.Offline.legacyFiles Storage.Offline.signedIn)
    as (b & w' & Hrun & _ & _ & Hok & _).
  destruct (Hok "saved-refresh" (mkTokens "fresh-token" "ignored" 3600)
              (Demo.mkEnv 0 0) eq_refl eq_refl)
    as (Hb & _ & _ & Hrefresh & _).
  exists b, w'. split; [exact Hrun | split; [exact Hb |]].
  rewrite Hrefresh. reflexivity.
Defined.

Lemma initAuth_loads_all_or_nothing_witness :
  exists w',
    Storage.initAuth Demo.collaborators
      {| Storage.existsSync := fun _ _ => false;
         Storage.readAuthData := fun _ e => (Thrown "ENOENT", e);
         Storage.writeEmpty := fun _ e => (Returned tt, e);
         Storage.refreshAccessToken := fun _ e => (Thrown "offline", e) |}
      (Demo.world 0)
    = (Returned tt, w')
    /\ w' = Demo.world 0.
Proof.
  destruct (initAuth_loads_all_or_nothing Demo.collaborators
              {| Storage.existsSync := fun _ _ => false;
                 Storage.readAuthData := fun _ e => (Thrown "ENOENT", e);
                 Storage.writeEmpty := fun _ e => (Returned tt, e);
                 Storage.refreshAccessToken := fun _ e => (Thrown "offline", e) |}
              (Demo.world 0))
    as (w' & Hrun & _ & _ & Hnone & _).
  exists w'. split; [exact Hrun |]. apply Hnone; reflexivity.
Defined.

Lemma initAuth_prefers_current_and_migrates_legacy_witness :
  calls (snd (Storage.initAuth Demo.collaborators Storage.Offline.legacyFiles
                (Demo.world 0)))
  = [CallOther "read legacy auth.json";
     CallWriteAuthFile
       (authDataOf (Storage.loadedState Storage.Offline.saved "saved-token"))].
Proof.
  apply (proj2 (initAuth_prefers_current_and_migrates_legacy Demo.collaborators
                  Storage.Offline.legacyFiles (Demo.world 0))
           Storage.Offline.saved "saved-token" (Demo.mkEnv 0 0)
           eq_refl eq_refl eq_refl eq_refl eq_refl).
Defined.

Lemma saved_credential_round_trip_witness :
  authDataOf
    (appState (snd (Storage.initAuth Storage.Offline.collaborators
                      Storage.Offline.files (Demo.world 0))))
  = authDataOf Storage.Offline.signedIn.(appState).
Proof.
  apply (proj2 (saved_credential_round_trip Storage.Offline.collaborators
                  Storage.Offline.files (Demo.world 0)
                  (appState Storage.Offline.signedIn) "saved-token"
                  (Demo.mkEnv 0 0) eq_refl eq_refl eq_refl)).
Defined.


Lemma login_never_throws_witness :
  fst (loginWith Demo.collaborators Storage.Offline.services
         (Storage.Offline.copilotBody true) (Demo.world 0))
  = Returned (json (JObj [("error", JStr "device flow unavailable")]) 500)
  /\ fst (loginWith Demo.collaborators Storage.Offline.services
            (mkLoginBody None None None None (Some "codex") (Some true))
            (Demo.world 0))
     = Returned (errorJson (Some "no free port") 400).
Proof.
  split.
  - apply (proj1 (proj2 (proj2
             (login_never_throws Demo.collaborators Storage.Offline.services
                (Storage.Offline.copilotBody true) (Demo.world 0))))
             "device flow unavailable" (Demo.mkEnv 0 0)).
    + reflexivity.
    + reflexivity.
    + reflexivity.
  - apply (proj1 (proj2 (proj2 (proj2 (proj2
             (login_never_throws Demo.collaborators Storage.Offline.services
                (mkLoginBody None None None None (Some "codex") (Some true))
                (Demo.world 0))))))
             "no free port" (Demo.mkEnv 0 0)).
    + reflexivity.
    + reflexivity.
    + reflexivity.
Defined.

Lemma blank_body_starts_oauth_login_witness :
  login Demo.collaborators Demo.services (mkRequest POST "/login" [] "  ")
        (Demo.world 0)
  = loginWith Demo.collaborators Demo.services emptyBody (Demo.world 0).
Proof.
  apply (proj1 (blank_body_starts_oauth_login Demo.collaborators Demo.services
                  (mkRequest POST "/login" [] "  ") (Demo.world 0)
                  (or_introl eq_refl))).
Defined.


Lemma forced_login_skips_import_witness :
  calls (snd (loginWith Demo.collaborators Demo.services
                (Storage.Offline.copilotBody true) (Demo.world 0)))
  = [CallOther "startCopilotDeviceFlow"].
Proof.
  apply (proj1 (forced_login_skips_import Demo.collaborators Demo.services
                  (Storage.Offline.copilotBody true) (Demo.world 0))
           eq_refl eq_refl).
Defined.

Lemma provider_is_case_insensitive_witness :
  loginWith Demo.collaborators Demo.services
    (mkLoginBody None None None None (Some "Copilot") None) (Demo.world 0)
  = loginWith Demo.collaborators Demo.services
      (mkLoginBody None None None None (Some "COPILOT") None) (Demo.world 0).
Proof.
  apply (provider_is_case_insensitive Demo.collaborators Demo.services
           None None None None None "Copilot" "COPILOT" (Demo.world 0)
           ltac:(discriminate) ltac:(discriminate) eq_refl).
Defined.

Lemma status_route_answers_witness :
  antigravityOAuthStatus Demo.collaborators Demo.services
    (mkRequest GET "/antigravity/oauth/status" [("state", "")] "") Demo.opened
  = (Returned (errorJson (Some "state required") 400), Demo.opened)
  /\ antigravityOAuthStatus Demo.collaborators Demo.services
       (mkRequest GET "/antigravity/oauth/status" [("state", "forged")] "")
       Demo.opened
     = (Returned Storage.noSessionAnswer, Demo.opened).
Proof.
  split.
  - apply (proj1 (status_route_answers Demo.collaborators Demo.services
                    (mkRequest GET "/antigravity/oauth/status" [("state", "")] "")
                    Demo.opened)).
    reflexivity.
  - apply (proj1 (proj2 (status_route_answers Demo.collaborators Demo.services
                           (mkRequest GET "/antigravity/oauth/status"
                                      [("state", "forged")] "")
                           Demo.opened))
             "forged").
    + reflexivity.
    + right. eexists. split; [reflexivity | discriminate].
Defined.

Lemma cancel_route_reports_witness :
  exists cancelled w',
    antigravityOAuthCancel Demo.collaborators
      (mkRequest POST "/antigravity/oauth/cancel" [("state", "forged")] "")
      Demo.opened
    = (Returned (json200 (JObj [("success", JBool cancelled)])), w')
    /\ w' = Demo.opened.
Proof.
  destruct (cancel_route_reports Demo.collaborators
              (mkRequest POST "/antigravity/oauth/cancel" [("state", "forged")] "")
              Demo.opened)
    as (cancelled & w' & Hrun & _ & Hfalse).
  exists cancelled, w'. split; [exact Hrun |]. apply Hfalse.
  vm_compute in Hrun. inversion Hrun. reflexivity.
Defined.

Lemma sync_needs_access_token_witness :
  calls (snd (syncAntigravityAccountFromState Demo.collaborators Demo.services
                (Demo.world 0)))
  = [CallOther "accountManager.load"].
Proof.
  apply (proj2 (proj2 (sync_needs_access_token Demo.collaborators Demo.services
                         (Demo.world 0)))).
  reflexivity.
Defined.

Lemma dynamic_entry_shadows_static_witness :
  find (Models.hasId "gpt-4o")
    (Models.mergeCatalog [Models.mkModel "gpt-4o" "Copilot - GPT-4o Dynamic"]
       (Routing.Demo.static Models.copilot))
  = Some (Models.mkModel "gpt-4o" "Copilot - GPT-4o Dynamic").
Proof.
  rewrite (proj1 (proj1 (dynamic_entry_shadows_static
                           [Models.mkModel "gpt-4o" "Copilot - GPT-4o Dynamic"]
                           (Routing.Demo.static Models.copilot) "gpt-4o")
                    (or_introl eq_refl))).
  reflexivity.
Defined.
